(** * wechat_clean: WeChat HTML to Markdown, a shallow embedding

    The development follows [src/wechat_clean.py] function by function.
    Python values are modelled as the interpreter has them:

    - a [str] is a sequence of Unicode code points, here [list N];
    - a [float] is an IEEE-754 binary64 number, here [spec_float] at
      precision 53 and maximal exponent 1024, with round-to-nearest-even;
    - a raised exception is the [Raise] branch of a small error monad (the
      only one the program can raise on a parsed document is the
      [ValueError] of [float]; the interpreter's recursion limit is left
      out);
    - the BeautifulSoup tree is an inductive [node]: a tag, or a string with
      its class (a plain [NavigableString] or [CData], a [Comment], or one of
      the classes that [get_text] skips by default: the strings of [script],
      [style], [template], [rt] and [rp], declarations, doctypes and
      processing instructions); it is read through the few library calls the
      program uses ([get_text], [find_all], [children], [get]); every tag has
      a name;
    - each regular expression of the program is a function on code points
      that scans the text once, with lemmas that state what it does to the
      runs its pattern matches. *)

From Stdlib Require Import List ZArith NArith PArith Lia Bool String Ascii.
From Stdlib Require Import Floats.SpecFloat.
From Stdlib Require DecimalNat DecimalFacts.
Import ListNotations.

Set Implicit Arguments.

(** [len] is the length of a sequence of code points. *)
Abbreviation length := List.length.

(** ** Python strings *)

Module Py.

Definition char := N.
Definition str := list char.

(** Literals of the source are written as Rocq strings (ASCII only). *)
Fixpoint of_string (s : string) : str :=
  match s with
  | EmptyString => []
  | String a s' => N_of_ascii a :: of_string s'
  end.

Definition LF : char := 10%N.
Definition TAB : char := 9%N.
Definition SP : char := 32%N.
Definition NBSP : char := 160%N.     (* U+00A0 *)
Definition ZWSP : char := 8203%N.    (* U+200B *)

Fixpoint eqb (s t : str) : bool :=
  match s, t with
  | [], [] => true
  | c :: s', d :: t' => N.eqb c d && eqb s' t'
  | _, _ => false
  end.

(** [x in {...}] for a set of string literals. *)
Definition mem (s : str) (l : list str) : bool := existsb (eqb s) l.

(** Truth value of a string: non-empty. *)
Definition truthy (s : str) : bool :=
  match s with [] => false | _ => true end.

Definition between (lo hi c : N) : bool := (N.leb lo c && N.leb c hi)%bool.

(** [str.isspace] on one code point (CPython's [_PyUnicode_IsWhitespace]):
    U+0009..000D, U+001C..0020, U+0085, U+00A0, U+1680, U+2000..200A,
    U+2028, U+2029, U+202F, U+205F, U+3000. *)
Definition isspace (c : char) : bool :=
  (between 9 13 c || between 28 32 c || N.eqb c 133 || N.eqb c 160
   || N.eqb c 5760 || between 8192 8202 c || N.eqb c 8232 || N.eqb c 8233
   || N.eqb c 8239 || N.eqb c 8287 || N.eqb c 12288)%bool.

Fixpoint lstrip_by (p : char -> bool) (s : str) : str :=
  match s with
  | [] => []
  | c :: s' => if p c then lstrip_by p s' else s
  end.

Definition rstrip_by (p : char -> bool) (s : str) : str :=
  rev (lstrip_by p (rev s)).

Definition lstrip : str -> str := lstrip_by isspace.
Definition rstrip : str -> str := rstrip_by isspace.
Definition strip (s : str) : str := rstrip (lstrip s).

(** [s.rstrip("\n")] *)
Definition rstrip_LF : str -> str := rstrip_by (N.eqb LF).

(** [sep.join(l)] *)
Fixpoint join (sep : str) (l : list str) : str :=
  match l with
  | [] => []
  | [s] => s
  | s :: l' => s ++ sep ++ join sep l'
  end.

(** ["".join(l)] *)
Definition concat (l : list str) : str := List.concat l.

Fixpoint startswith (p s : str) : bool :=
  match p, s with
  | [], _ => true
  | c :: p', d :: s' => N.eqb c d && startswith p' s'
  | _ :: _, [] => false
  end.

(** [s[n:]] *)
Definition slice_from (n : nat) (s : str) : str := skipn n s.

(** [c * n] *)
Definition repeat_str (s : str) (n : nat) : str := List.concat (repeat s n).

(** Line boundaries of [str.splitlines]: LF, CR (and CR LF as one), VT, FF,
    FS, GS, RS, NEL, LS, PS. *)
Definition is_linebreak (c : char) : bool :=
  (between 10 13 c || between 28 30 c || N.eqb c 133 || N.eqb c 8232
   || N.eqb c 8233)%bool.

(** [acc] is the current line, reversed. *)
Fixpoint splitlines_from (acc : str) (s : str) : list str :=
  match s with
  | [] => match acc with [] => [] | _ => [rev acc] end
  | c :: s' =>
      if N.eqb c 13 then
        match s' with
        | d :: s'' =>
            if N.eqb d 10 then rev acc :: splitlines_from [] s''
            else rev acc :: splitlines_from [] s'
        | [] => rev acc :: splitlines_from [] s'
        end
      else if is_linebreak c then rev acc :: splitlines_from [] s'
      else splitlines_from (c :: acc) s'
  end.

Definition splitlines : str -> list str := splitlines_from [].

(** [str.lower], as far as a comparison with an ASCII literal can tell:
    A..Z go to a..z, KELVIN SIGN (U+212A) goes to k, and U+0130 goes to
    the two code points i, U+0307.  Every other code point lowercases to
    code points outside ASCII and is left as it is. *)
Definition lower_char (c : char) : str :=
  if between 65 90 c then [(c + 32)%N]
  else if N.eqb c 8490 then [107%N]
  else if N.eqb c 304 then [105%N; 775%N]
  else [c].

Definition lower (s : str) : str := flat_map lower_char s.

(** [s.replace(a, b)] for a one-character [a]. *)
Definition replace_char (a : char) (b : str) (s : str) : str :=
  flat_map (fun c => if N.eqb c a then b else [c]) s.

(** [str(n)] for a non-negative integer. *)
Fixpoint digits_of_uint (d : Decimal.uint) : str :=
  match d with
  | Decimal.Nil => []
  | Decimal.D0 d' => 48%N :: digits_of_uint d'
  | Decimal.D1 d' => 49%N :: digits_of_uint d'
  | Decimal.D2 d' => 50%N :: digits_of_uint d'
  | Decimal.D3 d' => 51%N :: digits_of_uint d'
  | Decimal.D4 d' => 52%N :: digits_of_uint d'
  | Decimal.D5 d' => 53%N :: digits_of_uint d'
  | Decimal.D6 d' => 54%N :: digits_of_uint d'
  | Decimal.D7 d' => 55%N :: digits_of_uint d'
  | Decimal.D8 d' => 56%N :: digits_of_uint d'
  | Decimal.D9 d' => 57%N :: digits_of_uint d'
  end.

Definition str_of_nat (n : nat) : str := digits_of_uint (Nat.to_uint n).

End Py.

Abbreviation str := Py.str.
Arguments Py.of_string : simpl never.
Notation "'u' s" := (Py.of_string s%string) (at level 9, s at level 0, only parsing).

(** ** Python floats (binary64) *)

Module PyFloat.

Definition prec : Z := 53.
Definition emax : Z := 1024.
Definition float := spec_float.

(** The quotient of two positive integers, rounded once to nearest-even:
    Python's [int / int], and the value of a decimal literal. *)
Definition of_ratio (n : N) (d : positive) : float :=
  match n with
  | N0 => S754_zero false
  | Npos p =>
      let '(q, e, l) := SFdiv_core_binary prec emax (Zpos p) 0 (Zpos d) 0 in
      binary_round_aux prec emax false q e l
  end.

Definition of_N (n : N) : float := binary_normalize prec emax (Z.of_N n) 0 false.

Definition mul : float -> float -> float := SFmul prec emax.
Definition div : float -> float -> float := SFdiv prec emax.

(** [a >= b], [a > b] *)
Definition ge (a b : float) : bool := SFleb b a.
Definition gt (a b : float) : bool := SFltb b a.

(** Truth value of a float: non-zero. *)
Definition truthy (a : float) : bool :=
  match a with S754_zero _ => false | _ => true end.

(** [max(a, b)]: the first argument unless the second is greater. *)
Definition max (a b : float) : float := if gt b a then b else a.

End PyFloat.

Abbreviation float := PyFloat.float.

(** ** Exceptions *)

Inductive exn : Type := ValueError.

Inductive result (A : Type) : Type :=
| Ok (a : A)
| Raise (e : exn).

Arguments Ok {A} a.
Arguments Raise {A} e.

Definition bind {A B : Type} (c : result A) (k : A -> result B) : result B :=
  match c with
  | Ok a => k a
  | Raise e => Raise e
  end.

Notation "x <- c ;; k" := (bind c (fun x => k))
  (at level 61, c at next level, right associativity).
Notation "' p <- c ;; k" := (bind c (fun x => let 'p := x in k))
  (at level 61, p pattern, c at next level, right associativity).

(** [[f(x) for x in l]], left to right, stopping at the first exception. *)
Fixpoint mapM {A B : Type} (f : A -> result B) (l : list A) : result (list B) :=
  match l with
  | [] => Ok []
  | x :: l' => y <- f x ;; ys <- mapM f l' ;; Ok (y :: ys)
  end.

(** [[f(i, x) for i, x in enumerate(filter(p, l), start=idx)]].  The test is
    made inside the traversal so that [f] is applied to members of [l]. *)
Fixpoint mapM_enum_filter {A B : Type} (p : A -> bool) (f : nat -> A -> result B)
    (idx : nat) (l : list A) : result (list B) :=
  match l with
  | [] => Ok []
  | x :: l' =>
      if p x then
        y <- f idx x ;; ys <- mapM_enum_filter p f (S idx) l' ;; Ok (y :: ys)
      else mapM_enum_filter p f idx l'
  end.

(** [enumerate(l, start=idx)] *)
Fixpoint enumerate {A : Type} (idx : nat) (l : list A) : list (nat * A) :=
  match l with
  | [] => []
  | x :: l' => (idx, x) :: enumerate (S idx) l'
  end.

(** ** The regular expressions of the program *)

Module Re.
Import Py.
Local Open Scope N_scope.

(** One code point against a lower-case pattern letter under [re.I]: the
    simple lower-case mapping of the subject is compared, and the pattern
    letters i and s also accept U+0131 and U+017F. *)
Definition sre_lower (c : char) : char :=
  if between 65 90 c then (c + 32)%N
  else if N.eqb c 304 then 105%N
  else if N.eqb c 8490 then 107%N
  else c.

Definition ci_char (p c : char) : bool :=
  (N.eqb (sre_lower c) p
   || (N.eqb p 105 && N.eqb c 305)
   || (N.eqb p 115 && N.eqb c 383))%bool.

(** A literal under [re.I]; the rest of the subject on success. *)
Fixpoint ci_literal (pat s : str) : option str :=
  match pat, s with
  | [], _ => Some s
  | p :: pat', c :: s' => if ci_char p c then ci_literal pat' s' else None
  | _ :: _, [] => None
  end.

Definition is_digit (c : char) : bool := between 48 57 c.
Definition is_digit_or_dot (c : char) : bool := (is_digit c || N.eqb c 46)%bool.

(** Longest prefix whose characters satisfy [p]. *)
Fixpoint take_while (p : char -> bool) (s : str) : str :=
  match s with
  | [] => []
  | c :: s' => if p c then c :: take_while p s' else []
  end.

(** [FONT_RE = font-size\s*:\s*([0-9.]+)\s*(px|pt)] with [re.I], anchored
    at the start of [s]; the groups 1 and 2.  The classes that follow one
    another are disjoint, so the greedy match is the only one. *)
Definition FONT_RE_match (s : str) : option (str * str) :=
  match ci_literal (u "font-size") s with
  | None => None
  | Some s1 =>
      match lstrip_by isspace s1 with
      | colon :: s2 =>
          let s3 := lstrip_by isspace s2 in
          let num := take_while is_digit_or_dot s3 in
          let s4 := lstrip_by isspace (lstrip_by is_digit_or_dot s3) in
          match s4 with
          | p :: x :: _ =>
              if (N.eqb colon 58 && truthy num
                  && ci_char 112 p && (ci_char 120 x || ci_char 116 x))%bool
              then Some (num, [p; x]) else None
          | _ => None
          end
      | [] => None
      end
  end.

(** [FONT_RE.search(s)]: the leftmost match. *)
Fixpoint FONT_RE_search (s : str) : option (str * str) :=
  match FONT_RE_match s with
  | Some m => Some m
  | None => match s with [] => None | _ :: s' => FONT_RE_search s' end
  end.

Definition is_hws (c : char) : bool := (N.eqb c SP || N.eqb c TAB)%bool.

Definition hws_then_LF (s : str) : bool :=
  match lstrip_by is_hws s with
  | c :: _ => N.eqb c LF
  | [] => false
  end.

(** [re.sub(r"[ \t]+\n", "\n", s)]: a space or tab goes exactly when only
    spaces and tabs separate it from the next newline. *)
Fixpoint sub_hws_before_LF (s : str) : str :=
  match s with
  | [] => []
  | c :: s' =>
      if (is_hws c && hws_then_LF s')%bool then sub_hws_before_LF s'
      else c :: sub_hws_before_LF s'
  end.

(** [re.sub(r"\n[ \t]+", "\n", s)]; [after_LF] holds while only deleted
    spaces and tabs were read since the last newline. *)
Fixpoint sub_hws_after_LF_from (after_LF : bool) (s : str) : str :=
  match s with
  | [] => []
  | c :: s' =>
      if (is_hws c && after_LF)%bool then sub_hws_after_LF_from true s'
      else c :: sub_hws_after_LF_from (N.eqb c LF) s'
  end.

Definition sub_hws_after_LF : str -> str := sub_hws_after_LF_from false.

(** [re.sub(r"[ \t]{2,}", " ", s)]; [in_run] holds inside a run of two or
    more whose single space was already written. *)
Fixpoint sub_hws_runs_from (in_run : bool) (s : str) : str :=
  match s with
  | [] => []
  | c :: s' =>
      if is_hws c then
        if in_run then sub_hws_runs_from true s'
        else
          match s' with
          | d :: _ =>
              if is_hws d then SP :: sub_hws_runs_from true s'
              else c :: sub_hws_runs_from false s'
          | [] => [c]
          end
      else c :: sub_hws_runs_from false s'
  end.

Definition sub_hws_runs : str -> str := sub_hws_runs_from false.

(** [re.sub(r"\n{3,}", "\n\n", s)]; [k] newlines were just written. *)
Fixpoint sub_LF3_from (k : nat) (s : str) : str :=
  match s with
  | [] => []
  | c :: s' =>
      if N.eqb c LF then
        if Nat.leb 2 k then sub_LF3_from k s'
        else c :: sub_LF3_from (S k) s'
      else c :: sub_LF3_from 0 s'
  end.

Definition sub_LF3 : str -> str := sub_LF3_from 0.

End Re.

(** The number written by a string of decimal digits. *)
Definition digits_value (s : str) : N :=
  fold_left (fun acc c => (acc * 10 + (c - 48))%N) s 0%N.

Definition pow10 (k : nat) : positive := Nat.iter k (Pos.mul 10) 1%positive.

(** [float(s)] for [s] matched by [[0-9.]+]: digits with at most one point
    and at least one digit, rounded once; else [ValueError]. *)
Definition float_of_digits (s : str) : result float :=
  let ip := Re.take_while Re.is_digit s in
  match Py.lstrip_by Re.is_digit s with
  | [] =>
      if Py.truthy ip then Ok (PyFloat.of_ratio (digits_value ip) 1)
      else Raise ValueError
  | c :: fp =>
      if (N.eqb c 46 && forallb Re.is_digit fp
          && (Py.truthy ip || Py.truthy fp))%bool
      then Ok (PyFloat.of_ratio (digits_value (ip ++ fp))
                 (pow10 (length fp)))
      else Raise ValueError
  end.

(** ** The parsed document (BeautifulSoup) *)

Module Soup.

(** The classes of [NavigableString] that are neither the plain class nor
    [CData] nor [Comment].  The parser gives a string read inside [style],
    [script], [template], [rt] or [rp] the class of that container
    ([builder.string_containers]); a declaration, a doctype and a processing
    instruction have a class of their own. *)
Inductive string_class : Type :=
| Stylesheet
| Script
| TemplateString
| RubyTextString
| RubyParenthesisString
| Declaration
| Doctype
| ProcessingInstruction.

(** A [Tag] with its name, attribute dictionary and children; a plain
    [NavigableString] (or a [CData], which every call used here treats
    alike); a [Comment]; a string of another class. *)
#[warnings="-register-all"]
Inductive node : Type :=
| Element (name : str) (attrs : list (str * str)) (children : list node)
| Text (s : str)
| Comment (s : str)
| Special (k : string_class) (s : str).

(** Induction with the hypothesis on every child. *)
Fixpoint node_rect' (P : node -> Type) (Q : list node -> Type)
    (HE : forall name attrs cs, Q cs -> P (Element name attrs cs))
    (HT : forall s, P (Text s)) (HC : forall s, P (Comment s))
    (HS : forall k s, P (Special k s))
    (Hnil : Q []) (Hcons : forall c cs, P c -> Q cs -> Q (c :: cs))
    (n : node) {struct n} : P n :=
  match n with
  | Element name attrs cs =>
      HE name attrs cs
        ((fix go (l : list node) : Q l :=
            match l with
            | [] => Hnil
            | c :: l' => Hcons c l' (node_rect' P Q HE HT HC HS Hnil Hcons c) (go l')
            end) cs)
  | Text s => HT s
  | Comment s => HC s
  | Special k s => HS k s
  end.

(** [tag.children] *)
Definition children (n : node) : list node :=
  match n with
  | Element _ _ cs => cs
  | _ => []
  end.

(** [tag.descendants]: document order. *)
Fixpoint descendants (n : node) : list node :=
  match n with
  | Element _ _ cs => flat_map (fun c => c :: descendants c) cs
  | _ => []
  end.

(** The node is a tag whose name is one of [names] (compared as it is). *)
Definition is_tag_in (names : list str) (n : node) : bool :=
  match n with
  | Element name _ _ => Py.mem name names
  | _ => false
  end.

Definition is_tag (n : node) : bool :=
  match n with
  | Element _ _ _ => true
  | _ => false
  end.

(** [tag.find_all(names)] and [tag.find_all(names, recursive=False)] *)
Definition find_all (names : list str) (n : node) : list node :=
  filter (is_tag_in names) (descendants n).

Definition find_all_direct (names : list str) (n : node) : list node :=
  filter (is_tag_in names) (children n).

(** [builder.string_containers] of the HTML tree builders: the tags whose
    strings have a class of their own, and the class for each. *)
Definition string_container_tags : list str :=
  [u "rt"; u "rp"; u "style"; u "script"; u "template"].

Definition container_class (name : str) (k : string_class) : bool :=
  match k with
  | RubyTextString => Py.eqb name (u "rt")
  | RubyParenthesisString => Py.eqb name (u "rp")
  | Stylesheet => Py.eqb name (u "style")
  | Script => Py.eqb name (u "script")
  | TemplateString => Py.eqb name (u "template")
  | _ => false
  end.

(** What [_all_strings] yields at a descendant [d] of a tag called [name]:
    the string when its class is one of the tag's
    [interesting_string_types], which are the container's class for a
    container and the plain classes for every other tag. *)
Definition read_string (name : str) (d : node) : list str :=
  match d with
  | Text s => if Py.mem name string_container_tags then [] else [s]
  | Special k s => if container_class name k then [s] else []
  | _ => []
  end.

Definition name_of (n : node) : str :=
  match n with
  | Element name _ _ => name
  | _ => []
  end.

(** The strings [get_text] reads: the descendants whose class the tag finds
    interesting, in document order. *)
Definition all_strings (n : node) : list str :=
  flat_map (read_string (name_of n)) (descendants n).

(** [tag.get_text()] *)
Definition get_text (n : node) : str := Py.concat (all_strings n).

(** [tag.get_text(sep, strip=True)]: every string stripped, the empty ones
    dropped, the rest joined by [sep]. *)
Definition get_text_strip (sep : str) (n : node) : str :=
  Py.join sep (filter Py.truthy (map Py.strip (all_strings n))).

Fixpoint lookup (key : str) (d : list (str * str)) : option str :=
  match d with
  | [] => None
  | (k, v) :: d' => if Py.eqb k key then Some v else lookup key d'
  end.

(** [tag.get(key)] *)
Definition get (n : node) (key : str) : option str :=
  match n with
  | Element _ attrs _ => lookup key attrs
  | _ => None
  end.

End Soup.

Export Soup.

(** ** The program *)

Local Open Scope list_scope.

(** Source lines 19-25. *)
Definition _parse_font_px (style : str) : result (option float) :=
  match Re.FONT_RE_search style with
  | None => Ok None
  | Some (g1, g2) =>
      val <- float_of_digits g1 ;;
      let unit := Py.lower g2 in
      Ok (Some (if Py.eqb unit (u "px") then val
                else PyFloat.div (PyFloat.mul val (PyFloat.of_N 4)) (PyFloat.of_N 3)))
  end.

Definition font_tags : list str :=
  [u "span"; u "strong"; u "b"; u "em"; u "i"; u "font"].

(** The loop of [_max_font_px] over the remaining tags [ts]. *)
Fixpoint max_font_loop (mx : float) (ts : list node) : result float :=
  match ts with
  | [] => Ok mx
  | t :: ts' =>
      match Soup.get t (u "style") with
      | Some style =>
          if Py.truthy style then
            px <- _parse_font_px style ;;
            match px with
            | Some px =>
                if PyFloat.truthy px then
                  let mx := PyFloat.max mx px in
                  if PyFloat.ge mx (PyFloat.of_N 24) then Ok mx
                  else max_font_loop mx ts'
                else max_font_loop mx ts'
            | None => max_font_loop mx ts'
            end
          else max_font_loop mx ts'
      | None => max_font_loop mx ts'
      end
  end.

(** Source lines 28-39. *)
Definition _max_font_px (tag : node) : result float :=
  max_font_loop (PyFloat.of_N 0) (tag :: find_all font_tags tag).

(** Source lines 42-48. *)
Definition _clean_text (s : str) : str :=
  let s := Py.replace_char Py.ZWSP [] (Py.replace_char Py.NBSP [Py.SP] s) in
  let s := Re.sub_hws_before_LF s in
  let s := Re.sub_hws_after_LF s in
  let s := Re.sub_hws_runs s in
  s.

Definition script_tags : list str := [u "script"; u "style"; u "noscript"].
Definition media_tags : list str :=
  [u "img"; u "figure"; u "video"; u "audio"; u "source"; u "iframe";
   u "canvas"; u "svg"].

(** Source lines 51-81.  [parent] is the name of [node.parent], if the node
    has a parent. *)
Fixpoint _inline_md (parent : option str) (node : node) : str :=
  match node with
  | Comment _ => []
  | Text s => s
  | Special _ s => s
  | Element nm _ cs =>
      let name := Py.lower nm in
      if Py.mem name script_tags then []
      else if Py.mem name media_tags then []
      else if Py.eqb name (u "br") then [Py.LF]
      else if Py.eqb name (u "a") then
        Py.concat (map (_inline_md (Some nm)) cs)
      else if Py.mem name [u "strong"; u "b"] then
        let txt := Py.strip (Py.concat (map (_inline_md (Some nm)) cs)) in
        if Py.truthy txt then u "**" ++ txt ++ u "**" else []
      else if Py.mem name [u "em"; u "i"] then
        let txt := Py.strip (Py.concat (map (_inline_md (Some nm)) cs)) in
        if Py.truthy txt then u "*" ++ txt ++ u "*" else []
      else if (Py.eqb name (u "code")
               && match parent with
                  | None => true
                  | Some pn => negb (Py.eqb (Py.lower pn) (u "pre"))
                  end)%bool then
        let txt := Py.replace_char 96%N (u "\`") (Soup.get_text node) in
        u "`" ++ txt ++ u "`"
      else Py.concat (map (_inline_md (Some nm)) cs)
  end.

(** [text], [bold_text] and [bold_ratio] of [_looks_like_heading]. *)
Definition heading_text (p_tag : node) : str := get_text_strip (u " ") p_tag.

Definition bold_tags : list str := [u "strong"; u "b"].

Definition bold_text (p_tag : node) : str :=
  Py.concat (map (get_text_strip (u " ")) (find_all bold_tags p_tag)).

Definition bold_ratio (p_tag : node) : float :=
  PyFloat.of_ratio (N.of_nat (length (bold_text p_tag)))
    (Pos.of_nat (Nat.max 1 (length (heading_text p_tag)))).

(** The literals [0.85] and [0.95]. *)
Definition f0_85 : float := PyFloat.of_ratio 85 100.
Definition f0_95 : float := PyFloat.of_ratio 95 100.

(** Source lines 84-108. *)
Definition _looks_like_heading (p_tag : node) : result (bool * nat) :=
  let text := heading_text p_tag in
  if (negb (Py.truthy text) || Nat.ltb 60 (length text))%bool then Ok (false, 0)
  else
    let bold_ratio := bold_ratio p_tag in
    max_px <- _max_font_px p_tag ;;
    if (PyFloat.ge bold_ratio f0_85 || PyFloat.ge max_px (PyFloat.of_N 16))%bool then
      if PyFloat.ge max_px (PyFloat.of_N 22) then Ok (true, 2)
      else if PyFloat.ge max_px (PyFloat.of_N 18) then Ok (true, 3)
      else if (PyFloat.ge bold_ratio f0_95 && Nat.leb (length text) 30)%bool
      then Ok (true, 3)
      else if (PyFloat.ge bold_ratio f0_85 && Nat.leb (length text) 20)%bool
      then Ok (true, 4)
      else Ok (false, 0)
    else Ok (false, 0).

Definition list_tags : list str := [u "ul"; u "ol"].

(** [hasattr(c, "name") and c.name and c.name.lower() in {"ul", "ol"}] *)
Definition is_nested_list (c : node) : bool :=
  match c with
  | Element nm _ _ => (Py.truthy nm && Py.mem (Py.lower nm) list_tags)%bool
  | _ => false
  end.

Definition heading_tags : list str :=
  [u "h1"; u "h2"; u "h3"; u "h4"; u "h5"; u "h6"].

Definition hard_drop_tags : list str :=
  [u "script"; u "style"; u "noscript"; u "img"; u "figure"; u "video";
   u "audio"; u "source"; u "iframe"; u "canvas"; u "svg"].

Definition container_tags : list str := [u "article"; u "div"; u "section"].

(** [int(name[1])] for a name in [heading_tags]. *)
Definition heading_level (name : str) : nat :=
  match name with
  | _ :: d :: _ => N.to_nat (d - 48)
  | _ => 0
  end.

(** The rows of the [table] branch. *)
Definition table_rows (node : node) : list str :=
  flat_map
    (fun tr =>
       let cells := map (get_text_strip (u " ")) (find_all [u "th"; u "td"] tr) in
       if existsb Py.truthy cells then [Py.join [Py.TAB] cells] else [])
    (find_all [u "tr"] node).

Section ListItem.

(** The block renderer, for the nested lists of an item. *)
Variable to_md : node -> nat -> result str.

(** Source lines 111-131, over the renderer it calls back.  It is only
    ever applied to [li] tags. *)
Definition li_to_md_with (li_tag : node) (list_level : nat) (ordered : bool)
    (index : nat) : result str :=
  match li_tag with
  | Element nm _ cs =>
      let content_parts := filter (fun c => negb (is_nested_list c)) cs in
      let text :=
        Py.strip (_clean_text (Py.concat (map (_inline_md (Some nm)) content_parts))) in
      if (negb (Py.truthy text) && negb (existsb is_nested_list cs))%bool then Ok []
      else
        let indent := Py.repeat_str (u "  ") list_level in
        let prefix := if ordered then Py.str_of_nat index ++ u ". " else u "- " in
        let line := Py.rstrip (indent ++ prefix ++ text) ++ [Py.LF] in
        nested_md <- mapM_enum_filter is_nested_list
                       (fun _ nl => to_md nl (S list_level)) 0 cs ;;
        Ok (line ++ Py.concat nested_md)
  | _ => Ok []
  end.

End ListItem.

(** Source lines 134-210. *)
Fixpoint _to_md (node : node) (list_level : nat) {struct node} : result str :=
  match node with
  | Comment _ => Ok []
  | Text s => Ok s
  | Special _ s => Ok s
  | Element nm _ cs =>
      let name := Py.lower nm in
      if Py.mem name hard_drop_tags then Ok []
      else if Py.mem name container_tags then
        parts <- mapM (fun c => _to_md c list_level) cs ;; Ok (Py.concat parts)
      else if Py.mem name heading_tags then
        let level := heading_level name in
        let text := Py.strip (_clean_text (Py.concat (map (_inline_md (Some nm)) cs))) in
        Ok (if Py.truthy text
            then Py.repeat_str (u "#") level ++ u " " ++ text ++ [Py.LF; Py.LF]
            else [])
      else if Py.eqb name (u "p") then
        let text_plain := get_text_strip (u " ") node in
        if negb (Py.truthy text_plain) then Ok []
        else
          '(is_h, lvl) <- _looks_like_heading node ;;
          if is_h : bool then
            Ok (Py.repeat_str (u "#") lvl ++ u " "
                ++ Py.strip (_clean_text text_plain) ++ [Py.LF; Py.LF])
          else
            let text := Py.strip (_clean_text (Py.concat (map (_inline_md (Some nm)) cs))) in
            Ok (if Py.truthy text then text ++ [Py.LF; Py.LF] else [])
      else if Py.eqb name (u "blockquote") then
        parts <- mapM (fun c => _to_md c list_level) cs ;;
        let inner := Py.strip (_clean_text (Py.concat parts)) in
        if negb (Py.truthy inner) then Ok []
        else
          let lines := filter (fun ln => Py.truthy (Py.strip ln)) (Py.splitlines inner) in
          Ok (Py.join [Py.LF] (map (fun ln => u "> " ++ ln) lines) ++ [Py.LF; Py.LF])
      else if Py.eqb name (u "ul") then
        items <- mapM_enum_filter (is_tag_in [u "li"])
                   (fun _ li => li_to_md_with _to_md li list_level false 1) 1 cs ;;
        Ok (Py.concat items ++ (if existsb Py.truthy items then [Py.LF] else []))
      else if Py.eqb name (u "ol") then
        items <- mapM_enum_filter (is_tag_in [u "li"])
                   (fun idx li => li_to_md_with _to_md li list_level true idx) 1 cs ;;
        Ok (Py.concat items ++ (match items with [] => [] | _ => [Py.LF] end))
      else if Py.eqb name (u "pre") then
        let code := Py.rstrip_LF (get_text node) in
        Ok (if Py.truthy (Py.strip code)
            then u "```" ++ [Py.LF] ++ code ++ [Py.LF] ++ u "```" ++ [Py.LF; Py.LF]
            else [])
      else if Py.eqb name (u "table") then
        let rows := table_rows node in
        Ok (match rows with
            | [] => []
            | _ => Py.join [Py.LF] rows ++ [Py.LF; Py.LF]
            end)
      else if Py.eqb name (u "hr") then Ok ([Py.LF] ++ u "---" ++ [Py.LF; Py.LF])
      else
        parts <- mapM (fun c => _to_md c list_level) cs ;; Ok (Py.concat parts)
  end.

(** Source lines 111-131. *)
Definition _li_to_md : node -> nat -> bool -> nat -> result str :=
  li_to_md_with _to_md.

(** ** The conversion pipeline (source lines 213-270)

    Reading the file, parsing it and selecting the title tag and the content
    root are the work of BeautifulSoup; the model starts from the selected
    title tag (if any) and content root. *)

Definition noisy_tags : list str :=
  [u "script"; u "style"; u "noscript"; u "iframe"; u "form"; u "input";
   u "button"; u "textarea"; u "select"; u "option"; u "img"; u "figure";
   u "video"; u "audio"; u "source"; u "canvas"; u "svg"].

(** Lines 240-242: every comment below the root is extracted. *)
Fixpoint extract_comments (n : node) : node :=
  match n with
  | Element nm attrs cs =>
      Element nm attrs
        (flat_map (fun c => match c with
                            | Comment _ => []
                            | _ => [extract_comments c]
                            end) cs)
  | _ => n
  end.

(** Lines 244-249: every noisy tag below the root is decomposed. *)
Fixpoint decompose_noisy (n : node) : node :=
  match n with
  | Element nm attrs cs =>
      Element nm attrs
        (flat_map (fun c => if is_tag_in noisy_tags c then []
                            else [decompose_noisy c]) cs)
  | _ => n
  end.

(** Lines 251-253: every [a] below the root is replaced by its text. *)
Fixpoint unwrap_links (n : node) : node :=
  match n with
  | Element nm attrs cs =>
      Element nm attrs
        (map (fun c => if is_tag_in [u "a"] c
                       then Text (get_text_strip (u " ") c)
                       else unwrap_links c) cs)
  | _ => n
  end.

(** [tag.attrs = {}] on a tag and on every tag below it. *)
Fixpoint clear_attrs (n : node) : node :=
  match n with
  | Element nm _ cs => Element nm [] (map clear_attrs cs)
  | _ => n
  end.

(** Lines 255-257: [find_all(True)] lists the tags below the root, not the
    root. *)
Definition strip_attrs (n : node) : node :=
  match n with
  | Element nm attrs cs => Element nm attrs (map clear_attrs cs)
  | _ => n
  end.

Definition sanitize (content : node) : node :=
  strip_attrs (unwrap_links (decompose_noisy (extract_comments content))).

(** Lines 259-260, from the rendering of the content root. *)
Definition normalize_body (rendered : str) : str :=
  let md := Py.strip (_clean_text rendered) in
  Py.strip (Re.sub_LF3 md) ++ [Py.LF].

(** Line 264: [md.splitlines()[0].strip() if md.splitlines() else ""]. *)
Definition first_line_of (md : str) : str :=
  match Py.splitlines md with
  | l :: _ => Py.strip l
  | [] => []
  end.

(** Lines 262-266. *)
Definition prepend_title (title md : str) : str :=
  if Py.truthy title then
    let first_line := first_line_of md in
    if negb (Py.startswith (u "# ") first_line
             && Py.eqb (Py.strip (Py.slice_from 2 first_line)) title)%bool
    then u "# " ++ title ++ [Py.LF; Py.LF] ++ md
    else md
  else md.

(** The text written to the output file, for a title string and a content
    root. *)
Definition convert (title : str) (content : node) : result str :=
  rendered <- _to_md (sanitize content) 0 ;;
  Ok (prepend_title title (normalize_body rendered)).

(** Line 229. *)
Definition title_of (title_tag : option node) : str :=
  match title_tag with
  | Some t => get_text_strip (u " ") t
  | None => []
  end.

Definition wechat_html_to_markdown (title_tag : option node) (content : node)
  : result str :=
  convert (title_of title_tag) content.

(** ** The heading classifier in the words of the specification

    Section 4.3: reject an empty text or one longer than 60 characters;
    accept only if [boldRatio >= 0.85] or [maxFontPx >= 16]; then the first
    rule that fires, in the stated order, gives the level. *)

Definition spec_level_rules (len : nat) (ratio max_px : float) : list (bool * nat) :=
  [ (PyFloat.ge max_px (PyFloat.of_N 22), 2);
    (PyFloat.ge max_px (PyFloat.of_N 18), 3);
    ((PyFloat.ge ratio f0_95 && Nat.leb len 30)%bool, 3);
    ((PyFloat.ge ratio f0_85 && Nat.leb len 20)%bool, 4) ].

Fixpoint first_match (rules : list (bool * nat)) : option nat :=
  match rules with
  | [] => None
  | (fires, level) :: rules' => if fires then Some level else first_match rules'
  end.

Definition spec_classifier (len : nat) (ratio max_px : float) : bool * nat :=
  if (Nat.ltb 0 len && Nat.leb len 60
      && (PyFloat.ge ratio f0_85 || PyFloat.ge max_px (PyFloat.of_N 16)))%bool
  then match first_match (spec_level_rules len ratio max_px) with
       | Some level => (true, level)
       | None => (false, 0)
       end
  else (false, 0).

(** ** Notions and sample documents used in the statements *)

(** *** The heading classifier *)

(** Source lines 98-108 as a function of the three cues. *)
Definition heading_decision (len : nat) (bold_ratio max_px : float) : bool * nat :=
  if (PyFloat.ge bold_ratio f0_85 || PyFloat.ge max_px (PyFloat.of_N 16))%bool then
    if PyFloat.ge max_px (PyFloat.of_N 22) then (true, 2)
    else if PyFloat.ge max_px (PyFloat.of_N 18) then (true, 3)
    else if (PyFloat.ge bold_ratio f0_95 && Nat.leb len 30)%bool then (true, 3)
    else if (PyFloat.ge bold_ratio f0_85 && Nat.leb len 20)%bool then (true, 4)
    else (false, 0)
  else (false, 0).

(** No [font-size] is declared on the tag or anywhere below it. *)
Definition declares_no_font_size (tag : node) : Prop :=
  Forall (fun t => forall style, Soup.get t (u "style") = Some style ->
                                 Re.FONT_RE_search style = None)
         (tag :: descendants tag).

(** The visible text is fully bold: the bold text is as long as the text. *)
Definition fully_bold (p_tag : node) : Prop :=
  length (bold_text p_tag) = length (heading_text p_tag).

(** The same tag with [style="font-size: <px>px"] declared on it. *)
Definition font_size_style (px : str) : str := u "font-size: " ++ px ++ u "px".

Definition with_font_size (px : str) (tag : node) : node :=
  match tag with
  | Element nm attrs cs => Element nm ((u "style", font_size_style px) :: attrs) cs
  | _ => tag
  end.

(** [k] bold tags around one text. *)
Fixpoint nest_bold (k : nat) (s : str) : node :=
  match k with
  | 0 => Text s
  | S k' => Element (u "b") [] [nest_bold k' s]
  end.

(** [<p><strong>Bold Short</strong></p>] *)
Definition p_bold_short : node :=
  Element (u "p") [] [Element (u "strong") [] [Text (u "Bold Short")]].

(** [<p>] with a text of 70 characters, the paragraph declaring 23px. *)
Definition p_long : node :=
  Element (u "p") [(u "style", u "font-size: 23px")]
    [Element (u "strong") []
       [Text (u "0123456789012345678901234567890123456789012345678901234567890123456789")]].

(** [<p><span style="font-size: 12pt">Section</span> one</p>] *)
Definition p_span_12pt : node :=
  Element (u "p") []
    [Element (u "span") [(u "style", u "font-size: 12pt")] [Text (u "Section")];
     Text (u " one")].

(** *** Lists *)

(** The marker of an item, and the same with its trailing space trimmed. *)
Definition marker (ordered : bool) (index : nat) : str :=
  if ordered then Py.str_of_nat index ++ u ". " else u "- ".

Definition bare_marker (ordered : bool) (index : nat) : str :=
  if ordered then Py.str_of_nat index ++ u "." else u "-".

(** [<ol><li></li></ol>] and [<ul><li></li></ul>] *)
Definition ol_empty_item : node := Element (u "ol") [] [Element (u "li") [] []].
Definition ul_empty_item : node := Element (u "ul") [] [Element (u "li") [] []].

(** [<ol><li>a<ul><li>b</li></ul></li><li>c</li></ol>] *)
Definition ol_nested : node :=
  Element (u "ol") []
    [Element (u "li") []
       [Text (u "a"); Element (u "ul") [] [Element (u "li") [] [Text (u "b")]]];
     Element (u "li") [] [Text (u "c")]].

(** [<li><ul><li>x</li></ul></li>] *)
Definition li_only_nested : node :=
  Element (u "li") [] [Element (u "ul") [] [Element (u "li") [] [Text (u "x")]]].

(** [<div><ul><li>a<ul><li>b</li></ul></li></ul></div>] *)
Definition div_ul_nested : node :=
  Element (u "div") []
    [Element (u "ul") []
       [Element (u "li") []
          [Text (u "a"); Element (u "ul") [] [Element (u "li") [] [Text (u "b")]]]]].

(** *** The tree *)

(** No tag named in [L]; a comment; a tag without attributes. *)
Definition absent (L : list str) (d : node) : bool := negb (is_tag_in L d).

Definition is_comment (d : node) : bool :=
  match d with
  | Comment _ => true
  | _ => false
  end.

Definition no_attrs (d : node) : Prop :=
  match d with
  | Element _ attrs _ => attrs = []
  | _ => True
  end.





(** [<p id="js_content" style="font-size: 1.2.3px"><b>x</b></p>] *)
Definition p_bold_malformed_size : node :=
  Element (u "p") [(u "id", u "js_content"); (u "style", u "font-size: 1.2.3px")]
    [Element (u "b") [] [Text (u "x")]].

(** [<p style="font-size: 23px">Hello</p>], and the same inside a [<div>]. *)
Definition p_23px : node :=
  Element (u "p") [(u "style", u "font-size: 23px")] [Text (u "Hello")].

Definition div_p_23px : node := Element (u "div") [] [p_23px].

(** [<a href="https://mp.weixin.qq.com/s?__biz=abc&scene=21">click here</a>] *)
Definition link_click_here : node :=
  Element (u "a") [(u "href", u "https://mp.weixin.qq.com/s?__biz=abc&scene=21")]
    [Text (u "click here")].

(** *** The title and the whitespace *)

(** The body's first line, trimmed, is ["# "] and a text that trims to the
    title. *)
Definition opens_with_title (title md : str) : Prop :=
  exists w, first_line_of md = u "# " ++ w /\ Py.strip w = title.

(** The newlines of a text, in order. *)
Definition newlines (s : str) : str := filter (N.eqb Py.LF) s.

(** No two neighbours of [s] are in the relation [R]; [prev] stands before
    [s]. *)
Fixpoint no_adjacent_after (R : Py.char -> Py.char -> bool) (prev : Py.char) (s : str)
  : bool :=
  match s with
  | [] => true
  | c :: s' => (negb (R prev c) && no_adjacent_after R c s')%bool
  end.

Definition no_adjacent (R : Py.char -> Py.char -> bool) (s : str) : bool :=
  match s with
  | [] => true
  | c :: s' => no_adjacent_after R c s'
  end.

(** A space or tab right before a newline; right after one; two in a row. *)
Definition hws_before_LF (c d : Py.char) : bool := (Re.is_hws c && N.eqb d Py.LF)%bool.
Definition hws_after_LF (c d : Py.char) : bool := (N.eqb c Py.LF && Re.is_hws d)%bool.
Definition hws_pair (c d : Py.char) : bool := (Re.is_hws c && Re.is_hws d)%bool.

(** The text starts with a space or tab. *)
Definition starts_with_hws (s : str) : bool :=
  match s with
  | c :: _ => Re.is_hws c
  | [] => false
  end.

(** No run of three newlines in [s], which follows [k] newlines. *)
Fixpoint no_LF3_after (k : nat) (s : str) : bool :=
  match s with
  | [] => true
  | c :: s' =>
      if N.eqb c Py.LF then (Nat.ltb k 2 && no_LF3_after (S k) s')%bool
      else no_LF3_after 0 s'
  end.

Definition no_LF3 (s : str) : bool := no_LF3_after 0 s.

(** [<div><h1>My Post</h1><p>Some text.</p></div>] *)
Definition div_with_h1 : node :=
  Element (u "div") []
    [Element (u "h1") [] [Text (u "My Post")];
     Element (u "p") [] [Text (u "Some text.")]].

(** [<div><p># (U+3000)T</p></div>]: an ideographic space after the
    marker. *)
Definition div_wide_space : node :=
  Element (u "div") [] [Element (u "p") [] [Text (u "# " ++ [12288%N] ++ u "T")]].

(** [<title>T</title>] and [<body></body>] *)
Definition title_T : node := Element (u "title") [] [Text (u "T")].
Definition empty_body : node := Element (u "body") [] [].

(** *** Notions and sample documents of the further properties *)

(** A float that is [+0.0], positive and finite, or [+inf]. *)
Definition not_negative (a : float) : bool :=
  match a with
  | S754_zero false | S754_infinity false | S754_finite false _ _ => true
  | _ => false
  end.

(** The [style] attributes the font probe reads, in its order. *)
Definition probed_styles (tag : node) : list (option str) :=
  map (fun t => Soup.get t (u "style")) (tag :: find_all font_tags tag).

(** A declaration [font-size<ws1>:<ws2><num><ws3><unit>] after [before]. *)
Definition font_size_declaration (before ws1 ws2 num ws3 unit rest : str) : str :=
  before ++ u "font-size" ++ ws1 ++ u ":" ++ ws2 ++ num ++ ws3 ++ unit ++ rest.

(** [<p><u style="font-size: 30px">x</u></p>] and [<p><u>x</u></p>] *)
Definition p_underlined_30px : node :=
  Element (u "p") [] [Element (u "u") [(u "style", u "font-size: 30px")] [Text (u "x")]].

Definition p_underlined : node :=
  Element (u "p") [] [Element (u "u") [] [Text (u "x")]].

(** [<p style="font-size: 24px"><span style="font-size: 1.2.3px">x</span></p>] *)
Definition p_24px_over_malformed : node :=
  Element (u "p") [(u "style", u "font-size: 24px")]
    [Element (u "span") [(u "style", u "font-size: 1.2.3px")] [Text (u "x")]].

(** A backtick that no backslash precedes. *)
Definition bare_backtick (c d : Py.char) : bool := (negb (N.eqb c 92) && N.eqb d 96)%bool.

(** What [str(node)] contributes to the output of the renderers: every
    string of the tree but the comments, whatever its class. *)
Definition printed_string (d : node) : list str :=
  match d with
  | Text s => [s]
  | Special _ s => [s]
  | _ => []
  end.

Definition printed_text (n : node) : str :=
  Py.concat (flat_map printed_string (n :: descendants n)).

(** Every string below the tag is a plain one and the tag is none of the
    string containers: [get_text] reads all of them. *)
Definition is_special (d : node) : bool :=
  match d with
  | Special _ _ => true
  | _ => false
  end.

Definition plain_strings (n : node) : bool :=
  (negb (Py.mem (name_of n) string_container_tags)
   && forallb (fun d => negb (is_special d)) (descendants n))%bool.

(** The tags the inline renderer gives an output of their own; every other
    tag is rendered as its children. *)
Definition inline_marked_tags : list str :=
  script_tags ++ media_tags ++ [u "br"; u "strong"; u "b"; u "em"; u "i"; u "code"].

Definition inline_transparent (d : node) : bool :=
  match d with
  | Element nm _ _ => negb (Py.mem (Py.lower nm) inline_marked_tags)
  | _ => true
  end.

(** The same for the block renderer: containers and unknown tags are left. *)
Definition block_marked_tags : list str :=
  hard_drop_tags ++ heading_tags
  ++ [u "p"; u "blockquote"; u "ul"; u "ol"; u "pre"; u "table"; u "hr"].

Definition block_transparent (d : node) : bool :=
  match d with
  | Element nm _ _ => negb (Py.mem (Py.lower nm) block_marked_tags)
  | _ => true
  end.

(** The marker of an emphasis tag. *)
Definition emphasis_mark (name : str) : str :=
  if Py.mem name bold_tags then u "**" else u "*".

(** [<span>a<u>b</u><!-- c -->d</span>] *)
Definition span_sample : node :=
  Element (u "span") []
    [Text (u "a"); Element (u "u") [] [Text (u "b")]; Comment (u " c "); Text (u "d")].

(** [<span>a<rt>b</rt><!-- c -->d</span>]: the parser gives the string inside
    [rt] the class of that tag. *)
Definition span_ruby : node :=
  Element (u "span") []
    [Text (u "a"); Element (u "rt") [] [Special RubyTextString (u "b")];
     Comment (u " c "); Text (u "d")].

(** [<code>a`b<rt>c</rt></code>] *)
Definition code_sample : node :=
  Element (u "code") []
    [Text (u "a`b"); Element (u "rt") [] [Special RubyTextString (u "c")]].

(** Evaluate the tests of a literal tag name against the literal names of
    the renderers. *)
Ltac eval_name_tests :=
  repeat match goal with
         | |- context [Py.mem (Py.of_string ?a) ?l] =>
             let v := eval vm_compute in (Py.mem (Py.of_string a) l) in
             change (Py.mem (Py.of_string a) l) with v
         | |- context [Py.eqb (Py.of_string ?a) (Py.of_string ?b)] =>
             let v := eval vm_compute in (Py.eqb (Py.of_string a) (Py.of_string b)) in
             change (Py.eqb (Py.of_string a) (Py.of_string b)) with v
         end;
  cbn [orb andb negb]; cbv iota.

(** The tag is a paragraph for the block renderer. *)
Definition is_paragraph (n : node) : bool :=
  match n with
  | Element nm _ _ => Py.eqb (Py.lower nm) (u "p")
  | _ => false
  end.

(** [<p style="font-size: 1.2.3px">x</p>] *)
Definition p_malformed_size : node :=
  Element (u "p") [(u "style", u "font-size: 1.2.3px")] [Text (u "x")].

(** [<p>plain text</p>] *)
Definition p_plain : node := Element (u "p") [] [Text (u "plain text")].

(** The text is empty or ends with a newline. *)
Definition ends_with_newline (out : str) : Prop := out = [] \/ exists r, out = r ++ [Py.LF].

(** The text ends with a blank line. *)
Definition ends_with_blank_line (out : str) : Prop := exists r, out = r ++ [Py.LF; Py.LF].

(** The tags for which the block renderer writes a block of its own. *)
Definition block_tags : list str :=
  heading_tags ++ [u "p"; u "blockquote"; u "ul"; u "ol"; u "pre"; u "table"; u "hr"].

(** [<div><pre>a(LF)  b</pre></div>] *)
Definition div_pre_indented : node :=
  Element (u "div") [] [Element (u "pre") [] [Text (u "a" ++ [Py.LF] ++ u "  b")]].

(** [<ul>stray<li>a</li><p>stray</p></ul>] *)
Definition ul_stray_children : node :=
  Element (u "ul") []
    [Text (u "stray"); Element (u "li") [] [Text (u "a")];
     Element (u "p") [] [Text (u "stray")]].

(** The strings that [get_text], called on a tag of the given name, reads
    at a child of that tag and below it. *)
Definition strings_for (name : str) (c : node) : list str :=
  flat_map (read_string name) (c :: descendants c).

(** [<div>a <a href="u">b<rt>c</rt></a><!-- d --></div>] *)
Definition div_link_ruby : node :=
  Element (u "div") []
    [Text (u "a ");
     Element (u "a") [(u "href", u "u")]
       [Text (u "b"); Element (u "rt") [] [Special RubyTextString (u "c")]];
     Comment (u " d ")].

(** The stripped, non-empty strings that [get_text(sep, strip=True)] joins. *)
Definition pieces (l : list str) : list str := filter Py.truthy (map Py.strip l).

(** Two lists of strings that [" ".join] cannot tell apart, and that are
    empty together. *)
Definition same_join (l l' : list str) : Prop :=
  (l = [] <-> l' = []) /\ Py.join (u " ") l = Py.join (u " ") l'.

(** [<table><tr><td> </td><td></td></tr></table>] *)
Definition table_blank : node :=
  Element (u "table") []
    [Element (u "tr") [] [Element (u "td") [] [Text (u " ")]; Element (u "td") [] []]].

(** No line boundary of [str.splitlines] in the text. *)
Definition one_line (s : str) : bool := forallb (fun c => negb (Py.is_linebreak c)) s.

(** [<div><!-- note --><p>see <a href="x">this<!-- inner --> page</a></p></div>] *)
Definition div_comment_link : node :=
  Element (u "div") []
    [Comment (u " note ");
     Element (u "p") []
       [Text (u "see ");
        Element (u "a") [(u "href", u "x")]
          [Text (u "this"); Comment (u " inner "); Text (u " page")]]].

(** * Properties *)

(** Induction on a tree, with the hypothesis on every child. *)
Lemma node_ind' (P : node -> Prop)
    (HE : forall name attrs cs, Forall P cs -> P (Element name attrs cs))
    (HT : forall s, P (Text s)) (HC : forall s, P (Comment s))
    (HS : forall k s, P (Special k s)) :
  forall n, P n.
Proof.
  apply (Soup.node_rect' P (Forall P)); auto.
Qed.

(** ** Strings *)

Lemma eqb_eq (s t : str) : Py.eqb s t = true <-> s = t.
Proof.
  revert t; induction s as [|c s IH]; intros [|d t]; simpl; split;
    try congruence; try reflexivity.
  - rewrite andb_true_iff, N.eqb_eq, IH. intros [-> ->]. reflexivity.
  - intros [= -> ->]. rewrite N.eqb_refl. apply IH. reflexivity.
Qed.

Lemma eqb_refl (s : str) : Py.eqb s s = true.
Proof. apply eqb_eq. reflexivity. Qed.

Lemma truthy_length (s : str) : Py.truthy s = Nat.ltb 0 (length s).
Proof. destruct s; reflexivity. Qed.

(** ** The traversals *)

Lemma mapM_enum_filter_ignore {A B : Type} (p : A -> bool) (f : A -> result B)
    (i : nat) (l : list A) :
  mapM_enum_filter p (fun _ x => f x) i l = mapM f (filter p l).
Proof.
  revert i; induction l as [|x l IH]; intros i; simpl; [reflexivity|].
  destruct (p x); simpl; [|apply IH].
  destruct (f x); simpl; [|reflexivity]. rewrite IH. reflexivity.
Qed.

Lemma mapM_enum_filter_enumerate {A B : Type} (p : A -> bool)
    (f : nat -> A -> result B) (i : nat) (l : list A) :
  mapM_enum_filter p f i l
  = mapM (fun ix => f (fst ix) (snd ix)) (enumerate i (filter p l)).
Proof.
  revert i; induction l as [|x l IH]; intros i; simpl; [reflexivity|].
  destruct (p x); simpl; [|apply IH].
  destruct (f i x); simpl; [|reflexivity]. rewrite IH. reflexivity.
Qed.

(** ** The heading classifier *)

(** With no declaration to read, the font probe answers 0. *)
Lemma max_font_loop_no_font (ts : list node) (mx : float) :
  Forall (fun t => forall style, Soup.get t (u "style") = Some style ->
                                 Re.FONT_RE_search style = None) ts ->
  max_font_loop mx ts = Ok mx.
Proof.
  induction 1 as [|t ts Ht _ IH]; simpl; [reflexivity|].
  destruct (Soup.get t (u "style")) as [style|] eqn:E; [|exact IH].
  destruct (Py.truthy style); [|exact IH].
  unfold _parse_font_px. rewrite (Ht style eq_refl). simpl. exact IH.
Qed.

Lemma max_font_px_no_font (tag : node) :
  declares_no_font_size tag -> _max_font_px tag = Ok (PyFloat.of_N 0).
Proof.
  intros H. unfold _max_font_px. apply max_font_loop_no_font.
  unfold declares_no_font_size in H. inversion H as [|? ? Ht Hd]; subst.
  constructor; [exact Ht|].
  unfold find_all. rewrite Forall_forall in *. intros t Hin.
  apply filter_In in Hin. apply Hd, Hin.
Qed.

(** An empty or over-long text is rejected before anything else is read. *)
Lemma looks_like_heading_rejects (p_tag : node) :
  length (heading_text p_tag) = 0 \/ 60 < length (heading_text p_tag) ->
  _looks_like_heading p_tag = Ok (false, 0).
Proof.
  intros H. unfold _looks_like_heading. rewrite truthy_length.
  destruct H as [H|H].
  - rewrite H. reflexivity.
  - apply Nat.ltb_lt in H. rewrite H, orb_true_r. reflexivity.
Qed.

(** The classifier, once the font probe has answered. *)
Lemma looks_like_heading_decision (p_tag : node) (max_px : float) :
  _max_font_px p_tag = Ok max_px ->
  0 < length (heading_text p_tag) <= 60 ->
  _looks_like_heading p_tag
  = Ok (heading_decision (length (heading_text p_tag)) (bold_ratio p_tag) max_px).
Proof.
  intros Hpx [H0 H60]. unfold _looks_like_heading, heading_decision.
  rewrite truthy_length, Hpx.
  apply Nat.ltb_lt in H0. rewrite H0.
  replace (Nat.ltb 60 (length (heading_text p_tag))) with false
    by (symmetry; apply Nat.ltb_ge; exact H60).
  cbn [negb orb bind].
  destruct (PyFloat.ge (bold_ratio p_tag) f0_85 || PyFloat.ge max_px (PyFloat.of_N 16))%bool;
    [|reflexivity].
  destruct (PyFloat.ge max_px (PyFloat.of_N 22)); [reflexivity|].
  destruct (PyFloat.ge max_px (PyFloat.of_N 18)); [reflexivity|].
  destruct (PyFloat.ge (bold_ratio p_tag) f0_95 && Nat.leb (length (heading_text p_tag)) 30)%bool;
    [reflexivity|].
  destruct (PyFloat.ge (bold_ratio p_tag) f0_85 && Nat.leb (length (heading_text p_tag)) 20)%bool;
    reflexivity.
Qed.

Lemma heading_text_with_font_size (px : str) (tag : node) :
  heading_text (with_font_size px tag) = heading_text tag.
Proof. destruct tag; reflexivity. Qed.

Lemma bold_ratio_with_font_size (px : str) (tag : node) :
  bold_ratio (with_font_size px tag) = bold_ratio tag.
Proof. destruct tag; reflexivity. Qed.

(** A fully bold text of fewer than 20 characters has ratio exactly 1. *)
Lemma bold_ratio_fully_bold (p_tag : node) :
  fully_bold p_tag -> 0 < length (heading_text p_tag) < 20 ->
  bold_ratio p_tag = PyFloat.of_N 1.
Proof.
  unfold fully_bold, bold_ratio. intros -> [Hpos Hlt].
  remember (length (heading_text p_tag)) as n eqn:E. clear E.
  do 20 (destruct n as [|n]; [first [lia | vm_compute; reflexivity]|]). lia.
Qed.

(** The probe reads the declaration on the tag itself first. *)
Lemma max_font_px_own_size (tag : node) (px : str) (size : float) :
  is_tag tag = true -> declares_no_font_size tag ->
  _parse_font_px (font_size_style px) = Ok (Some size) ->
  PyFloat.truthy size = true ->
  PyFloat.ge (PyFloat.max (PyFloat.of_N 0) size) (PyFloat.of_N 24) = false ->
  _max_font_px (with_font_size px tag) = Ok (PyFloat.max (PyFloat.of_N 0) size).
Proof.
  intros Htag Hno Hparse Htruthy Hsmall.
  destruct tag as [nm attrs cs| | |]; try discriminate.
  unfold _max_font_px. cbn [with_font_size max_font_loop Soup.get Soup.lookup].
  rewrite eqb_refl. change (Py.truthy (font_size_style px)) with true. cbv iota.
  rewrite Hparse. cbn [bind]. rewrite Htruthy, Hsmall.
  apply max_font_loop_no_font.
  unfold declares_no_font_size in Hno. inversion Hno as [|? ? _ Hd]; subst.
  unfold find_all. rewrite Forall_forall in *. intros t Hin.
  apply filter_In in Hin. apply Hd, Hin.
Qed.

Lemma p_bold_short_no_font : declares_no_font_size p_bold_short.
Proof.
  unfold declares_no_font_size.
  repeat constructor; intros style H; vm_compute in H; discriminate.
Qed.

(** ** Bold text under nested bold tags *)

Lemma all_strings_nest_bold (k : nat) (s : str) :
  all_strings (nest_bold (S k) s) = [s].
Proof.
  induction k as [|k IH]; [reflexivity|].
  change (nest_bold (S (S k)) s) with (Element (u "b") [] [nest_bold (S k) s]).
  unfold all_strings in *. cbn [descendants flat_map].
  rewrite app_nil_r. cbn [flat_map nest_bold app]. exact IH.
Qed.

Lemma get_text_strip_nest_bold (k : nat) (s : str) :
  get_text_strip (u " ") (nest_bold (S k) s)
  = Py.join (u " ") (filter Py.truthy [Py.strip s]).
Proof. unfold get_text_strip. rewrite all_strings_nest_bold. reflexivity. Qed.

Lemma bold_below_nest_bold (k : nat) (s : str) :
  length (Py.concat (map (get_text_strip (u " ")) (find_all bold_tags (nest_bold (S k) s))))
  = k * length (Py.join (u " ") (filter Py.truthy [Py.strip s])).
Proof.
  induction k as [|k IH]; [reflexivity|].
  change (nest_bold (S (S k)) s) with (Element (u "b") [] [nest_bold (S k) s]).
  unfold find_all in *. cbn [descendants flat_map]. rewrite app_nil_r.
  change (nest_bold (S k) s) with (Element (u "b") [] [nest_bold k s]) at 1.
  cbn [filter is_tag_in].
  change (Py.mem (u "b") bold_tags) with true. cbv iota.
  cbn [map Py.concat List.concat]. rewrite length_app.
  change (Element (u "b") [] [nest_bold k s]) with (nest_bold (S k) s).
  rewrite get_text_strip_nest_bold. unfold Py.concat in IH. rewrite IH.
  reflexivity.
Qed.

(** ** Links *)

Lemma inline_md_element (parent : option str) (nm : str) (attrs : list (str * str))
    (cs : list node) :
  _inline_md parent (Element nm attrs cs)
  = let name := Py.lower nm in
    let kids := Py.concat (map (_inline_md (Some nm)) cs) in
    if Py.mem name script_tags then []
    else if Py.mem name media_tags then []
    else if Py.eqb name (u "br") then [Py.LF]
    else if Py.eqb name (u "a") then kids
    else if Py.mem name [u "strong"; u "b"] then
      (if Py.truthy (Py.strip kids) then u "**" ++ Py.strip kids ++ u "**" else [])
    else if Py.mem name [u "em"; u "i"] then
      (if Py.truthy (Py.strip kids) then u "*" ++ Py.strip kids ++ u "*" else [])
    else if (Py.eqb name (u "code")
             && match parent with
                | None => true
                | Some pn => negb (Py.eqb (Py.lower pn) (u "pre"))
                end)%bool then
      u "`" ++ Py.replace_char 96%N (u "\`") (get_text (Element nm attrs cs)) ++ u "`"
    else kids.
Proof. reflexivity. Qed.

(** ** The block renderer, one step *)

Lemma to_md_element (nm : str) (attrs : list (str * str)) (cs : list node)
    (list_level : nat) :
  _to_md (Element nm attrs cs) list_level
  = let node := Element nm attrs cs in
    let name := Py.lower nm in
    if Py.mem name hard_drop_tags then Ok []
    else if Py.mem name container_tags then
      parts <- mapM (fun c => _to_md c list_level) cs ;; Ok (Py.concat parts)
    else if Py.mem name heading_tags then
      let text := Py.strip (_clean_text (Py.concat (map (_inline_md (Some nm)) cs))) in
      Ok (if Py.truthy text
          then Py.repeat_str (u "#") (heading_level name) ++ u " " ++ text ++ [Py.LF; Py.LF]
          else [])
    else if Py.eqb name (u "p") then
      let text_plain := get_text_strip (u " ") node in
      if negb (Py.truthy text_plain) then Ok []
      else
        '(is_h, lvl) <- _looks_like_heading node ;;
        if is_h : bool then
          Ok (Py.repeat_str (u "#") lvl ++ u " "
              ++ Py.strip (_clean_text text_plain) ++ [Py.LF; Py.LF])
        else
          let text := Py.strip (_clean_text (Py.concat (map (_inline_md (Some nm)) cs))) in
          Ok (if Py.truthy text then text ++ [Py.LF; Py.LF] else [])
    else if Py.eqb name (u "blockquote") then
      parts <- mapM (fun c => _to_md c list_level) cs ;;
      let inner := Py.strip (_clean_text (Py.concat parts)) in
      if negb (Py.truthy inner) then Ok []
      else
        let lines := filter (fun ln => Py.truthy (Py.strip ln)) (Py.splitlines inner) in
        Ok (Py.join [Py.LF] (map (fun ln => u "> " ++ ln) lines) ++ [Py.LF; Py.LF])
    else if Py.eqb name (u "ul") then
      items <- mapM (fun li => _li_to_md li list_level false 1)
                 (find_all_direct [u "li"] node) ;;
      Ok (Py.concat items ++ (if existsb Py.truthy items then [Py.LF] else []))
    else if Py.eqb name (u "ol") then
      items <- mapM (fun ix => _li_to_md (snd ix) list_level true (fst ix))
                 (enumerate 1 (find_all_direct [u "li"] node)) ;;
      Ok (Py.concat items ++ (match items with [] => [] | _ => [Py.LF] end))
    else if Py.eqb name (u "pre") then
      let code := Py.rstrip_LF (get_text node) in
      Ok (if Py.truthy (Py.strip code)
          then u "```" ++ [Py.LF] ++ code ++ [Py.LF] ++ u "```" ++ [Py.LF; Py.LF]
          else [])
    else if Py.eqb name (u "table") then
      Ok (match table_rows node with
          | [] => []
          | _ => Py.join [Py.LF] (table_rows node) ++ [Py.LF; Py.LF]
          end)
    else if Py.eqb name (u "hr") then Ok ([Py.LF] ++ u "---" ++ [Py.LF; Py.LF])
    else
      parts <- mapM (fun c => _to_md c list_level) cs ;; Ok (Py.concat parts).
Proof.
  cbn [_to_md]. cbv zeta.
  rewrite mapM_enum_filter_ignore, mapM_enum_filter_enumerate.
  reflexivity.
Qed.

(** [_li_to_md] in the shape of the source: the nested lists are collected
    first, then rendered one level deeper. *)
Lemma li_to_md_element (nm : str) (attrs : list (str * str)) (cs : list node)
    (list_level : nat) (ordered : bool) (index : nat) :
  _li_to_md (Element nm attrs cs) list_level ordered index
  = let nested_lists := filter is_nested_list cs in
    let content_parts := filter (fun c => negb (is_nested_list c)) cs in
    let text :=
      Py.strip (_clean_text (Py.concat (map (_inline_md (Some nm)) content_parts))) in
    if (negb (Py.truthy text) && match nested_lists with [] => true | _ => false end)%bool
    then Ok []
    else
      let indent := Py.repeat_str (u "  ") list_level in
      let prefix := if ordered then Py.str_of_nat index ++ u ". " else u "- " in
      let line := Py.rstrip (indent ++ prefix ++ text) ++ [Py.LF] in
      nested_md <- mapM (fun nl => _to_md nl (S list_level)) nested_lists ;;
      Ok (line ++ Py.concat nested_md).
Proof.
  unfold _li_to_md, li_to_md_with. cbv zeta.
  rewrite mapM_enum_filter_ignore.
  replace (negb (existsb is_nested_list cs))
    with (match filter is_nested_list cs with [] => true | _ => false end);
    [reflexivity|].
  induction cs as [|c cs IH]; [reflexivity|]. simpl.
  destruct (is_nested_list c); [reflexivity | exact IH].
Qed.

(** ** Lists *)

Lemma to_md_ul (nm : str) (attrs : list (str * str)) (cs : list node) (list_level : nat) :
  Py.lower nm = u "ul" ->
  _to_md (Element nm attrs cs) list_level
  = (items <- mapM (fun li => _li_to_md li list_level false 1)
                (find_all_direct [u "li"] (Element nm attrs cs)) ;;
     Ok (Py.concat items ++ (if existsb Py.truthy items then [Py.LF] else []))).
Proof. intros H. rewrite to_md_element, H. reflexivity. Qed.

Lemma to_md_ol (nm : str) (attrs : list (str * str)) (cs : list node) (list_level : nat) :
  Py.lower nm = u "ol" ->
  _to_md (Element nm attrs cs) list_level
  = (items <- mapM (fun ix => _li_to_md (snd ix) list_level true (fst ix))
                (enumerate 1 (find_all_direct [u "li"] (Element nm attrs cs))) ;;
     Ok (Py.concat items ++ (match items with [] => [] | _ => [Py.LF] end))).
Proof. intros H. rewrite to_md_element, H. reflexivity. Qed.

(** ** Hard-dropped tags *)




(** ** The sanitized tree *)

Lemma descendants_cons (c : node) (cs : list node) (nm : str) (attrs : list (str * str)) :
  descendants (Element nm attrs (c :: cs))
  = c :: descendants c ++ descendants (Element nm attrs cs).
Proof. reflexivity. Qed.

Lemma descendants_Forall (P : node -> Prop) (nm : str) (attrs : list (str * str))
    (cs : list node) :
  Forall P (descendants (Element nm attrs cs))
  <-> Forall (fun c => P c /\ Forall P (descendants c)) cs.
Proof.
  induction cs as [|c cs IH].
  - split; constructor.
  - rewrite descendants_cons. split.
    + intros H. inversion H as [|? ? Hc Hrest]; subst.
      apply Forall_app in Hrest. destruct Hrest as [Hbelow Hrest].
      constructor; [split; assumption | apply IH; exact Hrest].
    + intros H. inversion H as [|? ? [Hc Hbelow] Hrest]; subst.
      constructor; [exact Hc|]. apply Forall_app. split; [exact Hbelow|].
      apply IH. exact Hrest.
Qed.

Lemma descendants_trans (n d e : node) :
  In d (descendants n) -> In e (descendants d) -> In e (descendants n).
Proof.
  induction n as [nm attrs cs IH| | |] using node_ind'; [|contradiction..].
  induction cs as [|c cs IHcs]; [contradiction|].
  inversion IH as [|? ? Hc Hcs]; subst.
  rewrite descendants_cons. intros Hd He.
  destruct Hd as [->|Hd].
  - right. apply in_or_app. left. exact He.
  - right. apply in_or_app. apply in_app_or in Hd. destruct Hd as [Hd|Hd].
    + left. apply Hc; assumption.
    + right. apply IHcs; assumption.
Qed.

Lemma flat_map_Forall_ext {A B : Type} (f g : A -> list B) (l : list A) :
  Forall (fun x => f x = g x) l -> flat_map f l = flat_map g l.
Proof.
  induction 1 as [|x l Hx _ IH]; [reflexivity|]. cbn [flat_map].
  rewrite Hx, IH. reflexivity.
Qed.

Lemma flat_map_flat_map {A B C : Type} (f : A -> list B) (g : B -> list C) (l : list A) :
  flat_map g (flat_map f l) = flat_map (fun x => flat_map g (f x)) l.
Proof.
  induction l as [|x l IH]; [reflexivity|]. cbn [flat_map].
  rewrite flat_map_app, IH. reflexivity.
Qed.

Lemma flat_map_map {A B C : Type} (f : A -> B) (g : B -> list C) (l : list A) :
  flat_map g (map f l) = flat_map (fun x => g (f x)) l.
Proof.
  induction l as [|x l IH]; [reflexivity|]. cbn [flat_map map].
  rewrite IH. reflexivity.
Qed.

Lemma map_flat_map {A B C : Type} (f : A -> list B) (g : B -> C) (l : list A) :
  map g (flat_map f l) = flat_map (fun x => map g (f x)) l.
Proof.
  induction l as [|x l IH]; [reflexivity|]. cbn [flat_map].
  rewrite map_app, IH. reflexivity.
Qed.

Lemma flat_map_singleton {A : Type} (l : list A) : flat_map (fun x => [x]) l = l.
Proof. induction l as [|x l IH]; [reflexivity|]. cbn [flat_map app]. rewrite IH. reflexivity. Qed.

(** *** What each pass leaves below the root *)

Section Shallow.

(** A test that looks at the kind of a node and at the name of a tag only,
    and that every text passes. *)
Variable q : node -> bool.
Hypothesis q_text : forall s, q (Text s) = true.
Hypothesis q_shallow :
  forall nm attrs cs attrs' cs', q (Element nm attrs cs) = q (Element nm attrs' cs').

Lemma shallow_decompose_noisy (n : node) : q (decompose_noisy n) = q n.
Proof. destruct n; [apply q_shallow | reflexivity..]. Qed.

Lemma shallow_unwrap_links (n : node) : q (unwrap_links n) = q n.
Proof. destruct n; [apply q_shallow | reflexivity..]. Qed.

Lemma shallow_clear_attrs (n : node) : q (clear_attrs n) = q n.
Proof. destruct n; [apply q_shallow | reflexivity..]. Qed.

Lemma decompose_noisy_keeps (n : node) :
  Forall (fun d => q d = true) (descendants n) ->
  Forall (fun d => q d = true) (descendants (decompose_noisy n)).
Proof.
  induction n as [nm attrs cs IH| | |] using node_ind'; [|constructor..].
  rewrite descendants_Forall. cbn [decompose_noisy]. rewrite descendants_Forall.
  intros H. induction cs as [|c cs IHcs]; [constructor|].
  inversion IH as [|? ? Hc Hcs]; subst. inversion H as [|? ? [Hq Hbelow] Hrest]; subst.
  cbn [flat_map]. destruct (is_tag_in noisy_tags c); [exact (IHcs Hcs Hrest)|].
  constructor; [|exact (IHcs Hcs Hrest)].
  rewrite shallow_decompose_noisy. split; [exact Hq | exact (Hc Hbelow)].
Qed.

Lemma unwrap_links_keeps (n : node) :
  Forall (fun d => q d = true) (descendants n) ->
  Forall (fun d => q d = true) (descendants (unwrap_links n)).
Proof.
  induction n as [nm attrs cs IH| | |] using node_ind'; [|constructor..].
  rewrite descendants_Forall. cbn [unwrap_links]. rewrite descendants_Forall.
  intros H. induction cs as [|c cs IHcs]; [constructor|].
  inversion IH as [|? ? Hc Hcs]; subst. inversion H as [|? ? [Hq Hbelow] Hrest]; subst.
  cbn [map]. constructor; [|exact (IHcs Hcs Hrest)].
  destruct (is_tag_in [u "a"] c).
  - split; [apply q_text | constructor].
  - rewrite shallow_unwrap_links. split; [exact Hq | exact (Hc Hbelow)].
Qed.

Lemma clear_attrs_keeps (n : node) :
  Forall (fun d => q d = true) (descendants n) ->
  Forall (fun d => q d = true) (descendants (clear_attrs n)).
Proof.
  induction n as [nm attrs cs IH| | |] using node_ind'; [|constructor..].
  rewrite descendants_Forall. cbn [clear_attrs]. rewrite descendants_Forall.
  intros H. induction cs as [|c cs IHcs]; [constructor|].
  inversion IH as [|? ? Hc Hcs]; subst. inversion H as [|? ? [Hq Hbelow] Hrest]; subst.
  cbn [map]. constructor; [|exact (IHcs Hcs Hrest)].
  rewrite shallow_clear_attrs. split; [exact Hq | exact (Hc Hbelow)].
Qed.

Lemma strip_attrs_keeps (n : node) :
  Forall (fun d => q d = true) (descendants n) ->
  Forall (fun d => q d = true) (descendants (strip_attrs n)).
Proof.
  destruct n as [nm attrs cs| | |]; [|constructor..].
  intros H. exact (clear_attrs_keeps (Element nm attrs cs) H).
Qed.

End Shallow.

Lemma extract_comments_none (n : node) :
  Forall (fun d => negb (is_comment d) = true) (descendants (extract_comments n)).
Proof.
  induction n as [nm attrs cs IH| | |] using node_ind'; [|constructor..].
  cbn [extract_comments]. rewrite descendants_Forall.
  induction cs as [|c cs IHcs]; [constructor|].
  inversion IH as [|? ? Hc Hcs]; subst. cbn [flat_map].
  destruct c as [cn ca ccs|s|s|k s]; cbn [app];
    [constructor; [split; [reflexivity | exact Hc] | exact (IHcs Hcs)]
    |constructor; [split; [reflexivity | constructor] | exact (IHcs Hcs)]
    |exact (IHcs Hcs)
    |constructor; [split; [reflexivity | constructor] | exact (IHcs Hcs)]].
Qed.

Lemma decompose_noisy_none (n : node) :
  Forall (fun d => absent noisy_tags d = true) (descendants (decompose_noisy n)).
Proof.
  induction n as [nm attrs cs IH| | |] using node_ind'; [|constructor..].
  cbn [decompose_noisy]. rewrite descendants_Forall.
  induction cs as [|c cs IHcs]; [constructor|].
  inversion IH as [|? ? Hc Hcs]; subst. cbn [flat_map].
  destruct (is_tag_in noisy_tags c) eqn:E; [exact (IHcs Hcs)|].
  constructor; [|exact (IHcs Hcs)]. split; [|exact Hc].
  unfold absent. destruct c; cbn [decompose_noisy]; [|reflexivity..].
  cbn [is_tag_in] in *. rewrite E. reflexivity.
Qed.

Lemma unwrap_links_none (n : node) :
  Forall (fun d => absent [u "a"] d = true) (descendants (unwrap_links n)).
Proof.
  induction n as [nm attrs cs IH| | |] using node_ind'; [|constructor..].
  cbn [unwrap_links]. rewrite descendants_Forall.
  induction cs as [|c cs IHcs]; [constructor|].
  inversion IH as [|? ? Hc Hcs]; subst. cbn [map].
  constructor; [|exact (IHcs Hcs)].
  destruct (is_tag_in [u "a"] c) eqn:E; [split; [reflexivity | constructor]|].
  split; [|exact Hc].
  unfold absent. destruct c; cbn [unwrap_links]; [|reflexivity..].
  cbn [is_tag_in] in *. rewrite E. reflexivity.
Qed.

Lemma absent_shallow (L : list str) (nm : str) (attrs : list (str * str))
    (cs : list node) (attrs' : list (str * str)) (cs' : list node) :
  absent L (Element nm attrs cs) = absent L (Element nm attrs' cs').
Proof. reflexivity. Qed.

Lemma not_comment_shallow (nm : str) (attrs : list (str * str))
    (cs : list node) (attrs' : list (str * str)) (cs' : list node) :
  negb (is_comment (Element nm attrs cs)) = negb (is_comment (Element nm attrs' cs')).
Proof. reflexivity. Qed.

(** Below the root of the sanitized tree: no comment, no noisy tag, no
    link, no attribute. *)
Lemma sanitize_no_comment (content : node) :
  Forall (fun d => negb (is_comment d) = true) (descendants (sanitize content)).
Proof.
  unfold sanitize.
  apply strip_attrs_keeps; [exact not_comment_shallow|].
  apply unwrap_links_keeps; [reflexivity | exact not_comment_shallow|].
  apply decompose_noisy_keeps; [exact not_comment_shallow|].
  apply extract_comments_none.
Qed.

Lemma sanitize_no_noisy (content : node) :
  Forall (fun d => absent noisy_tags d = true) (descendants (sanitize content)).
Proof.
  unfold sanitize.
  apply strip_attrs_keeps; [exact (absent_shallow noisy_tags)|].
  apply unwrap_links_keeps; [reflexivity | exact (absent_shallow noisy_tags)|].
  apply decompose_noisy_none.
Qed.

Lemma sanitize_no_link (content : node) :
  Forall (fun d => absent [u "a"] d = true) (descendants (sanitize content)).
Proof.
  unfold sanitize.
  apply strip_attrs_keeps; [exact (absent_shallow [u "a"])|].
  apply unwrap_links_none.
Qed.



(** ** Attributes are gone before the rendering *)

Lemma clear_attrs_no_attrs (n : node) :
  no_attrs (clear_attrs n) /\ Forall no_attrs (descendants (clear_attrs n)).
Proof.
  induction n as [nm attrs cs IH| | |] using node_ind';
    [|split; [exact I|constructor]..].
  split; [reflexivity|].
  induction cs as [|c cs IHcs]; [constructor|].
  inversion IH as [|? ? Hc Hcs]; subst.
  cbn [clear_attrs map]. rewrite descendants_cons. constructor; [apply Hc|].
  apply Forall_app. split; [apply Hc | exact (IHcs Hcs)].
Qed.

Lemma strip_attrs_no_attrs (n : node) :
  Forall no_attrs (descendants (strip_attrs n)).
Proof.
  destruct n as [nm attrs cs| | |]; [|constructor..].
  exact (proj2 (clear_attrs_no_attrs (Element nm attrs cs))).
Qed.

Lemma no_attrs_no_font_size (d : node) :
  no_attrs d -> Forall no_attrs (descendants d) -> declares_no_font_size d.
Proof.
  intros Hd Hbelow. unfold declares_no_font_size.
  apply Forall_impl with (P := no_attrs); [|constructor; assumption].
  intros [nm attrs cs| | |] Ht style Hget; try discriminate.
  cbn in Ht. subst attrs. discriminate.
Qed.

(** Below the content root the font probe finds nothing in the pipeline. *)
Lemma sanitize_max_font_px (content : node) :
  Forall (fun d => _max_font_px d = Ok (PyFloat.of_N 0)) (descendants (sanitize content)).
Proof.
  unfold sanitize.
  set (t := unwrap_links (decompose_noisy (extract_comments content))).
  pose proof (strip_attrs_no_attrs t) as H.
  rewrite Forall_forall in *. intros d Hd.
  apply max_font_px_no_font, no_attrs_no_font_size; [exact (H d Hd)|].
  rewrite Forall_forall. intros e He. apply H.
  exact (descendants_trans _ _ _ Hd He).
Qed.

(** ** Stripping *)

Lemma lstrip_by_head (p : Py.char -> bool) (s : str) :
  Py.lstrip_by p s = []
  \/ exists c r, Py.lstrip_by p s = c :: r /\ p c = false.
Proof.
  induction s as [|c s IH]; [left; reflexivity|]. simpl.
  destruct (p c) eqn:E; [exact IH|]. right. exists c, s. auto.
Qed.

Lemma lstrip_by_fixed (p : Py.char -> bool) (c : Py.char) (s : str) :
  p c = false -> Py.lstrip_by p (c :: s) = c :: s.
Proof. intros H. simpl. rewrite H. reflexivity. Qed.

Lemma rstrip_by_last (p : Py.char -> bool) (s : str) :
  Py.rstrip_by p s = []
  \/ exists r c, Py.rstrip_by p s = r ++ [c] /\ p c = false.
Proof.
  unfold Py.rstrip_by.
  destruct (lstrip_by_head p (rev s)) as [->|(c & r & -> & Hc)];
    [left; reflexivity|].
  right. exists (rev r), c. auto.
Qed.

Lemma rstrip_by_fixed (p : Py.char -> bool) (s : str) (c : Py.char) :
  p c = false -> Py.rstrip_by p (s ++ [c]) = s ++ [c].
Proof.
  intros H. unfold Py.rstrip_by. rewrite rev_app_distr. cbn [rev app].
  rewrite lstrip_by_fixed by exact H. cbn [rev]. rewrite rev_involutive.
  reflexivity.
Qed.

Lemma rstrip_by_drop (p : Py.char -> bool) (s : str) (c : Py.char) :
  p c = true -> Py.rstrip_by p (s ++ [c]) = Py.rstrip_by p s.
Proof.
  intros H. unfold Py.rstrip_by. rewrite rev_app_distr. cbn [rev app Py.lstrip_by].
  rewrite H. reflexivity.
Qed.

(** A stripped text is empty or ends with a character that is no space. *)
Lemma strip_last (s : str) :
  Py.strip s = []
  \/ exists r c, Py.strip s = r ++ [c] /\ Py.isspace c = false.
Proof. apply rstrip_by_last. Qed.

(** A stripped text is empty or starts with a character that is no space. *)
Lemma rstrip_by_keeps_head (p : Py.char -> bool) (c : Py.char) (s : str) :
  p c = false -> exists r, Py.rstrip_by p (c :: s) = c :: r.
Proof.
  intros Hc. revert c Hc.
  induction s as [|d s IH] using rev_ind; intros c Hc.
  - exists []. apply (@rstrip_by_fixed p [] c Hc).
  - destruct (p d) eqn:E.
    + change (c :: s ++ [d]) with ((c :: s) ++ [d]).
      rewrite rstrip_by_drop by exact E. apply IH. exact Hc.
    + exists (s ++ [d]). apply (@rstrip_by_fixed p (c :: s) d E).
Qed.

Lemma strip_head (s : str) :
  Py.strip s = []
  \/ exists c r, Py.strip s = c :: r /\ Py.isspace c = false.
Proof.
  unfold Py.strip, Py.lstrip, Py.rstrip.
  destruct (lstrip_by_head Py.isspace s) as [->|(c & r & -> & Hc)];
    [left; reflexivity|].
  right. destruct (@rstrip_by_keeps_head Py.isspace c r Hc) as [r' ->].
  exists c, r'. auto.
Qed.

(** Stripping leaves alone what has no space at either end. *)
Lemma strip_fixed (c d : Py.char) (s : str) :
  Py.isspace c = false -> Py.isspace d = false ->
  Py.strip (c :: s ++ [d]) = c :: s ++ [d].
Proof.
  intros Hc Hd. unfold Py.strip, Py.lstrip, Py.rstrip.
  rewrite lstrip_by_fixed by exact Hc.
  apply (@rstrip_by_fixed Py.isspace (c :: s) d Hd).
Qed.

Lemma strip_fixed_ends (s s' r : str) (c d : Py.char) :
  s = c :: s' -> s = r ++ [d] -> Py.isspace c = false -> Py.isspace d = false ->
  Py.strip s = s.
Proof.
  intros Hhead Hlast Hc Hd. unfold Py.strip, Py.lstrip, Py.rstrip.
  rewrite Hhead at 1. rewrite lstrip_by_fixed by exact Hc. rewrite <- Hhead.
  rewrite Hlast. apply rstrip_by_fixed. exact Hd.
Qed.

Lemma strip_idempotent (s : str) : Py.strip (Py.strip s) = Py.strip s.
Proof.
  destruct (strip_head s) as [E|(c & s' & E & Hc)]; [rewrite E; reflexivity|].
  destruct (strip_last s) as [E'|(r & d & E' & Hd)]; [congruence|].
  eapply strip_fixed_ends; eassumption.
Qed.

(** Pieces without space at their ends join into a text without space at
    its ends. *)
Lemma join_last (sep : str) (l : list str) (x : str) :
  Forall (fun y => exists r d, y = r ++ [d] /\ Py.isspace d = false) (x :: l) ->
  exists r d, Py.join sep (x :: l) = r ++ [d] /\ Py.isspace d = false.
Proof.
  revert x; induction l as [|y l IH]; intros x H.
  - inversion H as [|? ? Hx _]; subst. exact Hx.
  - inversion H as [|? ? _ Hrest]; subst.
    destruct (IH y Hrest) as (r & d & E & Hd).
    exists (x ++ sep ++ r), d. split; [|exact Hd].
    change (Py.join sep (x :: y :: l)) with (x ++ sep ++ Py.join sep (y :: l)).
    rewrite E, <- !app_assoc. reflexivity.
Qed.

Lemma strip_join_stripped (sep : str) (l : list str) :
  Py.strip (Py.join sep (filter Py.truthy (map Py.strip l)))
  = Py.join sep (filter Py.truthy (map Py.strip l)).
Proof.
  assert (H : Forall (fun y => (exists c s', y = c :: s' /\ Py.isspace c = false)
                               /\ (exists r d, y = r ++ [d] /\ Py.isspace d = false))
                     (filter Py.truthy (map Py.strip l))).
  { rewrite Forall_forall. intros y Hy. apply filter_In in Hy.
    destruct Hy as [Hin Hy]. apply in_map_iff in Hin. destruct Hin as (x & <- & _).
    destruct (strip_head x) as [E|Hh]; [rewrite E in Hy; discriminate|].
    destruct (strip_last x) as [E|Hl]; [rewrite E in Hy; discriminate|].
    split; assumption. }
  destruct (filter Py.truthy (map Py.strip l)) as [|x pieces]; [reflexivity|].
  assert (Hlast : exists r d, Py.join sep (x :: pieces) = r ++ [d] /\ Py.isspace d = false).
  { apply join_last. eapply Forall_impl; [|exact H]. intros y [_ Hy]. exact Hy. }
  destruct Hlast as (r & d & Elast & Hd).
  inversion H as [|? ? [(c & s' & Ex & Hc) _] _]; subst.
  assert (Ehead : exists t, Py.join sep ((c :: s') :: pieces) = c :: t).
  { destruct pieces; eexists; reflexivity. }
  destruct Ehead as [t Ehead].
  eapply strip_fixed_ends; eassumption.
Qed.

(** [get_text(sep, strip=True)] has no space at its ends. *)
Lemma get_text_strip_stripped (sep : str) (n : node) :
  Py.strip (get_text_strip sep n) = get_text_strip sep n.
Proof. apply strip_join_stripped. Qed.

Lemma repeat_str_indent (n : nat) :
  Py.repeat_str (u "  ") n = repeat Py.SP (2 * n).
Proof.
  induction n as [|n IH]; [reflexivity|].
  unfold Py.repeat_str in *. cbn [repeat List.concat]. rewrite IH.
  replace (2 * S n) with (S (S (2 * n))) by lia. reflexivity.
Qed.

(** ** List items *)

Lemma to_uint_nonnil (n : nat) : Nat.to_uint n <> Decimal.Nil.
Proof.
  pose proof (DecimalNat.Unsigned.to_of (Nat.to_uint n)) as H.
  rewrite DecimalNat.Unsigned.of_to in H. rewrite H.
  apply DecimalFacts.unorm_nonnil.
Qed.

Lemma digits_of_uint_head (d : Decimal.uint) :
  d <> Decimal.Nil ->
  exists c r, Py.digits_of_uint d = c :: r /\ c <> Py.SP.
Proof.
  destruct d; intros Hnil; [congruence|..];
    eexists _, _; (split; [reflexivity | discriminate]).
Qed.

Lemma marker_bare (ordered : bool) (index : nat) :
  marker ordered index = bare_marker ordered index ++ [Py.SP].
Proof.
  unfold marker, bare_marker. destruct ordered; [|reflexivity].
  rewrite <- app_assoc. reflexivity.
Qed.

Lemma bare_marker_last (ordered : bool) (index : nat) :
  exists r c, bare_marker ordered index = r ++ [c] /\ Py.isspace c = false.
Proof.
  unfold bare_marker. destruct ordered.
  - exists (Py.str_of_nat index), 46%N. split; reflexivity.
  - exists [], 45%N. split; reflexivity.
Qed.

Lemma bare_marker_head (ordered : bool) (index : nat) :
  exists c r, bare_marker ordered index = c :: r /\ c <> Py.SP.
Proof.
  unfold bare_marker. destruct ordered.
  - destruct (digits_of_uint_head (to_uint_nonnil index)) as (c & r & E & Hc).
    unfold Py.str_of_nat. rewrite E. exists c, (r ++ u "."). auto.
  - exists 45%N, []. split; [reflexivity | discriminate].
Qed.

(** The line of an item: trailing whitespace can only be the marker's. *)
Lemma li_line (indent text : str) (ordered : bool) (index : nat) (s : str) :
  text = Py.strip s ->
  Py.rstrip (indent ++ marker ordered index ++ text)
  = indent ++ (if Py.truthy text then marker ordered index ++ text
               else bare_marker ordered index).
Proof.
  intros ->. destruct (strip_last s) as [->|(r & c & -> & Hc)].
  - cbn [Py.truthy]. rewrite app_nil_r, marker_bare.
    destruct (bare_marker_last ordered index) as (r & c & -> & Hc).
    unfold Py.rstrip. rewrite !app_assoc.
    rewrite rstrip_by_drop by reflexivity.
    apply rstrip_by_fixed. exact Hc.
  - replace (Py.truthy (r ++ [c])) with true by (destruct r; reflexivity).
    unfold Py.rstrip. rewrite !app_assoc.
    apply rstrip_by_fixed. exact Hc.
Qed.

(** ** The title *)

Lemma startswith_spec (p s : str) :
  Py.startswith p s = true <-> exists w, s = p ++ w.
Proof.
  revert s; induction p as [|c p IH]; intros s; simpl.
  - split; [exists s; reflexivity | reflexivity].
  - destruct s as [|d s].
    + split; [discriminate | intros [w H]; discriminate].
    + rewrite andb_true_iff, N.eqb_eq, IH. split.
      * intros [-> [w ->]]. exists w. reflexivity.
      * intros [w [= -> ->]]. split; [reflexivity | exists w; reflexivity].
Qed.

Lemma title_test_spec (title md : str) :
  (Py.startswith (u "# ") (first_line_of md)
   && Py.eqb (Py.strip (Py.slice_from 2 (first_line_of md))) title)%bool = true
  <-> opens_with_title title md.
Proof.
  unfold opens_with_title. rewrite andb_true_iff, startswith_spec, eqb_eq. split.
  - intros [[w Hw] Heq]. exists w. rewrite Hw in Heq. auto.
  - intros [w [Hw Heq]]. split; [exists w; exact Hw|]. rewrite Hw. exact Heq.
Qed.

Lemma prepend_title_spec (title md : str) :
  (title <> [] /\ ~ opens_with_title title md ->
   prepend_title title md = u "# " ++ title ++ [Py.LF; Py.LF] ++ md)
  /\ (title = [] \/ opens_with_title title md -> prepend_title title md = md).
Proof.
  unfold prepend_title. cbv zeta.
  pose proof (title_test_spec title md) as Ht.
  destruct (Py.startswith (u "# ") (first_line_of md)
            && Py.eqb (Py.strip (Py.slice_from 2 (first_line_of md))) title)%bool.
  - split.
    + intros [_ Hno]. exfalso. apply Hno, Ht. reflexivity.
    + intros _. destruct title; reflexivity.
  - split.
    + intros [Hne _]. destruct title; [congruence | reflexivity].
    + intros [->|Hopen]; [reflexivity|]. apply Ht in Hopen. discriminate.
Qed.

(** A body that starts with the heading and a newline has it as first
    line. *)
Lemma splitlines_from_first (acc line rest : str) :
  forallb (fun c => negb (Py.is_linebreak c)) line = true ->
  exists ls, Py.splitlines_from acc (line ++ Py.LF :: rest) = (rev acc ++ line) :: ls.
Proof.
  revert acc; induction line as [|c line IH]; intros acc Hline.
  - eexists. cbn [app Py.splitlines_from]. change (N.eqb Py.LF 13) with false.
    cbv iota. change (Py.is_linebreak Py.LF) with true. cbv iota.
    rewrite app_nil_r. reflexivity.
  - cbn [forallb] in Hline. apply andb_true_iff in Hline. destruct Hline as [Hc Hline].
    apply negb_true_iff in Hc.
    destruct (IH (c :: acc) Hline) as [ls Hls]. exists ls.
    cbn [app Py.splitlines_from].
    assert (H13 : N.eqb c 13 = false).
    { destruct (N.eqb_spec c 13) as [->|]; [discriminate Hc | reflexivity]. }
    rewrite H13, Hc, Hls. cbn [rev]. rewrite <- app_assoc. reflexivity.
Qed.

Lemma opens_with_exact_title (title rest : str) :
  title <> [] -> Py.strip title = title ->
  forallb (fun c => negb (Py.is_linebreak c)) title = true ->
  opens_with_title title (u "# " ++ title ++ Py.LF :: rest).
Proof.
  intros Hne Hstrip Hline. exists title. split; [|exact Hstrip].
  unfold first_line_of, Py.splitlines.
  destruct (@splitlines_from_first [] (u "# " ++ title) rest) as [ls Hls].
  { rewrite forallb_app, Hline. reflexivity. }
  rewrite <- app_assoc in Hls. rewrite Hls. cbn [rev app].
  destruct (strip_last title) as [E|(r & c & E & Hc)]; rewrite Hstrip in E;
    [congruence|].
  rewrite E. change (u "# " ++ r ++ [c]) with (35%N :: (32%N :: r) ++ [c]).
  apply strip_fixed; [reflexivity | exact Hc].
Qed.

(** ** Whitespace *)

Lemma is_hws_not_LF (c : Py.char) : Re.is_hws c = true -> N.eqb Py.LF c = false.
Proof.
  unfold Re.is_hws. rewrite orb_true_iff, !N.eqb_eq. intros [->| ->]; reflexivity.
Qed.

Lemma newlines_replace_char (a : Py.char) (b s : str) :
  N.eqb Py.LF a = false -> newlines b = [] ->
  newlines (Py.replace_char a b s) = newlines s.
Proof.
  intros Ha Hb. induction s as [|c s IH]; [reflexivity|].
  change (Py.replace_char a b (c :: s))
    with ((if N.eqb c a then b else [c]) ++ Py.replace_char a b s).
  unfold newlines, Py.str, Py.char in *. rewrite filter_app, IH.
  destruct (N.eqb_spec c a) as [->|Hne].
  - rewrite Hb. cbn [filter app]. rewrite Ha. reflexivity.
  - cbn [filter]. destruct (N.eqb Py.LF c); reflexivity.
Qed.

Lemma newlines_sub_hws_before_LF (s : str) :
  newlines (Re.sub_hws_before_LF s) = newlines s.
Proof.
  unfold newlines. induction s as [|c s IH]; [reflexivity|].
  cbn [Re.sub_hws_before_LF]. destruct (Re.is_hws c) eqn:E.
  - cbn [filter]. rewrite (is_hws_not_LF _ E).
    destruct (Re.hws_then_LF s); cbn [andb filter];
      [|rewrite (is_hws_not_LF _ E)]; exact IH.
  - cbn [andb filter]. rewrite IH. reflexivity.
Qed.

Lemma newlines_sub_hws_after_LF (b : bool) (s : str) :
  newlines (Re.sub_hws_after_LF_from b s) = newlines s.
Proof.
  unfold newlines. revert b; induction s as [|c s IH]; intros b; [reflexivity|].
  cbn [Re.sub_hws_after_LF_from]. destruct (Re.is_hws c) eqn:E.
  - cbn [filter]. rewrite (is_hws_not_LF _ E).
    destruct b; cbn [andb filter]; [|rewrite (is_hws_not_LF _ E)]; apply IH.
  - cbn [andb filter]. rewrite IH. reflexivity.
Qed.

Lemma newlines_sub_hws_runs (b : bool) (s : str) :
  newlines (Re.sub_hws_runs_from b s) = newlines s.
Proof.
  unfold newlines. revert b; induction s as [|c s IH]; intros b; [reflexivity|].
  cbn [Re.sub_hws_runs_from]. destruct (Re.is_hws c) eqn:E.
  - cbn [filter]. rewrite (is_hws_not_LF _ E). destruct b; [apply IH|].
    destruct s as [|d s]; [cbn [filter]; rewrite (is_hws_not_LF _ E); reflexivity|].
    destruct (Re.is_hws d); cbn [filter].
    + change (N.eqb Py.LF Py.SP) with false. cbv iota. apply IH.
    + rewrite (is_hws_not_LF _ E). apply IH.
  - cbn [filter]. rewrite IH. reflexivity.
Qed.

(** The normalizer keeps every newline: none removed, none merged. *)
Lemma clean_text_newlines (s : str) : newlines (_clean_text s) = newlines s.
Proof.
  unfold _clean_text, Re.sub_hws_runs, Re.sub_hws_after_LF.
  rewrite newlines_sub_hws_runs, newlines_sub_hws_after_LF,
    newlines_sub_hws_before_LF, !newlines_replace_char; reflexivity.
Qed.

(** *** No space or tab next to a newline, no two in a row *)

Lemma no_adjacent_after_any (R : Py.char -> Py.char -> bool) (prev : Py.char) (s : str) :
  no_adjacent_after R prev s = true -> no_adjacent R s = true.
Proof.
  destruct s as [|c s]; [reflexivity|]. cbn [no_adjacent_after no_adjacent].
  rewrite andb_true_iff. tauto.
Qed.

Lemma no_adjacent_after_free (R : Py.char -> Py.char -> bool) (prev : Py.char) (s : str) :
  (forall c, R prev c = false) ->
  no_adjacent R s = true -> no_adjacent_after R prev s = true.
Proof.
  intros Hfree. destruct s as [|c s]; [reflexivity|].
  cbn [no_adjacent_after no_adjacent]. rewrite Hfree. trivial.
Qed.

Lemma hws_then_LF_skip (c : Py.char) (s : str) :
  Re.is_hws c = true -> Re.hws_then_LF (c :: s) = Re.hws_then_LF s.
Proof. intros H. unfold Re.hws_then_LF. cbn [Py.lstrip_by]. rewrite H. reflexivity. Qed.

Lemma hws_then_LF_stop (c : Py.char) (s : str) :
  Re.is_hws c = false -> Re.hws_then_LF (c :: s) = N.eqb c Py.LF.
Proof. intros H. unfold Re.hws_then_LF. cbn [Py.lstrip_by]. rewrite H. reflexivity. Qed.

(** The first pass leaves no space or tab before a newline. *)
Lemma sub_hws_before_LF_after (s : str) (prev : Py.char) :
  (Re.is_hws prev = true -> Re.hws_then_LF s = false) ->
  no_adjacent_after hws_before_LF prev (Re.sub_hws_before_LF s) = true.
Proof.
  revert prev; induction s as [|c s IH]; intros prev Hprev; [reflexivity|].
  cbn [Re.sub_hws_before_LF].
  destruct (Re.is_hws c) eqn:Ec.
  - rewrite hws_then_LF_skip in Hprev by exact Ec.
    destruct (Re.hws_then_LF s) eqn:Es; cbn [andb].
    + apply IH. intros Hp. specialize (Hprev Hp). discriminate.
    + cbn [no_adjacent_after]. rewrite IH by (intros _; reflexivity).
      unfold hws_before_LF.
      replace (N.eqb c Py.LF) with false
        by (symmetry; rewrite N.eqb_sym; apply is_hws_not_LF; exact Ec).
      rewrite andb_false_r. reflexivity.
  - cbn [andb no_adjacent_after]. rewrite IH by (rewrite Ec; discriminate).
    rewrite andb_true_r. unfold hws_before_LF.
    destruct (Re.is_hws prev) eqn:Ep; [|reflexivity].
    rewrite hws_then_LF_stop in Hprev by exact Ec. rewrite (Hprev eq_refl).
    reflexivity.
Qed.

(** The second pass leaves no space or tab after a newline, and keeps the
    first property. *)
Lemma sub_hws_after_LF_after (s : str) (b : bool) (prev : Py.char) :
  (prev = Py.LF -> b = true) ->
  no_adjacent_after hws_after_LF prev (Re.sub_hws_after_LF_from b s) = true.
Proof.
  revert b prev; induction s as [|c s IH]; intros b prev Hprev; [reflexivity|].
  cbn [Re.sub_hws_after_LF_from].
  destruct (Re.is_hws c && b)%bool eqn:E.
  - apply IH. intros _. reflexivity.
  - cbn [no_adjacent_after]. rewrite IH by (intros ->; reflexivity).
    rewrite andb_true_r. unfold hws_after_LF.
    destruct (N.eqb_spec prev Py.LF) as [Hp|Hp]; [|reflexivity].
    rewrite (Hprev Hp), andb_true_r in E. rewrite E. reflexivity.
Qed.

Lemma no_adjacent_after_weaken (R : Py.char -> Py.char -> bool) (prev prev' : Py.char)
    (s : str) :
  (forall c, R prev' c = false) ->
  no_adjacent_after R prev s = true -> no_adjacent_after R prev' s = true.
Proof.
  intros Hfree. destruct s as [|c s]; [reflexivity|].
  cbn [no_adjacent_after]. rewrite Hfree, !andb_true_iff. tauto.
Qed.

Lemma sub_hws_after_LF_keeps (s : str) (b : bool) (prev : Py.char) :
  (b = true -> Re.is_hws prev = false) ->
  no_adjacent_after hws_before_LF prev s = true ->
  no_adjacent_after hws_before_LF prev (Re.sub_hws_after_LF_from b s) = true.
Proof.
  revert b prev; induction s as [|c s IH]; intros b prev Hb H; [reflexivity|].
  cbn [Re.sub_hws_after_LF_from]. cbn [no_adjacent_after] in H.
  apply andb_true_iff in H. destruct H as [Hpc Hrest].
  destruct (Re.is_hws c && b)%bool eqn:E.
  - apply andb_true_iff in E. destruct E as [Ec ->].
    apply IH; [intros _; exact (Hb eq_refl)|].
    apply no_adjacent_after_weaken with (prev := c); [|exact Hrest].
    intros d. unfold hws_before_LF. rewrite (Hb eq_refl). reflexivity.
  - cbn [no_adjacent_after]. rewrite Hpc. apply IH; [|exact Hrest].
    intros Hc. apply N.eqb_eq in Hc. subst c. reflexivity.
Qed.

(** The third pass leaves no two spaces or tabs in a row, and keeps the
    first two properties. *)
Lemma sub_hws_runs_after (s : str) (b : bool) (prev : Py.char) :
  (Re.is_hws prev = true ->
   b = true \/ match s with d :: _ => Re.is_hws d = false | [] => True end) ->
  no_adjacent_after hws_pair prev (Re.sub_hws_runs_from b s) = true.
Proof.
  revert b prev; induction s as [|c s IH]; intros b prev Hprev; [reflexivity|].
  cbn [Re.sub_hws_runs_from].
  destruct (Re.is_hws c) eqn:Ec.
  - destruct b.
    + apply IH. intros _. left. reflexivity.
    + assert (Hp : Re.is_hws prev = false).
      { destruct (Re.is_hws prev); [|reflexivity].
        destruct (Hprev eq_refl) as [H|H]; [discriminate | congruence]. }
      destruct s as [|d s].
      * cbn [no_adjacent_after]. unfold hws_pair. rewrite Hp. reflexivity.
      * destruct (Re.is_hws d) eqn:Ed.
        -- cbn [no_adjacent_after]. rewrite IH by (intros _; left; reflexivity).
           unfold hws_pair. rewrite Hp. reflexivity.
        -- cbn [no_adjacent_after]. rewrite IH by (intros _; right; reflexivity).
           unfold hws_pair. rewrite Hp. reflexivity.
  - cbn [no_adjacent_after]. rewrite IH by (rewrite Ec; discriminate).
    unfold hws_pair. rewrite Ec, andb_false_r. reflexivity.
Qed.

Lemma sub_hws_runs_keeps_before (s : str) (b : bool) (prev_in prev_out : Py.char) :
  (Re.is_hws prev_out = true -> Re.is_hws prev_in = true) ->
  no_adjacent_after hws_before_LF prev_in s = true ->
  no_adjacent_after hws_before_LF prev_out (Re.sub_hws_runs_from b s) = true.
Proof.
  revert b prev_in prev_out; induction s as [|c s IH]; intros b pi po Hp H;
    [reflexivity|].
  cbn [Re.sub_hws_runs_from]. cbn [no_adjacent_after] in H.
  apply andb_true_iff in H. destruct H as [Hpc Hrest].
  assert (Hhws : forall x y, Re.is_hws y = true -> hws_before_LF x y = false).
  { intros x y Hy. unfold hws_before_LF.
    replace (N.eqb y Py.LF) with false
      by (symmetry; rewrite N.eqb_sym; apply is_hws_not_LF; exact Hy).
    apply andb_false_r. }
  destruct (Re.is_hws c) eqn:Ec.
  - destruct b.
    + apply (IH true c po); [intros _; exact Ec | exact Hrest].
    + destruct s as [|d s].
      * cbn [no_adjacent_after]. rewrite (Hhws po c Ec). reflexivity.
      * destruct (Re.is_hws d) eqn:Ed.
        -- cbn [no_adjacent_after]. rewrite (Hhws po Py.SP eq_refl).
           apply (IH true c Py.SP); [intros _; exact Ec | exact Hrest].
        -- cbn [no_adjacent_after]. rewrite (Hhws po c Ec).
           apply (IH false c c); [trivial | exact Hrest].
  - cbn [no_adjacent_after]. rewrite (IH false c c) by (trivial || exact Hrest).
    rewrite andb_true_r. unfold hws_before_LF in *.
    destruct (Re.is_hws po) eqn:Epo; [|reflexivity].
    rewrite (Hp eq_refl) in Hpc. exact Hpc.
Qed.

Lemma sub_hws_runs_keeps_after (s : str) (b : bool) (prev_in prev_out : Py.char) :
  (prev_out = Py.LF -> prev_in = Py.LF) ->
  (b = true -> prev_out <> Py.LF) ->
  no_adjacent_after hws_after_LF prev_in s = true ->
  no_adjacent_after hws_after_LF prev_out (Re.sub_hws_runs_from b s) = true.
Proof.
  revert b prev_in prev_out; induction s as [|c s IH]; intros b pi po Hp Hb H;
    [reflexivity|].
  cbn [Re.sub_hws_runs_from]. cbn [no_adjacent_after] in H.
  apply andb_true_iff in H. destruct H as [Hpc Hrest].
  assert (Hnot : Re.is_hws c = true -> po <> Py.LF).
  { intros Ec ->. rewrite (Hp eq_refl) in Hpc. unfold hws_after_LF in Hpc.
    rewrite Ec in Hpc. discriminate. }
  assert (Hfree : forall x y, x <> Py.LF -> hws_after_LF x y = false).
  { intros x y Hx. unfold hws_after_LF. apply N.eqb_neq in Hx. rewrite Hx. reflexivity. }
  assert (Hsame : forall x, x = Py.LF -> x = Py.LF) by trivial.
  destruct (Re.is_hws c) eqn:Ec.
  - destruct b.
    + apply (IH true c po); [|exact Hb|exact Hrest].
      intros Hpo. exfalso. exact (Hb eq_refl Hpo).
    + destruct s as [|d s].
      * cbn [no_adjacent_after]. rewrite (Hfree po c (Hnot eq_refl)). reflexivity.
      * destruct (Re.is_hws d) eqn:Ed.
        -- cbn [no_adjacent_after]. rewrite (Hfree po Py.SP (Hnot eq_refl)).
           apply (IH true c Py.SP); [discriminate | discriminate | exact Hrest].
        -- cbn [no_adjacent_after]. rewrite (Hfree po c (Hnot eq_refl)).
           apply (IH false c c); [trivial | discriminate | exact Hrest].
  - cbn [no_adjacent_after].
    rewrite (IH false c c) by (trivial || discriminate || exact Hrest).
    unfold hws_after_LF. rewrite Ec, andb_false_r. reflexivity.
Qed.

(** The normalizer leaves no space or tab next to a newline and no two
    spaces or tabs in a row. *)
Lemma clean_text_no_adjacent (s : str) :
  no_adjacent hws_before_LF (_clean_text s) = true
  /\ no_adjacent hws_after_LF (_clean_text s) = true
  /\ no_adjacent hws_pair (_clean_text s) = true.
Proof.
  unfold _clean_text.
  set (s0 := Py.replace_char Py.ZWSP [] (Py.replace_char Py.NBSP [Py.SP] s)).
  assert (H1 : no_adjacent_after hws_before_LF 0%N (Re.sub_hws_before_LF s0) = true)
    by (apply sub_hws_before_LF_after; discriminate).
  assert (H2 : no_adjacent_after hws_before_LF 0%N
                 (Re.sub_hws_after_LF (Re.sub_hws_before_LF s0)) = true)
    by (apply sub_hws_after_LF_keeps; [discriminate | exact H1]).
  assert (H3 : no_adjacent_after hws_after_LF 0%N
                 (Re.sub_hws_after_LF (Re.sub_hws_before_LF s0)) = true)
    by (apply sub_hws_after_LF_after; discriminate).
  split; [|split].
  - apply no_adjacent_after_any with (prev := 0%N).
    apply sub_hws_runs_keeps_before with (prev_in := 0%N); [trivial | exact H2].
  - apply no_adjacent_after_any with (prev := 0%N).
    apply sub_hws_runs_keeps_after with (prev_in := 0%N);
      [trivial | discriminate | exact H3].
  - apply no_adjacent_after_any with (prev := 0%N).
    apply sub_hws_runs_after. discriminate.
Qed.

(** The body ends with one newline after a character that is no space. *)
Lemma normalize_body_end (rendered : str) :
  exists r, normalize_body rendered = r ++ [Py.LF]
            /\ (r = [] \/ exists r' c, r = r' ++ [c] /\ Py.isspace c = false).
Proof.
  unfold normalize_body. eexists. split; [reflexivity|]. apply strip_last.
Qed.

(** *** The passes, run by run

    Each substitution acts on the maximal runs that its pattern matches and
    copies the rest. *)

Lemma hws_then_LF_run (w rest : str) :
  forallb Re.is_hws w = true -> Re.hws_then_LF (w ++ rest) = Re.hws_then_LF rest.
Proof.
  induction w as [|c w IH]; [reflexivity|]. cbn [forallb app].
  rewrite andb_true_iff. intros [Hc Hw].
  rewrite hws_then_LF_skip by exact Hc. apply IH. exact Hw.
Qed.

(** [[ \t]+\n]: a run before a newline goes, any other run stays. *)
Lemma sub_hws_before_LF_run (w rest : str) (c : Py.char) :
  forallb Re.is_hws w = true -> Re.is_hws c = false ->
  Re.sub_hws_before_LF (w ++ c :: rest)
  = (if N.eqb c Py.LF then [] else w) ++ c :: Re.sub_hws_before_LF rest.
Proof.
  intros Hw Hc. induction w as [|d w IH].
  - cbn [app Re.sub_hws_before_LF]. rewrite Hc. cbn [andb].
    destruct (N.eqb c Py.LF); reflexivity.
  - cbn [forallb] in Hw. apply andb_true_iff in Hw. destruct Hw as [Hd Hw].
    cbn [app Re.sub_hws_before_LF]. rewrite Hd, hws_then_LF_run by exact Hw.
    rewrite hws_then_LF_stop by exact Hc. rewrite (IH Hw). cbn [andb].
    destruct (N.eqb c Py.LF); reflexivity.
Qed.

Lemma sub_hws_before_LF_end (w : str) :
  forallb Re.is_hws w = true -> Re.sub_hws_before_LF w = w.
Proof.
  induction w as [|d w IH]; [reflexivity|]. cbn [forallb].
  rewrite andb_true_iff. intros [Hd Hw]. cbn [Re.sub_hws_before_LF].
  rewrite <- (app_nil_r w) at 1. rewrite hws_then_LF_run by exact Hw.
  rewrite andb_false_r, (IH Hw). reflexivity.
Qed.

(** [\n[ \t]+]: the run after a newline goes. *)
Lemma sub_hws_after_LF_drop (w rest : str) :
  forallb Re.is_hws w = true ->
  Re.sub_hws_after_LF_from true (w ++ rest) = Re.sub_hws_after_LF_from true rest.
Proof.
  induction w as [|d w IH]; [reflexivity|]. cbn [forallb app].
  rewrite andb_true_iff. intros [Hd Hw]. cbn [Re.sub_hws_after_LF_from].
  rewrite Hd. cbn [andb]. apply IH. exact Hw.
Qed.

Lemma sub_hws_after_LF_flag (b : bool) (rest : str) :
  starts_with_hws rest = false ->
  Re.sub_hws_after_LF_from b rest = Re.sub_hws_after_LF rest.
Proof.
  destruct rest as [|c rest]; [reflexivity|]. cbn [starts_with_hws].
  intros Hc. unfold Re.sub_hws_after_LF. cbn [Re.sub_hws_after_LF_from].
  rewrite Hc. reflexivity.
Qed.

Lemma sub_hws_after_LF_run (w rest : str) :
  forallb Re.is_hws w = true -> starts_with_hws rest = false ->
  Re.sub_hws_after_LF (Py.LF :: w ++ rest) = Py.LF :: Re.sub_hws_after_LF rest.
Proof.
  intros Hw Hrest. unfold Re.sub_hws_after_LF at 1.
  cbn [Re.sub_hws_after_LF_from]. change (Re.is_hws Py.LF) with false.
  cbn [andb]. change (N.eqb Py.LF Py.LF) with true.
  rewrite sub_hws_after_LF_drop by exact Hw.
  rewrite sub_hws_after_LF_flag by exact Hrest. reflexivity.
Qed.

Lemma sub_hws_after_LF_copy (c : Py.char) (rest : str) :
  N.eqb c Py.LF = false ->
  Re.sub_hws_after_LF (c :: rest) = c :: Re.sub_hws_after_LF rest.
Proof.
  intros Hc. unfold Re.sub_hws_after_LF. cbn [Re.sub_hws_after_LF_from].
  rewrite andb_false_r, Hc. reflexivity.
Qed.

(** [[ \t]{2,}]: a run of two or more becomes one space, a single space or
    tab stays. *)
Lemma sub_hws_runs_drop (w rest : str) :
  forallb Re.is_hws w = true -> starts_with_hws rest = false ->
  Re.sub_hws_runs_from true (w ++ rest) = Re.sub_hws_runs rest.
Proof.
  intros Hw Hrest. induction w as [|d w IH].
  - destruct rest as [|c rest]; [reflexivity|]. cbn [starts_with_hws] in Hrest.
    unfold Re.sub_hws_runs. cbn [app Re.sub_hws_runs_from]. rewrite Hrest.
    reflexivity.
  - cbn [forallb] in Hw. apply andb_true_iff in Hw. destruct Hw as [Hd Hw].
    cbn [app Re.sub_hws_runs_from]. rewrite Hd. apply IH. exact Hw.
Qed.

Lemma sub_hws_runs_run (c d : Py.char) (w rest : str) :
  forallb Re.is_hws (c :: d :: w) = true -> starts_with_hws rest = false ->
  Re.sub_hws_runs (c :: d :: w ++ rest) = Py.SP :: Re.sub_hws_runs rest.
Proof.
  cbn [forallb]. rewrite !andb_true_iff. intros (Hc & Hd & Hw) Hrest.
  unfold Re.sub_hws_runs at 1. cbn [Re.sub_hws_runs_from]. rewrite Hc, Hd.
  f_equal. apply sub_hws_runs_drop; assumption.
Qed.

Lemma sub_hws_runs_single (c : Py.char) (rest : str) :
  starts_with_hws rest = false ->
  Re.sub_hws_runs (c :: rest) = c :: Re.sub_hws_runs rest.
Proof.
  intros Hrest. unfold Re.sub_hws_runs. cbn [Re.sub_hws_runs_from].
  destruct (Re.is_hws c); [|reflexivity].
  destruct rest as [|d rest]; [reflexivity|]. cbn [starts_with_hws] in Hrest.
  rewrite Hrest. reflexivity.
Qed.

(** *** The two special spaces are gone *)

Lemma replace_char_Forall (P : Py.char -> Prop) (a : Py.char) (b s : str) :
  Forall P b -> Forall (fun c => c <> a -> P c) s ->
  Forall P (Py.replace_char a b s).
Proof.
  intros Hb. induction 1 as [|c s Hc _ IH]; [constructor|].
  change (Py.replace_char a b (c :: s))
    with ((if N.eqb c a then b else [c]) ++ Py.replace_char a b s).
  apply Forall_app. split; [|exact IH].
  destruct (N.eqb_spec c a) as [->|Hne]; [exact Hb|].
  constructor; [exact (Hc Hne) | constructor].
Qed.

Lemma sub_hws_before_LF_Forall (P : Py.char -> Prop) (s : str) :
  Forall P s -> Forall P (Re.sub_hws_before_LF s).
Proof.
  induction 1 as [|c s Hc _ IH]; [constructor|]. cbn [Re.sub_hws_before_LF].
  destruct (Re.is_hws c && Re.hws_then_LF s)%bool; [exact IH | constructor; assumption].
Qed.

Lemma sub_hws_after_LF_Forall (P : Py.char -> Prop) (b : bool) (s : str) :
  Forall P s -> Forall P (Re.sub_hws_after_LF_from b s).
Proof.
  intros H. revert b. induction H as [|c s Hc _ IH]; intros b; [constructor|].
  cbn [Re.sub_hws_after_LF_from].
  destruct (Re.is_hws c && b)%bool; [apply IH | constructor; [exact Hc | apply IH]].
Qed.

Lemma sub_hws_runs_Forall (P : Py.char -> Prop) (b : bool) (s : str) :
  P Py.SP -> Forall P s -> Forall P (Re.sub_hws_runs_from b s).
Proof.
  intros Hsp H. revert b. induction H as [|c s Hc Hs IH]; intros b; [constructor|].
  cbn [Re.sub_hws_runs_from].
  destruct (Re.is_hws c); [|constructor; [exact Hc | apply IH]].
  destruct b; [apply IH|].
  destruct s as [|d s]; [constructor; [exact Hc | constructor]|].
  destruct (Re.is_hws d); constructor; solve [exact Hsp | exact Hc | apply IH].
Qed.

(** The normalizer leaves no non-breaking and no zero-width space. *)
Lemma clean_text_special_spaces (s : str) :
  Forall (fun c => c <> Py.NBSP /\ c <> Py.ZWSP) (_clean_text s).
Proof.
  unfold _clean_text, Re.sub_hws_runs, Re.sub_hws_after_LF.
  apply sub_hws_runs_Forall; [split; discriminate|].
  apply sub_hws_after_LF_Forall, sub_hws_before_LF_Forall.
  apply replace_char_Forall; [constructor|].
  assert (H : Forall (fun c => c <> Py.NBSP) (Py.replace_char Py.NBSP [Py.SP] s)).
  { apply replace_char_Forall; [repeat constructor; discriminate|].
    rewrite Forall_forall. trivial. }
  eapply Forall_impl; [|exact H]. intros c Hc Hz. split; assumption.
Qed.

(** *** Runs of newlines *)

(** A run of [n] newlines becomes a run of two, or is kept if shorter. *)
Lemma sub_LF3_run (n k : nat) (c : Py.char) (rest : str) :
  N.eqb c Py.LF = false -> k <= 2 ->
  Re.sub_LF3_from k (repeat Py.LF n ++ c :: rest)
  = repeat Py.LF (Nat.min n (2 - k)) ++ c :: Re.sub_LF3_from 0 rest.
Proof.
  intros Hc. revert k; induction n as [|n IH]; intros k Hk.
  - cbn [repeat app Re.sub_LF3_from Nat.min]. rewrite Hc. reflexivity.
  - cbn [repeat app Re.sub_LF3_from]. change (N.eqb Py.LF Py.LF) with true. cbv iota.
    destruct (Nat.leb_spec 2 k) as [H2|H2].
    + rewrite IH by exact Hk. replace (2 - k) with 0 by lia.
      rewrite !Nat.min_0_r. reflexivity.
    + rewrite IH by lia. replace (2 - k) with (S (2 - S k)) by lia.
      cbn [Nat.min repeat app]. reflexivity.
Qed.

Lemma sub_LF3_no_run (s : str) (k : nat) :
  k <= 2 -> no_LF3_after k (Re.sub_LF3_from k s) = true.
Proof.
  revert k; induction s as [|c s IH]; intros k Hk; [reflexivity|].
  cbn [Re.sub_LF3_from]. destruct (N.eqb c Py.LF) eqn:Ec.
  - destruct (Nat.leb_spec 2 k) as [H2|H2]; [apply IH; exact Hk|].
    cbn [no_LF3_after]. rewrite Ec, IH by lia.
    replace (Nat.ltb k 2) with true by (symmetry; apply Nat.ltb_lt; exact H2).
    reflexivity.
  - cbn [no_LF3_after]. rewrite Ec. apply IH. lia.
Qed.

Lemma no_LF3_after_mono (s : str) (k k' : nat) :
  k' <= k -> no_LF3_after k s = true -> no_LF3_after k' s = true.
Proof.
  revert k k'; induction s as [|c s IH]; intros k k' Hk; [reflexivity|].
  cbn [no_LF3_after]. destruct (N.eqb c Py.LF); [|trivial].
  rewrite !andb_true_iff, !Nat.ltb_lt. intros [H2 H]. split; [lia|].
  apply (IH (S k)); [lia | exact H].
Qed.

Lemma no_LF3_after_tail (c : Py.char) (s : str) (k : nat) :
  no_LF3_after k (c :: s) = true -> no_LF3 s = true.
Proof.
  cbn [no_LF3_after]. unfold no_LF3. destruct (N.eqb c Py.LF); [|trivial].
  rewrite andb_true_iff. intros [_ H]. apply (@no_LF3_after_mono s (S k)); [lia | exact H].
Qed.

Lemma no_LF3_lstrip_by (p : Py.char -> bool) (s : str) :
  no_LF3 s = true -> no_LF3 (Py.lstrip_by p s) = true.
Proof.
  induction s as [|c s IH]; [trivial|]. intros H. cbn [Py.lstrip_by].
  destruct (p c); [|exact H]. apply IH. exact (no_LF3_after_tail _ _ _ H).
Qed.

Lemma no_LF3_after_prefix (s t : str) (k : nat) :
  no_LF3_after k (s ++ t) = true -> no_LF3_after k s = true.
Proof.
  revert k; induction s as [|c s IH]; intros k; [reflexivity|].
  cbn [app no_LF3_after]. destruct (N.eqb c Py.LF); [|apply IH].
  rewrite !andb_true_iff. intros [H2 H]. split; [exact H2 | apply IH; exact H].
Qed.

Lemma lstrip_by_suffix (p : Py.char -> bool) (s : str) :
  exists t, s = t ++ Py.lstrip_by p s.
Proof.
  induction s as [|c s [t IH]]; [exists []; reflexivity|]. cbn [Py.lstrip_by].
  destruct (p c); [|exists []; reflexivity].
  exists (c :: t). cbn [app]. rewrite <- IH. reflexivity.
Qed.

Lemma rstrip_by_prefix (p : Py.char -> bool) (s : str) :
  exists t, s = Py.rstrip_by p s ++ t.
Proof.
  unfold Py.rstrip_by. destruct (lstrip_by_suffix p (rev s)) as [t Ht].
  exists (rev t). rewrite <- rev_app_distr, <- Ht, rev_involutive. reflexivity.
Qed.

Lemma no_LF3_strip (s : str) : no_LF3 s = true -> no_LF3 (Py.strip s) = true.
Proof.
  intros H. unfold Py.strip, Py.rstrip, Py.lstrip.
  apply (no_LF3_lstrip_by Py.isspace) in H.
  destruct (rstrip_by_prefix Py.isspace (Py.lstrip_by Py.isspace s)) as [t Ht].
  rewrite Ht in H. exact (no_LF3_after_prefix _ _ _ H).
Qed.

Lemma no_LF3_after_snoc_LF (s : str) (c : Py.char) (k : nat) :
  N.eqb c Py.LF = false ->
  no_LF3_after k (s ++ [c]) = true -> no_LF3_after k (s ++ [c; Py.LF]) = true.
Proof.
  intros Hc. revert k; induction s as [|d s IH]; intros k.
  - cbn [app no_LF3_after]. rewrite Hc. reflexivity.
  - cbn [app no_LF3_after]. destruct (N.eqb d Py.LF); [|apply IH].
    rewrite !andb_true_iff. intros [H2 H]. split; [exact H2 | apply IH; exact H].
Qed.

(** The body handed to the title step has no run of three newlines. *)
Lemma normalize_body_no_LF3 (rendered : str) :
  no_LF3 (normalize_body rendered) = true.
Proof.
  unfold normalize_body.
  set (md := Py.strip (_clean_text rendered)).
  assert (H : no_LF3 (Py.strip (Re.sub_LF3 md)) = true).
  { apply no_LF3_strip. apply (sub_LF3_no_run md). lia. }
  destruct (strip_last (Re.sub_LF3 md)) as [E|(r & c & E & Hc)]; rewrite E in *;
    [reflexivity|].
  rewrite <- app_assoc. apply no_LF3_after_snoc_LF; [|exact H].
  destruct (N.eqb_spec c Py.LF) as [->|]; [discriminate Hc | reflexivity].
Qed.

(** ** The sanitizer run twice, and what it does not read *)

Lemma extract_comments_fixed (n : node) :
  Forall (fun d => negb (is_comment d) = true) (descendants n) ->
  extract_comments n = n.
Proof.
  induction n as [nm attrs cs IH| | |] using node_ind'; [|reflexivity..].
  rewrite descendants_Forall. intros H. cbn [extract_comments]. f_equal.
  rewrite <- (flat_map_singleton cs) at 2. apply flat_map_Forall_ext.
  rewrite Forall_forall in *. intros c Hin. destruct (H c Hin) as [Hq Hbelow].
  destruct c; [|reflexivity|discriminate|reflexivity]. f_equal. apply (IH _ Hin). exact Hbelow.
Qed.

Lemma decompose_noisy_fixed (n : node) :
  Forall (fun d => absent noisy_tags d = true) (descendants n) ->
  decompose_noisy n = n.
Proof.
  induction n as [nm attrs cs IH| | |] using node_ind'; [|reflexivity..].
  rewrite descendants_Forall. intros H. cbn [decompose_noisy]. f_equal.
  rewrite <- (flat_map_singleton cs) at 2. apply flat_map_Forall_ext.
  rewrite Forall_forall in *. intros c Hin. destruct (H c Hin) as [Hq Hbelow].
  unfold absent in Hq. apply negb_true_iff in Hq. rewrite Hq.
  f_equal. apply (IH _ Hin). exact Hbelow.
Qed.

Lemma unwrap_links_fixed (n : node) :
  Forall (fun d => absent [u "a"] d = true) (descendants n) ->
  unwrap_links n = n.
Proof.
  induction n as [nm attrs cs IH| | |] using node_ind'; [|reflexivity..].
  rewrite descendants_Forall. intros H. cbn [unwrap_links]. f_equal.
  rewrite <- (map_id cs) at 2. apply map_ext_Forall.
  rewrite Forall_forall in *. intros c Hin. destruct (H c Hin) as [Hq Hbelow].
  unfold absent in Hq. apply negb_true_iff in Hq. rewrite Hq.
  apply (IH _ Hin). exact Hbelow.
Qed.

Lemma clear_attrs_fixed (n : node) :
  no_attrs n -> Forall no_attrs (descendants n) -> clear_attrs n = n.
Proof.
  induction n as [nm attrs cs IH| | |] using node_ind'; [|reflexivity..].
  rewrite descendants_Forall. intros Hn H. cbn in Hn. subst attrs.
  cbn [clear_attrs]. f_equal.
  rewrite <- (map_id cs) at 2. apply map_ext_Forall.
  rewrite Forall_forall in *. intros c Hin. destruct (H c Hin) as [Hq Hbelow].
  apply (IH _ Hin); assumption.
Qed.

Lemma strip_attrs_fixed (n : node) :
  Forall no_attrs (descendants n) -> strip_attrs n = n.
Proof.
  destruct n as [nm attrs cs| | |]; [|reflexivity..].
  rewrite descendants_Forall. intros H. cbn [strip_attrs]. f_equal.
  rewrite <- (map_id cs) at 2. apply map_ext_Forall.
  rewrite Forall_forall in *. intros c Hin. destruct (H c Hin) as [Hq Hbelow].
  apply clear_attrs_fixed; assumption.
Qed.

(** A second run of the sanitizer changes nothing. *)
Lemma sanitize_idempotent (content : node) :
  sanitize (sanitize content) = sanitize content.
Proof.
  unfold sanitize at 1.
  rewrite (extract_comments_fixed _ (sanitize_no_comment content)).
  rewrite (decompose_noisy_fixed _ (sanitize_no_noisy content)).
  rewrite (unwrap_links_fixed _ (sanitize_no_link content)).
  apply strip_attrs_fixed. unfold sanitize. apply strip_attrs_no_attrs.
Qed.

Lemma is_tag_in_clear_attrs (L : list str) (n : node) :
  is_tag_in L (clear_attrs n) = is_tag_in L n.
Proof. destruct n; reflexivity. Qed.

(** The passes before the last one do not read attributes. *)
Lemma read_string_clear_attrs (name : str) (n : node) :
  flat_map (read_string name) (descendants (clear_attrs n))
  = flat_map (read_string name) (descendants n).
Proof.
  induction n as [nm attrs cs IH| | |] using node_ind'; [|reflexivity..].
  cbn [clear_attrs descendants].
  rewrite flat_map_map, !flat_map_flat_map. apply flat_map_Forall_ext.
  rewrite Forall_forall in *. intros c Hin. cbn [flat_map].
  rewrite (IH c Hin). destruct c; reflexivity.
Qed.

Lemma all_strings_clear_attrs (n : node) :
  all_strings (clear_attrs n) = all_strings n.
Proof.
  unfold all_strings. rewrite read_string_clear_attrs.
  destruct n; reflexivity.
Qed.

Lemma get_text_strip_clear_attrs (sep : str) (n : node) :
  get_text_strip sep (clear_attrs n) = get_text_strip sep n.
Proof. unfold get_text_strip. rewrite all_strings_clear_attrs. reflexivity. Qed.

Lemma clear_attrs_extract_comments (n : node) :
  clear_attrs (extract_comments n) = extract_comments (clear_attrs n).
Proof.
  induction n as [nm attrs cs IH| | |] using node_ind'; [|reflexivity..].
  cbn [clear_attrs extract_comments]. f_equal.
  rewrite map_flat_map, flat_map_map. apply flat_map_Forall_ext.
  rewrite Forall_forall in *. intros c Hin.
  destruct c; [|reflexivity..]. cbn [map]. rewrite (IH _ Hin). reflexivity.
Qed.

Lemma clear_attrs_decompose_noisy (n : node) :
  clear_attrs (decompose_noisy n) = decompose_noisy (clear_attrs n).
Proof.
  induction n as [nm attrs cs IH| | |] using node_ind'; [|reflexivity..].
  cbn [clear_attrs decompose_noisy]. f_equal.
  rewrite map_flat_map, flat_map_map. apply flat_map_Forall_ext.
  rewrite Forall_forall in *. intros c Hin.
  rewrite is_tag_in_clear_attrs.
  destruct (is_tag_in noisy_tags c); [reflexivity|].
  cbn [map]. rewrite (IH _ Hin). reflexivity.
Qed.

Lemma clear_attrs_unwrap_links (n : node) :
  clear_attrs (unwrap_links n) = unwrap_links (clear_attrs n).
Proof.
  induction n as [nm attrs cs IH| | |] using node_ind'; [|reflexivity..].
  cbn [clear_attrs unwrap_links]. f_equal.
  rewrite !map_map. apply map_ext_Forall.
  rewrite Forall_forall in *. intros c Hin.
  rewrite is_tag_in_clear_attrs, get_text_strip_clear_attrs.
  destruct (is_tag_in [u "a"] c); [reflexivity | apply (IH _ Hin)].
Qed.

Lemma clear_attrs_twice (n : node) : clear_attrs (clear_attrs n) = clear_attrs n.
Proof.
  apply clear_attrs_fixed; apply clear_attrs_no_attrs.
Qed.

Lemma strip_attrs_extract_comments (n : node) :
  extract_comments (strip_attrs n) = strip_attrs (extract_comments n).
Proof.
  destruct n as [nm attrs cs| | |]; [|reflexivity..].
  cbn [strip_attrs extract_comments]. f_equal.
  rewrite map_flat_map, flat_map_map. apply flat_map_Forall_ext.
  rewrite Forall_forall. intros c _.
  destruct c; [|reflexivity..]. cbn [map].
  rewrite clear_attrs_extract_comments. reflexivity.
Qed.

Lemma strip_attrs_decompose_noisy (n : node) :
  decompose_noisy (strip_attrs n) = strip_attrs (decompose_noisy n).
Proof.
  destruct n as [nm attrs cs| | |]; [|reflexivity..].
  cbn [strip_attrs decompose_noisy]. f_equal.
  rewrite map_flat_map, flat_map_map. apply flat_map_Forall_ext.
  rewrite Forall_forall. intros c _.
  rewrite is_tag_in_clear_attrs.
  destruct (is_tag_in noisy_tags c); [reflexivity|].
  cbn [map]. rewrite clear_attrs_decompose_noisy. reflexivity.
Qed.

Lemma strip_attrs_unwrap_links (n : node) :
  unwrap_links (strip_attrs n) = strip_attrs (unwrap_links n).
Proof.
  destruct n as [nm attrs cs| | |]; [|reflexivity..].
  cbn [strip_attrs unwrap_links]. f_equal.
  rewrite !map_map. apply map_ext_Forall.
  rewrite Forall_forall. intros c _.
  rewrite is_tag_in_clear_attrs, get_text_strip_clear_attrs.
  destruct (is_tag_in [u "a"] c); [reflexivity|].
  rewrite clear_attrs_unwrap_links. reflexivity.
Qed.

Lemma strip_attrs_twice (n : node) : strip_attrs (strip_attrs n) = strip_attrs n.
Proof. apply strip_attrs_fixed, strip_attrs_no_attrs. Qed.

(** The sanitized tree does not depend on the attributes below the root. *)
Lemma sanitize_strip_attrs (content : node) :
  sanitize (strip_attrs content) = sanitize content.
Proof.
  unfold sanitize.
  rewrite strip_attrs_extract_comments, strip_attrs_decompose_noisy,
    strip_attrs_unwrap_links.
  apply strip_attrs_twice.
Qed.

Lemma is_tag_in_extract_comments (L : list str) (n : node) :
  is_tag_in L (extract_comments n) = is_tag_in L n.
Proof. destruct n; reflexivity. Qed.

Lemma extract_comments_decompose_noisy (n : node) :
  extract_comments (decompose_noisy n) = decompose_noisy (extract_comments n).
Proof.
  induction n as [nm attrs cs IH| | |] using node_ind'; [|reflexivity..].
  cbn [extract_comments decompose_noisy]. f_equal.
  rewrite !flat_map_flat_map. apply flat_map_Forall_ext.
  rewrite Forall_forall in *. intros c Hin.
  destruct c as [cn ca ccs|s|s|k s]; [|reflexivity..].
  cbn [flat_map]. rewrite !app_nil_r.
  rewrite is_tag_in_extract_comments.
  destruct (is_tag_in noisy_tags (Element cn ca ccs)); [reflexivity|].
  cbn [flat_map]. rewrite (IH _ Hin). reflexivity.
Qed.


(** Below the content root the classifier decides on the bold ratio alone. *)
Lemma sanitize_looks_like_heading (content : node) :
  Forall (fun d => 0 < length (heading_text d) <= 60 ->
                   _looks_like_heading d
                   = Ok (heading_decision (length (heading_text d)) (bold_ratio d)
                           (PyFloat.of_N 0)))
         (descendants (sanitize content)).
Proof.
  eapply Forall_impl; [|apply sanitize_max_font_px].
  intros d Hd Hlen. apply looks_like_heading_decision; assumption.
Qed.

(** When the font probe raises, so does the classifier, unless the text was
    already rejected for its length. *)
Lemma looks_like_heading_raises (p_tag : node) (e : exn) :
  _max_font_px p_tag = Raise e ->
  0 < length (heading_text p_tag) <= 60 ->
  _looks_like_heading p_tag = Raise e.
Proof.
  intros Hpx [H0 H60]. unfold _looks_like_heading.
  rewrite truthy_length, Hpx.
  apply Nat.ltb_lt in H0. rewrite H0.
  replace (Nat.ltb 60 (length (heading_text p_tag))) with false; [reflexivity|].
  symmetry. apply Nat.ltb_ge. exact H60.
Qed.

(** The indentation that [_li_to_md] writes does not reach the output file:
    the normalizer, applied to the whole rendering, removes the spaces after
    each newline. *)
Lemma pipeline_flattens_nested_list :
  _to_md div_ul_nested 0
  = Ok (u "- a" ++ [Py.LF] ++ u "  - b" ++ [Py.LF; Py.LF; Py.LF])
  /\ convert [] div_ul_nested = Ok (u "- a" ++ [Py.LF] ++ u "- b" ++ [Py.LF]).
Proof. split; vm_compute; reflexivity. Qed.

(** * The statements of the specification *)

(** C1, as amended: a paragraph whose visible text is fully bold (the bold
    text is as long as the text), shorter than 20 characters and free of
    font-size declarations is accepted at level 3 (the rule "ratio >= 0.95
    and at most 30 characters" fires before the level-4 rule); the same
    paragraph with 20px declared on it is accepted at level 3, with 23px at
    level 2; a paragraph whose visible text has 70 characters is rejected
    whatever its styles are. *)
Theorem heading_threshold_levels (p_tag : node) :
  (fully_bold p_tag -> 0 < length (heading_text p_tag) < 20 ->
   declares_no_font_size p_tag ->
   _looks_like_heading p_tag = Ok (true, 3)
   /\ _looks_like_heading (with_font_size (u "20") p_tag) = Ok (true, 3)
   /\ _looks_like_heading (with_font_size (u "23") p_tag) = Ok (true, 2))
  /\ (length (heading_text p_tag) = 70 ->
      _looks_like_heading p_tag = Ok (false, 0)).
Proof.
  split.
  - intros Hbold Hlen Hno.
    assert (Htag : is_tag p_tag = true).
    { destruct p_tag; [reflexivity| | |]; cbv in Hlen; lia. }
    pose proof (bold_ratio_fully_bold Hbold Hlen) as Hratio.
    assert (H30 : Nat.leb (length (heading_text p_tag)) 30 = true)
      by (apply Nat.leb_le; lia).
    assert (H60 : 0 < length (heading_text p_tag) <= 60) by lia.
    repeat split.
    + rewrite (looks_like_heading_decision _ (max_font_px_no_font Hno) H60).
      unfold heading_decision. rewrite Hratio, H30. reflexivity.
    + rewrite <- (heading_text_with_font_size (u "20")) in H60.
      rewrite (looks_like_heading_decision _
                 (max_font_px_own_size (u "20") Htag Hno eq_refl eq_refl eq_refl) H60).
      rewrite bold_ratio_with_font_size. unfold heading_decision.
      rewrite Hratio. reflexivity.
    + rewrite <- (heading_text_with_font_size (u "23")) in H60.
      rewrite (looks_like_heading_decision _
                 (max_font_px_own_size (u "23") Htag Hno eq_refl eq_refl eq_refl) H60).
      rewrite bold_ratio_with_font_size. unfold heading_decision.
      rewrite Hratio. reflexivity.
  - intros H70. apply looks_like_heading_rejects. right. lia.
Qed.

Lemma heading_threshold_levels_witness :
  (_looks_like_heading p_bold_short = Ok (true, 3)
   /\ _looks_like_heading (with_font_size (u "20") p_bold_short) = Ok (true, 3)
   /\ _looks_like_heading (with_font_size (u "23") p_bold_short) = Ok (true, 2))
  /\ _looks_like_heading p_long = Ok (false, 0).
Proof.
  split.
  - apply (proj1 (heading_threshold_levels p_bold_short)).
    + reflexivity.
    + vm_compute. lia.
    + exact p_bold_short_no_font.
  - apply (proj2 (heading_threshold_levels p_long)). reflexivity.
Defined.

(** C1 as stated fails: the short, fully bold paragraph without any
    font-size is accepted at level 3, not at level 4. *)
Lemma heading_level_4_counterexample :
  fully_bold p_bold_short
  /\ 0 < length (heading_text p_bold_short) < 20
  /\ declares_no_font_size p_bold_short
  /\ _looks_like_heading p_bold_short = Ok (true, 3)
  /\ _looks_like_heading p_bold_short <> Ok (true, 4).
Proof.
  split; [reflexivity|]. split; [vm_compute; lia|].
  split; [exact p_bold_short_no_font|].
  split; [vm_compute; reflexivity | vm_compute; discriminate].
Qed.

(** C2: the pipeline clears the attributes of every tag below the content
    root before the block renderer runs: the font probe answers 0 for each of
    them, the classifier decides on the bold ratio alone, and the output is
    the same as for the tree without those attributes.  A paragraph declaring 23px, which the renderer alone makes a
    level-2 heading, leaves the pipeline as a plain paragraph; only the
    content root itself, which [find_all] does not list, keeps its style. *)
Theorem attributes_stripped_before_rendering :
  (forall content,
      Forall (fun d => no_attrs d /\ _max_font_px d = Ok (PyFloat.of_N 0))
             (descendants (sanitize content)))
  /\ (forall content,
        Forall (fun d => 0 < length (heading_text d) <= 60 ->
                         _looks_like_heading d
                         = Ok (heading_decision (length (heading_text d)) (bold_ratio d)
                                 (PyFloat.of_N 0)))
               (descendants (sanitize content)))
  /\ (forall title content, convert title (strip_attrs content) = convert title content)
  /\ _to_md div_p_23px 0 = Ok (u "## Hello" ++ [Py.LF; Py.LF])
  /\ convert [] div_p_23px = Ok (u "Hello" ++ [Py.LF])
  /\ convert [] p_23px = Ok (u "## Hello" ++ [Py.LF]).
Proof.
  split; [|split; [exact sanitize_looks_like_heading|split]].
  - intros content. pose proof (sanitize_max_font_px content) as H1.
    pose proof (strip_attrs_no_attrs
                  (unwrap_links (decompose_noisy (extract_comments content)))) as H2.
    fold (sanitize content) in H2. rewrite Forall_forall in *.
    intros d Hd. split; [apply H2 | apply H1]; exact Hd.
  - intros title content. unfold convert. rewrite sanitize_strip_attrs. reflexivity.
  - repeat split; vm_compute; reflexivity.
Qed.

(** C3: whenever the font probe returns a size, the classifier is the
    specification's decision procedure: text non-empty and at most 60
    characters, [boldRatio >= 0.85] or [maxFontPx >= 16], then the first
    level rule that fires in the order 22px, 18px, (0.95, 30), (0.85, 20);
    otherwise not a heading.  When the probe raises, on a [font-size] whose
    digits and dots are no number, the classifier raises with it for every
    text of 1 to 60 characters: for the fully bold paragraph
    [<p id="js_content" style="font-size: 1.2.3px"><b>x</b></p>] the rules of
    the specification give level 3 and the code gives [ValueError], also
    when the paragraph is the content root of the conversion. *)
Theorem looks_like_heading_spec :
  (forall p_tag max_px,
      _max_font_px p_tag = Ok max_px ->
      _looks_like_heading p_tag
      = Ok (spec_classifier (length (heading_text p_tag)) (bold_ratio p_tag) max_px))
  /\ (forall p_tag e,
        _max_font_px p_tag = Raise e ->
        _looks_like_heading p_tag
        = if (Nat.ltb 0 (length (heading_text p_tag))
              && Nat.leb (length (heading_text p_tag)) 60)%bool
          then Raise e else Ok (false, 0))
  /\ heading_text p_bold_malformed_size = u "x"
  /\ bold_ratio p_bold_malformed_size = PyFloat.of_N 1
  /\ Soup.get p_bold_malformed_size (u "style") = Some (u "font-size: 1.2.3px")
  /\ Re.FONT_RE_search (u "font-size: 1.2.3px") = Some (u "1.2.3", u "px")
  /\ spec_classifier 1 (PyFloat.of_N 1) (PyFloat.of_N 0) = (true, 3)
  /\ _max_font_px p_bold_malformed_size = Raise ValueError
  /\ _looks_like_heading p_bold_malformed_size = Raise ValueError
  /\ _to_md p_bold_malformed_size 0 = Raise ValueError
  /\ wechat_html_to_markdown None p_bold_malformed_size = Raise ValueError.
Proof.
  split.
  - intros p_tag max_px Hpx. unfold spec_classifier, spec_level_rules.
    destruct (Nat.ltb_spec 0 (length (heading_text p_tag))) as [H0|H0];
      [|apply looks_like_heading_rejects; left; lia].
    destruct (Nat.leb_spec (length (heading_text p_tag)) 60) as [H60|H60];
      [|apply looks_like_heading_rejects; right; exact H60].
    rewrite (looks_like_heading_decision _ Hpx (conj H0 H60)).
    unfold heading_decision. cbn [andb first_match].
    destruct (PyFloat.ge (bold_ratio p_tag) f0_85 || PyFloat.ge max_px (PyFloat.of_N 16))%bool;
      [|reflexivity].
    destruct (PyFloat.ge max_px (PyFloat.of_N 22)); [reflexivity|].
    destruct (PyFloat.ge max_px (PyFloat.of_N 18)); [reflexivity|].
    destruct (PyFloat.ge (bold_ratio p_tag) f0_95 && Nat.leb (length (heading_text p_tag)) 30)%bool;
      [reflexivity|].
    destruct (PyFloat.ge (bold_ratio p_tag) f0_85 && Nat.leb (length (heading_text p_tag)) 20)%bool;
      reflexivity.
  - split.
    + intros p_tag e Hpx.
      destruct (Nat.ltb_spec 0 (length (heading_text p_tag))) as [H0|H0];
        [|apply looks_like_heading_rejects; left; lia].
      destruct (Nat.leb_spec (length (heading_text p_tag)) 60) as [H60|H60];
        [|apply looks_like_heading_rejects; right; exact H60].
      apply looks_like_heading_raises; [exact Hpx | split; assumption].
    + repeat split; vm_compute; reflexivity.
Qed.

(** C4: both lists render their direct [li] children in order, the
    ordered one numbering them from 1.  The unordered list appends its blank
    line when some item produced output; the ordered list appends it when it
    has any direct item at all: an ordered list whose only item renders
    empty contributes a newline, where the unordered list contributes the
    empty string. *)
Theorem ordered_list_blank_line_without_output :
  (forall attrs cs list_level,
      _to_md (Element (u "ul") attrs cs) list_level
      = (items <- mapM (fun li => _li_to_md li list_level false 1)
                    (find_all_direct [u "li"] (Element (u "ul") attrs cs)) ;;
         Ok (Py.concat items ++ (if existsb Py.truthy items then [Py.LF] else []))))
  /\ (forall attrs cs list_level,
        _to_md (Element (u "ol") attrs cs) list_level
        = (items <- mapM (fun ix => _li_to_md (snd ix) list_level true (fst ix))
                      (enumerate 1 (find_all_direct [u "li"] (Element (u "ol") attrs cs))) ;;
           Ok (Py.concat items ++ (match items with [] => [] | _ => [Py.LF] end))))
  /\ (forall list_level index,
        _li_to_md (Element (u "li") [] []) list_level true index = Ok [])
  /\ _to_md ol_empty_item 0 = Ok [Py.LF]
  /\ _to_md ul_empty_item 0 = Ok [].
Proof.
  split; [intros; apply to_md_ul; reflexivity|].
  split; [intros; apply to_md_ol; reflexivity|].
  split; [intros; rewrite li_to_md_element; reflexivity|].
  split; vm_compute; reflexivity.
Qed.

(** C5, as amended: the heading ["# " + title] and a blank line are
    prepended exactly when the title is non-empty and the first line of the
    rendered body, trimmed, is not ["# "] followed by a text that trims to
    the title; so a body that opens with the line ["# " + title], for a
    trimmed title (as the title tag gives it), is left as it is; and
    converting the tree that a conversion has sanitized gives the same
    output again. *)
Theorem title_prepended_unless_present (title : str) (title_tag : option node)
    (content : node) (rendered : str) :
  _to_md (sanitize content) 0 = Ok rendered ->
  (title <> [] /\ ~ opens_with_title title (normalize_body rendered) ->
   convert title content
   = Ok (u "# " ++ title ++ [Py.LF; Py.LF] ++ normalize_body rendered))
  /\ (title = [] \/ opens_with_title title (normalize_body rendered) ->
      convert title content = Ok (normalize_body rendered))
  /\ (forall rest,
        title <> [] -> Py.strip title = title ->
        forallb (fun c => negb (Py.is_linebreak c)) title = true ->
        normalize_body rendered = u "# " ++ title ++ Py.LF :: rest ->
        convert title content = Ok (normalize_body rendered))
  /\ Py.strip (title_of title_tag) = title_of title_tag
  /\ convert title (sanitize content) = convert title content.
Proof.
  intros Hr. unfold convert. rewrite sanitize_idempotent, Hr. cbn [bind].
  destruct (prepend_title_spec title (normalize_body rendered)) as [Hadd Hkeep].
  split; [intros H; rewrite (Hadd H); reflexivity|].
  split; [intros H; rewrite (Hkeep H); reflexivity|].
  split; [|split; [|reflexivity]].
  - intros rest Hne Hstrip Hline Hbody. rewrite Hkeep; [reflexivity|].
    right. rewrite Hbody. apply opens_with_exact_title; assumption.
  - destruct title_tag; [apply get_text_strip_stripped | reflexivity].
Qed.

Lemma title_prepended_unless_present_witness :
  convert (u "My Post") div_with_h1
  = Ok (u "# My Post" ++ [Py.LF; Py.LF] ++ u "Some text." ++ [Py.LF]).
Proof.
  pose proof (@title_prepended_unless_present (u "My Post") None div_with_h1
                (u "# My Post" ++ [Py.LF; Py.LF] ++ u "Some text." ++ [Py.LF; Py.LF])) as H.
  destruct H as (_ & _ & H & _); [vm_compute; reflexivity|].
  rewrite (H ([Py.LF] ++ u "Some text." ++ [Py.LF]));
    [| discriminate | | | ]; vm_compute; reflexivity.
Defined.

(** C5 as stated fails: the title is non-empty and the first line of the
    body is not ["# T"], yet nothing is prepended. *)
Lemma title_not_prepended_counterexample :
  _to_md (sanitize div_wide_space) 0
  = Ok (u "# " ++ [12288%N] ++ u "T" ++ [Py.LF; Py.LF])
  /\ Py.splitlines (normalize_body (u "# " ++ [12288%N] ++ u "T" ++ [Py.LF; Py.LF]))
     = [u "# " ++ [12288%N] ++ u "T"]
  /\ u "# " ++ [12288%N] ++ u "T" <> u "# " ++ u "T"
  /\ convert (u "T") div_wide_space = Ok (u "# " ++ [12288%N] ++ u "T" ++ [Py.LF]).
Proof.
  split; [vm_compute; reflexivity|]. split; [vm_compute; reflexivity|].
  split; [vm_compute; discriminate | vm_compute; reflexivity].
Qed.

(** C6: the normalizer turns or drops the two special spaces, leaves no
    space or tab next to a newline and no two in a row, and keeps every
    newline; the body handed to the title step has no run of three newlines
    and ends with exactly one.  But a title over an empty body gives an
    output that ends with three newlines. *)
Theorem title_over_empty_body_three_newlines :
  (forall s,
      Forall (fun c => c <> Py.NBSP /\ c <> Py.ZWSP) (_clean_text s)
      /\ no_adjacent hws_before_LF (_clean_text s) = true
      /\ no_adjacent hws_after_LF (_clean_text s) = true
      /\ no_adjacent hws_pair (_clean_text s) = true
      /\ newlines (_clean_text s) = newlines s)
  /\ (forall rendered,
        no_LF3 (normalize_body rendered) = true
        /\ exists r, normalize_body rendered = r ++ [Py.LF]
                     /\ (r = [] \/ exists r' c, r = r' ++ [c] /\ Py.isspace c = false))
  /\ wechat_html_to_markdown None empty_body = Ok [Py.LF]
  /\ wechat_html_to_markdown (Some title_T) empty_body
     = Ok (u "# T" ++ [Py.LF; Py.LF; Py.LF])
  /\ no_LF3 (u "# T" ++ [Py.LF; Py.LF; Py.LF]) = false.
Proof.
  split.
  - intros s. split; [apply clean_text_special_spaces|].
    destruct (clean_text_no_adjacent s) as (H1 & H2 & H3).
    repeat split; try assumption. apply clean_text_newlines.
  - split; [intros rendered; split;
             [apply normalize_body_no_LF3 | apply normalize_body_end]|].
    repeat split; vm_compute; reflexivity.
Qed.




(** C8: a hyperlink renders as the concatenation of the inline renderings
    of its children, whatever its attributes are: two links with the same
    children and different [href] render identically; and the output of the
    pipeline does not depend on any attribute below the content root. *)
Theorem inline_link_ignores_href (parent : option str) (nm : str)
    (attrs attrs' : list (str * str)) (cs : list node) (title : str) (content : node) :
  Py.lower nm = u "a" ->
  _inline_md parent (Element nm attrs cs) = Py.concat (map (_inline_md (Some nm)) cs)
  /\ _inline_md parent (Element nm attrs cs) = _inline_md parent (Element nm attrs' cs)
  /\ convert title (strip_attrs content) = convert title content.
Proof.
  intros Ha. rewrite !inline_md_element, Ha. split; [reflexivity|].
  split; [reflexivity|].
  unfold convert. rewrite sanitize_strip_attrs. reflexivity.
Qed.

Lemma inline_link_ignores_href_witness :
  _inline_md None link_click_here = u "click here"
  /\ _inline_md None link_click_here
     = _inline_md None (Element (u "a") [] [Text (u "click here")])
  /\ convert [] (strip_attrs (Element (u "div") [] [link_click_here]))
     = convert [] (Element (u "div") [] [link_click_here]).
Proof.
  destruct (@inline_link_ignores_href None (u "a")
              [(u "href", u "https://mp.weixin.qq.com/s?__biz=abc&scene=21")] []
              [Text (u "click here")] [] (Element (u "div") [] [link_click_here])
              eq_refl) as (H1 & H2 & H3).
  split; [unfold link_click_here; rewrite H1; reflexivity|].
  split; [exact H2 | exact H3].
Defined.

(** C9, as amended: an item rendered at list level [L] gives a line of
    exactly [2 * L] spaces, the marker ("- " or "<index>. ") and the text,
    the marker losing its trailing space when the item has no text of its
    own; each nested list among its direct children follows, block-rendered
    at level [L + 1]; an ordered list numbers its direct [li] children from 1
    in their order, nested lists being children of items. *)
Theorem list_item_indentation (nm : str) (attrs : list (str * str)) (cs : list node)
    (L : nat) (ordered : bool) (index : nat) :
  let nested_lists := filter is_nested_list cs in
  let content_parts := filter (fun c => negb (is_nested_list c)) cs in
  let text :=
    Py.strip (_clean_text (Py.concat (map (_inline_md (Some nm)) content_parts))) in
  _li_to_md (Element nm attrs cs) L ordered index
  = (if (negb (Py.truthy text) && match nested_lists with [] => true | _ => false end)%bool
     then Ok []
     else
       nested_md <- mapM (fun nl => _to_md nl (S L)) nested_lists ;;
       Ok (repeat Py.SP (2 * L)
           ++ (if Py.truthy text then marker ordered index ++ text
               else bare_marker ordered index)
           ++ [Py.LF] ++ Py.concat nested_md))
  /\ (exists c r, bare_marker ordered index = c :: r /\ c <> Py.SP)
  /\ (forall nm' attrs' cs',
        Py.lower nm' = u "ol" ->
        _to_md (Element nm' attrs' cs') L
        = (items <- mapM (fun ix => _li_to_md (snd ix) L true (fst ix))
                      (enumerate 1 (find_all_direct [u "li"] (Element nm' attrs' cs'))) ;;
           Ok (Py.concat items ++ (match items with [] => [] | _ => [Py.LF] end)))).
Proof.
  intros nested_lists content_parts text.
  split; [|split; [apply bare_marker_head | intros; apply to_md_ol; assumption]].
  rewrite li_to_md_element. cbv zeta.
  fold nested_lists content_parts text.
  destruct (negb (Py.truthy text) && match nested_lists with [] => true | _ => false end)%bool;
    [reflexivity|].
  fold (marker ordered index).
  rewrite (@li_line _ text ordered index _ eq_refl), repeat_str_indent.
  destruct (mapM (fun nl => _to_md nl (S L)) nested_lists); [|reflexivity].
  cbn [bind]. rewrite <- !app_assoc. reflexivity.
Qed.


Lemma list_item_indentation_witness :
  _to_md ol_nested 0
  = Ok (u "1. a" ++ [Py.LF] ++ u "  - b" ++ [Py.LF; Py.LF] ++ u "2. c" ++ [Py.LF; Py.LF]).
Proof.
  unfold ol_nested.
  rewrite (proj2 (proj2 (list_item_indentation (u "li") [] [] 0 false 1))
             (u "ol") [] _ eq_refl).
  vm_compute. reflexivity.
Defined.


(** C9 as stated fails: an item without text of its own has the line "-",
    which does not begin with the marker "- ". *)
Lemma list_item_marker_counterexample :
  _li_to_md li_only_nested 0 false 1
  = Ok (u "-" ++ [Py.LF] ++ u "  - x" ++ [Py.LF; Py.LF])
  /\ Py.startswith (repeat Py.SP (2 * 0) ++ u "- ")
       (u "-" ++ [Py.LF] ++ u "  - x" ++ [Py.LF; Py.LF]) = false.
Proof. split; vm_compute; reflexivity. Qed.

(** The text of a paragraph that holds one string under [k] bold tags. *)
Lemma read_string_nest_bold (name : str) (k : nat) (s : str) :
  Py.mem name string_container_tags = false ->
  flat_map (read_string name) (nest_bold k s :: descendants (nest_bold k s)) = [s].
Proof.
  intros Hn. induction k as [|k IH].
  - cbn [nest_bold descendants flat_map read_string]. rewrite Hn. reflexivity.
  - change (nest_bold (S k) s) with (Element (u "b") [] [nest_bold k s]).
    cbn [descendants flat_map read_string app]. rewrite app_nil_r. exact IH.
Qed.

Lemma heading_text_nest_bold (k : nat) (s : str) :
  heading_text (Element (u "p") [] [nest_bold k s])
  = Py.join (u " ") (filter Py.truthy [Py.strip s]).
Proof.
  unfold heading_text, get_text_strip, all_strings.
  cbn [descendants flat_map name_of]. rewrite app_nil_r.
  rewrite read_string_nest_bold by reflexivity. reflexivity.
Qed.

Lemma length_heading_text_nest_bold (k : nat) (s : str) :
  length (heading_text (Element (u "p") [] [nest_bold k s])) = length (Py.strip s).
Proof.
  rewrite heading_text_nest_bold.
  destruct (Py.strip s) as [|c r]; [reflexivity|].
  cbn [filter Py.truthy]. cbn. rewrite ?app_nil_r. reflexivity.
Qed.

Lemma length_bold_text_nest_bold (k : nat) (s : str) :
  length (bold_text (Element (u "p") [] [nest_bold k s]))
  = k * length (heading_text (Element (u "p") [] [nest_bold k s])).
Proof.
  destruct k as [|k]; [reflexivity|].
  rewrite heading_text_nest_bold.
  unfold bold_text, find_all.
  cbn [descendants flat_map]. rewrite app_nil_r.
  change (nest_bold (S k) s) with (Element (u "b") [] [nest_bold k s]) at 1.
  cbn [filter is_tag_in].
  change (Py.mem (u "b") bold_tags) with true. cbv iota.
  cbn [map Py.concat List.concat]. rewrite length_app.
  change (Element (u "b") [] [nest_bold k s]) with (nest_bold (S k) s).
  pose proof (bold_below_nest_bold k s) as Hb.
  unfold find_all, Py.concat in Hb. rewrite Hb.
  rewrite get_text_strip_nest_bold. reflexivity.
Qed.

(** C10: the bold text is the concatenation over every bold or strong
    descendant and the ratio is the quotient of its length by the length of
    the text (by 1 for an empty text), so a text under [k] nested bold tags
    is counted [k] times and the ratio of such a paragraph is the quotient
    of [k] times the length of the text by that length; with two bold tags
    the ratio is 2, above 1, and the classifier uses it as it is. *)
Theorem bold_ratio_counts_nested_bold :
  (forall p_tag, bold_text p_tag
      = Py.concat (map (get_text_strip (u " ")) (find_all bold_tags p_tag)))
  /\ (forall p_tag, bold_ratio p_tag
        = PyFloat.of_ratio (N.of_nat (length (bold_text p_tag)))
            (Pos.of_nat (Nat.max 1 (length (heading_text p_tag)))))
  /\ (forall k s,
        length (bold_text (Element (u "p") [] [nest_bold k s]))
        = k * length (heading_text (Element (u "p") [] [nest_bold k s])))
  /\ (forall k s,
        bold_ratio (Element (u "p") [] [nest_bold k s])
        = PyFloat.of_ratio (N.of_nat (k * length (Py.strip s)))
            (Pos.of_nat (Nat.max 1 (length (Py.strip s)))))
  /\ (forall k, k < 6 ->
        bold_ratio (Element (u "p") [] [nest_bold k (u "abc")])
        = PyFloat.of_N (N.of_nat k))
  /\ (exists p_tag,
        PyFloat.gt (bold_ratio p_tag) (PyFloat.of_N 1) = true
        /\ bold_ratio p_tag = PyFloat.of_N 2
        /\ _looks_like_heading p_tag = Ok (true, 3)).
Proof.
  split; [reflexivity|]. split; [reflexivity|].
  split; [exact length_bold_text_nest_bold|]. split.
  - intros k s. unfold bold_ratio.
    rewrite length_bold_text_nest_bold, length_heading_text_nest_bold.
    reflexivity.
  - split.
    + intros k Hk.
      do 6 (destruct k as [|k]; [vm_compute; reflexivity|]). lia.
    + exists (Element (u "p") [] [nest_bold 2 (u "abc")]).
      repeat split; vm_compute; reflexivity.
Qed.

(** * Further properties of the program *)

(** ** The font-size pattern *)

Lemma FONT_RE_search_match (s : str) (m : str * str) :
  Re.FONT_RE_match s = Some m -> Re.FONT_RE_search s = Some m.
Proof. intros H. destruct s; cbn [Re.FONT_RE_search]; rewrite H; reflexivity. Qed.

Lemma ci_literal_app (pat t : str) :
  forallb (fun p => Re.ci_char p p) pat = true -> Re.ci_literal pat (pat ++ t) = Some t.
Proof.
  induction pat as [|p pat IH]; intros H; [destruct t; reflexivity|].
  cbn [forallb] in H. apply andb_true_iff in H as [Hp H].
  cbn [app Re.ci_literal]. rewrite Hp. apply IH. exact H.
Qed.

Lemma lstrip_by_app_all (p : Py.char -> bool) (w s : str) :
  forallb p w = true -> Py.lstrip_by p (w ++ s) = Py.lstrip_by p s.
Proof.
  induction w as [|c w IH]; intros H; [reflexivity|].
  cbn [forallb] in H. apply andb_true_iff in H as [Hc H].
  cbn [app Py.lstrip_by]. rewrite Hc. apply IH. exact H.
Qed.

Lemma take_while_app_all (p : Py.char -> bool) (w s : str) :
  forallb p w = true -> Re.take_while p (w ++ s) = w ++ Re.take_while p s.
Proof.
  induction w as [|c w IH]; intros H; [reflexivity|].
  cbn [forallb] in H. apply andb_true_iff in H as [Hc H].
  cbn [app Re.take_while]. rewrite Hc, IH by exact H. reflexivity.
Qed.

Lemma isspace_not_digit_or_dot (c : Py.char) :
  Py.isspace c = true -> Re.is_digit_or_dot c = false.
Proof.
  intros H. apply not_true_is_false. revert H.
  unfold Py.isspace, Re.is_digit_or_dot, Re.is_digit, Py.between.
  rewrite !orb_true_iff, !andb_true_iff, !N.leb_le, !N.eqb_eq. lia.
Qed.

Lemma ci_char_p (c : Py.char) : Re.ci_char 112%N c = true -> c = 112%N \/ c = 80%N.
Proof.
  unfold Re.ci_char, Re.sre_lower, Py.between.
  change (N.eqb 112%N 105%N) with false. change (N.eqb 112%N 115%N) with false.
  cbn [andb orb]. rewrite !orb_false_r.
  destruct (N.leb_spec 65 c), (N.leb_spec c 90); cbn [andb];
    destruct (N.eqb_spec c 304); destruct (N.eqb_spec c 8490);
    rewrite ?N.eqb_eq; try discriminate; lia.
Qed.

Lemma digit_or_dot_not_space (c : Py.char) :
  Re.is_digit_or_dot c = true -> Py.isspace c = false.
Proof.
  intros H. destruct (Py.isspace c) eqn:E; [|reflexivity].
  apply isspace_not_digit_or_dot in E. congruence.
Qed.

(** The pattern at the start of a declaration. *)
Lemma FONT_RE_match_declaration (ws1 ws2 num ws3 rest : str) (p x : Py.char) :
  forallb Py.isspace ws1 = true -> forallb Py.isspace ws2 = true ->
  forallb Py.isspace ws3 = true ->
  num <> [] -> forallb Re.is_digit_or_dot num = true ->
  Re.ci_char 112%N p = true -> (Re.ci_char 120%N x || Re.ci_char 116%N x)%bool = true ->
  Re.FONT_RE_match (font_size_declaration [] ws1 ws2 num ws3 [p; x] rest)
  = Some (num, [p; x]).
Proof.
  intros H1 H2 H3 Hne Hnum Hp Hx.
  assert (Hpx : Py.isspace p = false)
    by (destruct (ci_char_p _ Hp) as [-> | ->]; reflexivity).
  assert (Hpd : Re.is_digit_or_dot p = false)
    by (destruct (ci_char_p _ Hp) as [-> | ->]; reflexivity).
  unfold Re.FONT_RE_match, font_size_declaration. cbn [app].
  rewrite ci_literal_app by reflexivity.
  rewrite lstrip_by_app_all by exact H1.
  change (u ":") with [58%N]. cbn [app Py.lstrip_by].
  change (Py.isspace 58%N) with false. cbv iota.
  rewrite lstrip_by_app_all by exact H2.
  set (T := ws3 ++ p :: x :: rest).
  assert (Ht : Re.take_while Re.is_digit_or_dot T = []
               /\ Py.lstrip_by Re.is_digit_or_dot T = T).
  { subst T. destruct ws3 as [|c ws3]; cbn [app Re.take_while].
    - rewrite Hpd. split; [reflexivity | apply lstrip_by_fixed; exact Hpd].
    - cbn [forallb] in H3. apply andb_true_iff in H3 as [Hc _].
      rewrite (isspace_not_digit_or_dot _ Hc).
      split; [reflexivity | apply lstrip_by_fixed, isspace_not_digit_or_dot; exact Hc]. }
  destruct Ht as [Ht Hl].
  assert (A1 : Py.lstrip_by Py.isspace (num ++ T) = num ++ T).
  { destruct num as [|d num]; [contradiction|].
    cbn [forallb] in Hnum. apply andb_true_iff in Hnum as [Hd _].
    cbn [app]. apply lstrip_by_fixed, digit_or_dot_not_space. exact Hd. }
  assert (A4 : Py.lstrip_by Py.isspace T = p :: x :: rest).
  { subst T. rewrite lstrip_by_app_all by exact H3. apply lstrip_by_fixed. exact Hpx. }
  rewrite A1, take_while_app_all, (lstrip_by_app_all Re.is_digit_or_dot) by exact Hnum.
  rewrite Ht, Hl, app_nil_r, A4, Hp, Hx.
  destruct num; [contradiction | reflexivity].
Qed.

Lemma FONT_RE_search_skip (before s : str) :
  forallb (fun c => negb (Re.ci_char 102%N c)) before = true ->
  Re.FONT_RE_search (before ++ s) = Re.FONT_RE_search s.
Proof.
  induction before as [|c before IH]; intros H; [reflexivity|].
  cbn [forallb] in H. apply andb_true_iff in H as [Hc H]. apply negb_true_iff in Hc.
  cbn [app Re.FONT_RE_search].
  assert (E : Re.FONT_RE_match (c :: before ++ s) = None).
  { unfold Re.FONT_RE_match.
    change (u "font-size") with (102%N :: u "ont-size"). cbn [Re.ci_literal].
    rewrite Hc. reflexivity. }
  rewrite E. apply IH. exact H.
Qed.

(** X1: a style that holds no letter f before its first declaration
    [font-size<ws1>:<ws2><num><ws3><unit>], where the three gaps are
    whitespace only (possibly empty) and [<num>] is a non-empty run of digits
    and points, parses to [float(<num>)] for the unit [px] and to
    [float(<num>) * 4.0 / 3.0] for the unit [pt]; it raises exactly when
    [float] does. *)
Theorem parse_font_px_declaration (before ws1 ws2 num ws3 rest : str) :
  forallb (fun c => negb (Re.ci_char 102%N c)) before = true ->
  forallb Py.isspace ws1 = true -> forallb Py.isspace ws2 = true ->
  forallb Py.isspace ws3 = true ->
  num <> [] -> forallb Re.is_digit_or_dot num = true ->
  _parse_font_px (font_size_declaration before ws1 ws2 num ws3 (u "px") rest)
  = (val <- float_of_digits num ;; Ok (Some val))
  /\ _parse_font_px (font_size_declaration before ws1 ws2 num ws3 (u "pt") rest)
     = (val <- float_of_digits num ;;
        Ok (Some (PyFloat.div (PyFloat.mul val (PyFloat.of_N 4)) (PyFloat.of_N 3)))).
Proof.
  intros Hb H1 H2 H3 Hne Hnum.
  assert (Hs : forall p x, Re.ci_char 112%N p = true ->
                 (Re.ci_char 120%N x || Re.ci_char 116%N x)%bool = true ->
                 Re.FONT_RE_search (font_size_declaration before ws1 ws2 num ws3 [p; x] rest)
                 = Some (num, [p; x])).
  { intros p x Hp Hx.
    change (font_size_declaration before ws1 ws2 num ws3 [p; x] rest)
      with (before ++ font_size_declaration [] ws1 ws2 num ws3 [p; x] rest).
    rewrite FONT_RE_search_skip by exact Hb.
    apply FONT_RE_search_match, FONT_RE_match_declaration; assumption. }
  unfold _parse_font_px. split.
  - change (u "px") with [112%N; 120%N]. rewrite Hs by reflexivity. reflexivity.
  - change (u "pt") with [112%N; 116%N]. rewrite Hs by reflexivity. reflexivity.
Qed.

Lemma parse_font_px_declaration_witness :
  _parse_font_px (u "color: red; font-size : 12.5 pt;") = Ok (Some (PyFloat.of_ratio 50 3)).
Proof.
  pose proof (@parse_font_px_declaration (u "color: red; ") (u " ") (u " ") (u "12.5")
                (u " ") (u ";") eq_refl eq_refl eq_refl eq_refl) as H.
  destruct H as [_ H]; [discriminate | reflexivity|].
  etransitivity; [exact H|]. vm_compute. reflexivity.
Defined.

(** ** The font probe *)

(** X2: the font probe reads nothing but the [style] attributes of the
    tag itself and of its [span], [strong], [b], [em], [i] and [font]
    descendants, in document order: two tags with the same sequence of these
    attributes get the same answer (or the same exception), so a size
    declared on any other descendant is not seen. *)
Theorem max_font_px_reads_probed_styles (tag tag' : node) :
  probed_styles tag = probed_styles tag' -> _max_font_px tag = _max_font_px tag'.
Proof.
  unfold probed_styles, _max_font_px.
  generalize (PyFloat.of_N 0), (tag :: find_all font_tags tag),
    (tag' :: find_all font_tags tag').
  intros mx ts. revert mx. induction ts as [|t ts IH]; intros mx [|t' ts'] H;
    try discriminate H; [reflexivity|].
  cbn [map] in H. injection H as Ht H. cbn [max_font_loop]. rewrite Ht.
  destruct (Soup.get t' (u "style")) as [style|]; [|apply IH; exact H].
  destruct (Py.truthy style); [|apply IH; exact H].
  destruct (_parse_font_px style) as [[px|]|e]; cbn [bind];
    [|apply IH; exact H|reflexivity].
  destruct (PyFloat.truthy px); [|apply IH; exact H].
  destruct (PyFloat.ge _ _); [reflexivity | apply IH; exact H].
Qed.

Lemma max_font_px_reads_probed_styles_witness :
  _max_font_px p_underlined_30px = _max_font_px p_underlined.
Proof.
  apply (@max_font_px_reads_probed_styles p_underlined_30px p_underlined). reflexivity.
Defined.

Lemma ge_24_positive (px : float) :
  PyFloat.ge px (PyFloat.of_N 24) = true ->
  PyFloat.truthy px = true /\ PyFloat.max (PyFloat.of_N 0) px = px.
Proof.
  unfold PyFloat.ge, PyFloat.max, PyFloat.gt. intros H.
  destruct px as [s|s| |s m e]; try discriminate H.
  - destruct s; [discriminate H|]. split; reflexivity.
  - destruct s; [discriminate H|]. split; reflexivity.
Qed.

(** X3: when the tag's own [style] declares a size of at least 24px, the
    probe answers that size at once, whatever the tag holds below it (a
    larger size or a malformed one included). *)
Theorem max_font_px_stops_at_24 (nm : str) (attrs : list (str * str)) (cs : list node)
    (style : str) (px : float) :
  Soup.lookup (u "style") attrs = Some style ->
  _parse_font_px style = Ok (Some px) ->
  PyFloat.ge px (PyFloat.of_N 24) = true ->
  _max_font_px (Element nm attrs cs) = Ok px.
Proof.
  intros Hs Hp Hge. destruct (ge_24_positive _ Hge) as [Ht Hmax].
  unfold _max_font_px. cbn [max_font_loop Soup.get]. rewrite Hs.
  destruct style as [|c style]; [discriminate Hp|].
  cbn [Py.truthy]. rewrite Hp. cbn [bind]. rewrite Ht, Hmax, Hge. reflexivity.
Qed.

Lemma max_font_px_stops_at_24_witness :
  _max_font_px p_24px_over_malformed = Ok (PyFloat.of_N 24).
Proof.
  apply (@max_font_px_stops_at_24 (u "p") [(u "style", u "font-size: 24px")]
           [Element (u "span") [(u "style", u "font-size: 1.2.3px")] [Text (u "x")]]
           (u "font-size: 24px") (PyFloat.of_N 24)); reflexivity.
Defined.

(** *** The probe never answers a negative number or NaN *)

Lemma shr_1_nonneg (mrs : shr_record) : (0 <= shr_m mrs -> 0 <= shr_m (shr_1 mrs))%Z.
Proof.
  destruct mrs as [m r s]. cbn [shr_m]. intros H. unfold shr_1.
  destruct m as [|[p|p|]|p]; cbn [shr_m]; lia.
Qed.

Lemma iter_pos_shr_1_nonneg (p : positive) (mrs : shr_record) :
  (0 <= shr_m mrs -> 0 <= shr_m (iter_pos shr_1 p mrs))%Z.
Proof.
  revert mrs. induction p as [p IH|p IH|]; intros mrs H; cbn [iter_pos].
  - apply IH, IH, shr_1_nonneg, H.
  - apply IH, IH, H.
  - apply shr_1_nonneg, H.
Qed.

Lemma shr_fexp_nonneg (m e : Z) (l : location) :
  (0 <= m -> 0 <= shr_m (fst (shr_fexp PyFloat.prec PyFloat.emax m e l)))%Z.
Proof.
  intros H. unfold shr_fexp, shr.
  assert (H0 : (0 <= shr_m (shr_record_of_loc m l))%Z)
    by (destruct l as [|[| |]]; exact H).
  destruct (_ - e)%Z; cbn [fst]; try exact H0. apply iter_pos_shr_1_nonneg, H0.
Qed.

Lemma round_nearest_even_nonneg (m : Z) (l : location) :
  (0 <= m -> 0 <= round_nearest_even m l)%Z.
Proof.
  intros H. destruct l as [|[| |]]; cbn [round_nearest_even]; try lia.
  destruct (Z.even m); lia.
Qed.

Lemma binary_round_aux_not_negative (m e : Z) (l : location) :
  (0 <= m)%Z ->
  not_negative (binary_round_aux PyFloat.prec PyFloat.emax false m e l) = true.
Proof.
  intros H. unfold binary_round_aux.
  pose proof (shr_fexp_nonneg e l H) as H1.
  destruct (shr_fexp PyFloat.prec PyFloat.emax m e l) as [mrs' e'].
  cbn [fst] in H1.
  pose proof (shr_fexp_nonneg e' loc_Exact
                (round_nearest_even_nonneg (loc_of_shr_record mrs') H1)) as H2.
  destruct (shr_fexp PyFloat.prec PyFloat.emax
              (round_nearest_even (shr_m mrs') (loc_of_shr_record mrs')) e' loc_Exact)
    as [mrs'' e''].
  cbn [fst] in H2. destruct (shr_m mrs'') as [|p|p]; [reflexivity| |lia].
  destruct (Z.leb e'' _); reflexivity.
Qed.

Lemma div_core_nonneg (m1 m2 : positive) (e1 e2 : Z) :
  (0 <= fst (fst (SFdiv_core_binary PyFloat.prec PyFloat.emax (Zpos m1) e1 (Zpos m2) e2)))%Z.
Proof.
  unfold SFdiv_core_binary. cbv zeta.
  set (m' := match (_ - _ - _)%Z with Z0 => _ | Zpos _ => _ | Zneg _ => _ end).
  assert (Hm : (0 <= m')%Z).
  { subst m'. destruct (_ - _ - _)%Z; try lia. apply Z.shiftl_nonneg. lia. }
  pose proof (Z_div_mod m' (Zpos m2) eq_refl) as Hd.
  pose proof (Z.div_pos m' (Zpos m2) Hm eq_refl) as Hq.
  unfold Z.div in Hq. destruct (Z.div_eucl m' (Zpos m2)) as [q r]. cbn [fst] in *.
  exact Hq.
Qed.

Lemma of_ratio_not_negative (n : N) (d : positive) :
  not_negative (PyFloat.of_ratio n d) = true.
Proof.
  unfold PyFloat.of_ratio. destruct n as [|p]; [reflexivity|].
  pose proof (div_core_nonneg p d 0 0) as H.
  destruct (SFdiv_core_binary PyFloat.prec PyFloat.emax (Zpos p) 0 (Zpos d) 0) as [[q e] l].
  cbn [fst] in H. apply binary_round_aux_not_negative. exact H.
Qed.

Lemma float_of_digits_not_negative (s : str) (v : float) :
  float_of_digits s = Ok v -> not_negative v = true.
Proof.
  unfold float_of_digits.
  destruct (Py.lstrip_by Re.is_digit s) as [|c fp].
  - destruct (Py.truthy _); [|discriminate]. intros [= <-]. apply of_ratio_not_negative.
  - destruct (_ && _ && _)%bool; [|discriminate]. intros [= <-].
    apply of_ratio_not_negative.
Qed.

Lemma points_to_px_not_negative (v : float) :
  not_negative v = true ->
  not_negative (PyFloat.div (PyFloat.mul v (PyFloat.of_N 4)) (PyFloat.of_N 3)) = true.
Proof.
  intros H. destruct v as [[|]|[|]| |[|] m e]; try discriminate H; try reflexivity.
  unfold PyFloat.mul, PyFloat.div.
  change (PyFloat.of_N 4) with (S754_finite false 4503599627370496 (-50)).
  change (PyFloat.of_N 3) with (S754_finite false 6755399441055744 (-51)).
  cbn [SFmul xorb].
  pose proof (@binary_round_aux_not_negative (Zpos (m * 4503599627370496)) (e + -50)
                loc_Exact ltac:(lia)) as Hm.
  fold PyFloat.prec PyFloat.emax.
  destruct (binary_round_aux PyFloat.prec PyFloat.emax false
              (Zpos (m * 4503599627370496)) (e + -50) loc_Exact)
    as [[|]|[|]| |[|] m' e']; try discriminate Hm; try reflexivity.
  cbn [SFdiv xorb].
  pose proof (div_core_nonneg m' 6755399441055744 e' (-51)) as Hq.
  destruct (SFdiv_core_binary PyFloat.prec PyFloat.emax (Zpos m') e'
              (Zpos 6755399441055744) (-51)) as [[q e''] l].
  cbn [fst] in Hq. apply binary_round_aux_not_negative. exact Hq.
Qed.

Lemma parse_font_px_not_negative (style : str) (px : float) :
  _parse_font_px style = Ok (Some px) -> not_negative px = true.
Proof.
  unfold _parse_font_px. destruct (Re.FONT_RE_search style) as [[g1 g2]|]; [|discriminate].
  destruct (float_of_digits g1) as [v|e] eqn:Ev; cbn [bind]; [|discriminate].
  apply float_of_digits_not_negative in Ev.
  destruct (Py.eqb _ _); intros [= <-]; [exact Ev|].
  apply points_to_px_not_negative. exact Ev.
Qed.

Lemma max_not_negative (a b : float) :
  not_negative a = true -> not_negative b = true ->
  not_negative (PyFloat.max a b) = true.
Proof. intros Ha Hb. unfold PyFloat.max. destruct (PyFloat.gt b a); assumption. Qed.

Lemma max_font_loop_not_negative (ts : list node) (mx r : float) :
  not_negative mx = true -> max_font_loop mx ts = Ok r -> not_negative r = true.
Proof.
  revert mx. induction ts as [|t ts IH]; intros mx Hmx; cbn [max_font_loop].
  - intros [= <-]. exact Hmx.
  - destruct (Soup.get t (u "style")) as [style|]; [|apply IH; exact Hmx].
    destruct (Py.truthy style); [|apply IH; exact Hmx].
    destruct (_parse_font_px style) as [[px|]|e] eqn:Ep; cbn [bind];
      [|apply IH; exact Hmx|discriminate].
    apply parse_font_px_not_negative in Ep.
    destruct (PyFloat.truthy px); [|apply IH; exact Hmx].
    pose proof (@max_not_negative _ _ Hmx Ep) as Hm.
    destruct (PyFloat.ge _ _); [intros [= <-]; exact Hm | apply IH; exact Hm].
Qed.

(** X4: an answer of the font probe is never negative and never NaN: it
    is [+0.0], a positive finite number or [+inf], and it compares [>= 0]. *)
Theorem max_font_px_not_negative (tag : node) (r : float) :
  _max_font_px tag = Ok r ->
  not_negative r = true /\ PyFloat.ge r (PyFloat.of_N 0) = true.
Proof.
  intros H. apply max_font_loop_not_negative in H; [|reflexivity].
  split; [exact H|]. destruct r as [[|]|[|]| |[|] m e]; try discriminate H; reflexivity.
Qed.

Lemma max_font_px_not_negative_witness :
  not_negative (PyFloat.of_N 16) = true
  /\ PyFloat.ge (PyFloat.of_N 16) (PyFloat.of_N 0) = true.
Proof.
  apply (@max_font_px_not_negative p_span_12pt (PyFloat.of_N 16)). vm_compute. reflexivity.
Defined.

(** ** The normalizer on a text that is already normal *)

Lemma replace_char_fixed (a : Py.char) (b s : str) :
  Forall (fun c => c <> a) s -> Py.replace_char a b s = s.
Proof.
  induction 1 as [|c s Hc _ IH]; [reflexivity|].
  unfold Py.replace_char in *. cbn [flat_map].
  destruct (N.eqb_spec c a) as [E|_]; [contradiction|].
  cbn [app]. f_equal. exact IH.
Qed.

Lemma sub_hws_before_LF_fixed (s : str) (prev : Py.char) :
  no_adjacent_after hws_before_LF prev s = true ->
  no_adjacent_after hws_pair prev s = true ->
  Re.sub_hws_before_LF s = s.
Proof.
  revert prev. induction s as [|c s IH]; intros prev H1 H2; [reflexivity|].
  cbn [no_adjacent_after] in H1, H2.
  apply andb_true_iff in H1 as [_ H1]. apply andb_true_iff in H2 as [_ H2].
  cbn [Re.sub_hws_before_LF].
  assert (E : (Re.is_hws c && Re.hws_then_LF s)%bool = false).
  { destruct (Re.is_hws c) eqn:Ec; [|reflexivity]. cbn [andb].
    destruct s as [|d s']; [reflexivity|].
    cbn [no_adjacent_after] in H1, H2.
    apply andb_true_iff in H1 as [H1 _]. apply andb_true_iff in H2 as [H2 _].
    unfold hws_before_LF in H1. unfold hws_pair in H2. rewrite Ec in H1, H2.
    cbn [andb] in H1, H2. apply negb_true_iff in H1, H2.
    rewrite hws_then_LF_stop by exact H2. exact H1. }
  rewrite E. f_equal. eapply IH; eassumption.
Qed.

Lemma sub_hws_after_LF_fixed (s : str) (b : bool) (prev : Py.char) :
  (b = true -> prev = Py.LF) ->
  no_adjacent_after hws_after_LF prev s = true ->
  Re.sub_hws_after_LF_from b s = s.
Proof.
  revert b prev. induction s as [|c s IH]; intros b prev Hb H; [reflexivity|].
  cbn [no_adjacent_after] in H. apply andb_true_iff in H as [Hc H].
  cbn [Re.sub_hws_after_LF_from].
  assert (E : (Re.is_hws c && b)%bool = false).
  { destruct b; [|apply andb_false_r]. rewrite (Hb eq_refl) in Hc.
    unfold hws_after_LF in Hc. rewrite N.eqb_refl in Hc. cbn [andb] in Hc.
    apply negb_true_iff in Hc. rewrite Hc. reflexivity. }
  rewrite E. f_equal. apply (IH _ c); [|exact H].
  intros E'. apply N.eqb_eq. exact E'.
Qed.

Lemma sub_hws_runs_fixed (s : str) (b : bool) (prev : Py.char) :
  (b = true -> Re.is_hws prev = true) ->
  no_adjacent_after hws_pair prev s = true ->
  Re.sub_hws_runs_from b s = s.
Proof.
  revert b prev. induction s as [|c s IH]; intros b prev Hb H; [reflexivity|].
  cbn [no_adjacent_after] in H. apply andb_true_iff in H as [Hc H].
  cbn [Re.sub_hws_runs_from].
  destruct (Re.is_hws c) eqn:Ec.
  - destruct b.
    + unfold hws_pair in Hc. rewrite (Hb eq_refl), Ec in Hc. discriminate.
    + destruct s as [|d s']; [reflexivity|].
      pose proof H as H'. cbn [no_adjacent_after] in H'.
      apply andb_true_iff in H' as [Hd _].
      unfold hws_pair in Hd. rewrite Ec in Hd. cbn [andb] in Hd.
      apply negb_true_iff in Hd. rewrite Hd. f_equal.
      apply (IH false c); [discriminate | exact H].
  - f_equal. apply (IH false c); [discriminate | exact H].
Qed.

Lemma clean_text_fixed (s : str) :
  Forall (fun c => c <> Py.NBSP /\ c <> Py.ZWSP) s ->
  no_adjacent hws_before_LF s = true ->
  no_adjacent hws_after_LF s = true ->
  no_adjacent hws_pair s = true ->
  _clean_text s = s.
Proof.
  intros Hsp H1 H2 H3. unfold _clean_text.
  rewrite (@replace_char_fixed Py.NBSP)
    by (eapply Forall_impl; [|exact Hsp]; intros c [Hc _]; exact Hc).
  rewrite (@replace_char_fixed Py.ZWSP)
    by (eapply Forall_impl; [|exact Hsp]; intros c [_ Hc]; exact Hc).
  destruct s as [|c s]; [reflexivity|].
  cbn [no_adjacent] in H1, H2, H3.
  rewrite (@sub_hws_before_LF_fixed (c :: s) 0%N).
  - unfold Re.sub_hws_after_LF.
    rewrite (@sub_hws_after_LF_fixed (c :: s) false 0%N).
    + unfold Re.sub_hws_runs.
      apply (@sub_hws_runs_fixed (c :: s) false 0%N); [discriminate|].
      cbn [no_adjacent_after]. rewrite H3. reflexivity.
    + discriminate.
    + cbn [no_adjacent_after]. rewrite H2. reflexivity.
  - cbn [no_adjacent_after]. rewrite H1. reflexivity.
  - cbn [no_adjacent_after]. rewrite H3. reflexivity.
Qed.

(** X5: the whitespace normalizer is idempotent. *)
Theorem clean_text_idempotent (s : str) :
  _clean_text (_clean_text s) = _clean_text s.
Proof.
  destruct (clean_text_no_adjacent s) as (H1 & H2 & H3).
  apply clean_text_fixed; try assumption. apply clean_text_special_spaces.
Qed.

(** ** The inline renderer *)

Lemma mem_app (s : str) (l1 l2 : list str) :
  Py.mem s (l1 ++ l2) = (Py.mem s l1 || Py.mem s l2)%bool.
Proof. apply existsb_app. Qed.

Lemma mem_cons (s t : str) (l : list str) :
  Py.mem s (t :: l) = (Py.eqb s t || Py.mem s l)%bool.
Proof. reflexivity. Qed.

Lemma concat_flat_map {A B : Type} (f : A -> list (list B)) (l : list A) :
  List.concat (flat_map f l) = List.concat (map (fun x => List.concat (f x)) l).
Proof.
  induction l as [|x l IH]; [reflexivity|].
  cbn [flat_map map List.concat]. rewrite concat_app, IH. reflexivity.
Qed.

Lemma printed_text_children (nm : str) (attrs : list (str * str)) (cs : list node) :
  printed_text (Element nm attrs cs) = Py.concat (map printed_text cs).
Proof.
  unfold printed_text, Py.concat. cbn [descendants flat_map printed_string app].
  rewrite flat_map_flat_map.
  apply (@concat_flat_map node Py.char).
Qed.

(** On a tag that [get_text] reads in full, the printed text is the text
    [get_text] returns. *)
Lemma printed_text_get_text (nm : str) (attrs : list (str * str)) (cs : list node) :
  plain_strings (Element nm attrs cs) = true ->
  printed_text (Element nm attrs cs) = get_text (Element nm attrs cs).
Proof.
  unfold plain_strings. cbn [name_of]. intros H.
  apply andb_true_iff in H as [Hn Hs]. apply negb_true_iff in Hn.
  rewrite forallb_forall in Hs.
  unfold printed_text, get_text, all_strings. cbn [flat_map printed_string app name_of].
  f_equal. apply flat_map_Forall_ext. apply Forall_forall. intros d Hd.
  specialize (Hs d Hd). destruct d as [nm' attrs' cs'|s|s|k s]; cbn [is_special negb] in Hs.
  - reflexivity.
  - cbn [printed_string read_string]. rewrite Hn. reflexivity.
  - reflexivity.
  - discriminate Hs.
Qed.

(** X6: on a tree none of whose tags is one the inline renderer marks or
    drops ([script], [style], [noscript], the media tags, [br], [strong], [b],
    [em], [i], [code]), the inline renderer returns the concatenation of
    every string of the tree that is no comment, whatever its class: unknown
    tags and links are transparent, comments give nothing.  This is what
    [get_text()] returns for a tag that is no string container ([rt], [rp],
    [style], [script], [template]) and has only plain strings below it; a
    string inside an [rt] is printed, and [get_text()] skips it. *)
Theorem inline_md_transparent (n : node) (parent : option str) :
  Forall (fun d => inline_transparent d = true) (n :: descendants n) ->
  _inline_md parent n = printed_text n
  /\ (forall nm attrs cs,
        n = Element nm attrs cs -> plain_strings n = true ->
        _inline_md parent n = get_text n).
Proof.
  intros H.
  assert (Hp : _inline_md parent n = printed_text n).
  { revert parent H. induction n as [nm attrs cs IH|s|s|k s] using node_ind';
      intros parent H;
      [|unfold printed_text; cbn; rewrite ?app_nil_r; reflexivity ..].
    pose proof (Forall_inv H) as Hn. apply Forall_inv_tail in H.
    apply descendants_Forall in H.
    cbn [inline_transparent] in Hn. apply negb_true_iff in Hn.
    unfold inline_marked_tags in Hn. rewrite !mem_app, !mem_cons in Hn.
    repeat (apply orb_false_iff in Hn; destruct Hn as [? Hn]).
    rewrite inline_md_element. cbv zeta.
    repeat match goal with
           | E : ?b = false |- context [?b] => rewrite E
           end.
    cbn [Py.mem existsb orb andb].
    repeat match goal with
           | E : ?b = false |- context [?b] => rewrite E
           end.
    cbn [orb andb].
    assert (Hk : map (_inline_md (Some nm)) cs = map printed_text cs).
    { apply map_ext_Forall. rewrite Forall_forall in *. intros c Hc.
      apply IH; [exact Hc|]. destruct (H c Hc) as [Hd1 Hd2]. constructor; assumption. }
    rewrite Hk, printed_text_children.
    destruct (Py.eqb (Py.lower nm) (u "a")); reflexivity. }
  split; [exact Hp|].
  intros nm attrs cs -> Hs. rewrite Hp. apply printed_text_get_text. exact Hs.
Qed.

Lemma inline_md_transparent_witness :
  _inline_md None span_ruby = u "abd"
  /\ get_text span_ruby = u "ad"
  /\ _inline_md None span_sample = get_text span_sample.
Proof.
  split; [|split; [reflexivity|]].
  - apply (@inline_md_transparent span_ruby None). vm_compute. repeat constructor.
  - apply (fun H => proj2 (@inline_md_transparent span_sample None H)
                      (u "span") []
                      [Text (u "a"); Element (u "u") [] [Text (u "b")];
                       Comment (u " c "); Text (u "d")] eq_refl eq_refl).
    vm_compute. repeat constructor.
Defined.

(** X7: a [strong], [b], [em] or [i] tag renders inline either as the
    empty string or as its marker ([**] for the first two, [*] for the others)
    on both sides of a non-empty text that neither starts nor ends with
    whitespace. *)
Theorem inline_emphasis_flanked (parent : option str) (nm : str)
    (attrs : list (str * str)) (cs : list node) :
  Py.mem (Py.lower nm) [u "strong"; u "b"; u "em"; u "i"] = true ->
  _inline_md parent (Element nm attrs cs) = []
  \/ exists txt c r r' d,
       _inline_md parent (Element nm attrs cs)
       = emphasis_mark (Py.lower nm) ++ txt ++ emphasis_mark (Py.lower nm)
       /\ txt = c :: r /\ txt = r' ++ [d]
       /\ Py.isspace c = false /\ Py.isspace d = false.
Proof.
  intros Hm. rewrite inline_md_element. cbv zeta.
  set (kids := Py.concat (map (_inline_md (Some nm)) cs)).
  assert (Hshape : Py.truthy (Py.strip kids) = true ->
            exists c r r' d, Py.strip kids = c :: r /\ Py.strip kids = r' ++ [d]
                             /\ Py.isspace c = false /\ Py.isspace d = false).
  { intros Ht. destruct (strip_head kids) as [E|(c & r & E & Hc)];
      [rewrite E in Ht; discriminate|].
    destruct (strip_last kids) as [E'|(r' & d & E' & Hd)];
      [rewrite E' in Ht; discriminate|].
    exists c, r, r', d. repeat split; assumption. }
  apply existsb_exists in Hm as (t & Hin & Heq). apply eqb_eq in Heq. rewrite Heq.
  cbn [In] in Hin. unfold emphasis_mark.
  destruct Hin as [<-|[<-|[<-|[<-|[]]]]]; eval_name_tests;
    (destruct (Py.truthy (Py.strip kids)); [right|left; reflexivity]);
    destruct (Hshape eq_refl) as (c & r & r' & d & Hs);
    exists (Py.strip kids), c, r, r', d; (split; [reflexivity | exact Hs]).
Qed.

Lemma inline_emphasis_flanked_witness :
  _inline_md None (Element (u "em") [] [Text (u " x ")]) = []
  \/ exists txt c r r' d,
       _inline_md None (Element (u "em") [] [Text (u " x ")])
       = emphasis_mark (Py.lower (u "em")) ++ txt ++ emphasis_mark (Py.lower (u "em"))
       /\ txt = c :: r /\ txt = r' ++ [d]
       /\ Py.isspace c = false /\ Py.isspace d = false.
Proof.
  apply (@inline_emphasis_flanked None (u "em") [] [Text (u " x ")]). reflexivity.
Defined.

Lemma escape_backticks (s : str) (prev : Py.char) :
  no_adjacent_after bare_backtick prev (Py.replace_char 96%N (u "\`") s) = true.
Proof.
  revert prev. induction s as [|c s IH]; intros prev; [reflexivity|].
  unfold Py.replace_char in *. cbn [flat_map].
  destruct (N.eqb_spec c 96) as [E|E].
  - change (u "\`") with [92%N; 96%N]. cbn [app no_adjacent_after].
    rewrite IH. unfold bare_backtick.
    change (N.eqb 92 96) with false. change (N.eqb 92 92) with true.
    rewrite andb_false_r. reflexivity.
  - cbn [app no_adjacent_after]. rewrite IH. unfold bare_backtick.
    apply N.eqb_neq in E. rewrite E, andb_false_r. reflexivity.
Qed.

Lemma escape_backticks_rest (s : str) :
  filter (fun c => negb (N.eqb c 96)) (Py.replace_char 96%N (u "\`") s)
  = Py.replace_char 96%N [92%N] s.
Proof.
  induction s as [|c s IH]; [reflexivity|].
  unfold Py.replace_char in *. change (u "\`") with [92%N; 96%N] in *.
  cbn [flat_map]. destruct (N.eqb_spec c 96) as [E|E].
  - cbn [app filter].
    change (N.eqb 92 96) with false. change (N.eqb 96 96) with true.
    cbn [negb]. rewrite IH. reflexivity.
  - cbn [app filter]. apply N.eqb_neq in E. rewrite E. cbn [negb]. rewrite IH.
    reflexivity.
Qed.

(** X8: a [code] tag outside a [pre] parent renders inline as the text
    that [get_text()] reads below it (the plain strings; not the strings
    inside an [rt], [rp], [script], [style] or [template]) between two
    backticks, where every backtick of the text is preceded by a backslash
    and nothing else is changed (what is left of the body without its
    backticks is the text with a backslash for each backtick). *)
Theorem inline_code_escapes_backticks (parent : option str) (nm : str)
    (attrs : list (str * str)) (cs : list node) :
  Py.lower nm = u "code" ->
  (forall pn, parent = Some pn -> Py.lower pn <> u "pre") ->
  let body := Py.replace_char 96%N (u "\`") (get_text (Element nm attrs cs)) in
  _inline_md parent (Element nm attrs cs) = u "`" ++ body ++ u "`"
  /\ no_adjacent_after bare_backtick 96%N body = true
  /\ filter (fun c => negb (N.eqb c 96)) body
     = Py.replace_char 96%N [92%N] (get_text (Element nm attrs cs)).
Proof.
  intros Hc Hp body. split; [|split; [apply escape_backticks | apply escape_backticks_rest]].
  rewrite inline_md_element. cbv zeta. rewrite Hc. eval_name_tests.
  assert (E : match parent with
              | Some pn => negb (Py.eqb (Py.lower pn) (u "pre"))
              | None => true
              end = true).
  { destruct parent as [pn|]; [|reflexivity]. apply negb_true_iff.
    destruct (Py.eqb (Py.lower pn) (u "pre")) eqn:E; [|reflexivity].
    apply eqb_eq in E. destruct (Hp pn eq_refl E). }
  rewrite E. reflexivity.
Qed.

Lemma inline_code_escapes_backticks_witness :
  _inline_md None code_sample = u "`a\`b`".
Proof.
  apply (@inline_code_escapes_backticks None (u "code") []
           [Text (u "a`b"); Element (u "rt") [] [Special RubyTextString (u "c")]] eq_refl).
  intros pn H. discriminate H.
Defined.

(** ** The classifier's answers *)

(** X9: whenever the classifier returns, it answers either (False, 0)
    or (True, level) with a level of 2, 3 or 4, and the latter only for a
    visible text of 1 to 60 characters. *)
Theorem looks_like_heading_range (p_tag : node) (is_h : bool) (lvl : nat) :
  _looks_like_heading p_tag = Ok (is_h, lvl) ->
  (is_h = true /\ 2 <= lvl <= 4 /\ 0 < length (heading_text p_tag) <= 60)
  \/ (is_h = false /\ lvl = 0).
Proof.
  unfold _looks_like_heading.
  destruct (Py.truthy (heading_text p_tag)) eqn:Et; cbn [negb orb];
    [|intros [= <- <-]; right; split; reflexivity].
  destruct (Nat.ltb_spec 60 (length (heading_text p_tag))) as [H60|H60];
    [intros [= <- <-]; right; split; reflexivity|].
  rewrite truthy_length in Et. apply Nat.ltb_lt in Et.
  destruct (_max_font_px p_tag) as [max_px|e]; cbn [bind]; [|discriminate].
  repeat match goal with
         | |- context [if ?b then _ else _] => destruct b
         end;
    intros [= <- <-]; (left; repeat split; lia) || (right; split; reflexivity).
Qed.

Lemma looks_like_heading_range_witness :
  (true = true /\ 2 <= 3 <= 4 /\ 0 < length (heading_text p_bold_short) <= 60)
  \/ (true = false /\ 3 = 0).
Proof.
  apply (@looks_like_heading_range p_bold_short true 3). vm_compute. reflexivity.
Defined.

Lemma not_heading_without_bold (p_tag : node) :
  find_all bold_tags p_tag = [] ->
  _max_font_px p_tag = Ok (PyFloat.of_N 0) ->
  _looks_like_heading p_tag = Ok (false, 0).
Proof.
  intros Hb Hpx.
  destruct (Nat.ltb_spec 0 (length (heading_text p_tag))) as [H0|H0];
    [|apply looks_like_heading_rejects; left; lia].
  destruct (Nat.leb_spec (length (heading_text p_tag)) 60) as [H60|H60];
    [|apply looks_like_heading_rejects; right; exact H60].
  rewrite (looks_like_heading_decision _ Hpx (conj H0 H60)).
  unfold bold_ratio, bold_text. rewrite Hb. reflexivity.
Qed.

(** X10: a tag without any [strong] or [b] descendant that declares no
    font-size is not a heading; in the tree the pipeline renders, where the
    attributes below the content root are gone, this holds for every tag
    below the root that has no [strong] or [b] descendant. *)
Theorem paragraph_without_bold_is_no_heading :
  (forall p_tag,
      find_all bold_tags p_tag = [] -> declares_no_font_size p_tag ->
      _looks_like_heading p_tag = Ok (false, 0))
  /\ (forall content,
        Forall (fun d => find_all bold_tags d = [] ->
                         _looks_like_heading d = Ok (false, 0))
               (descendants (sanitize content))).
Proof.
  split.
  - intros p_tag Hb Hno. apply not_heading_without_bold; [exact Hb|].
    apply max_font_px_no_font. exact Hno.
  - intros content. eapply Forall_impl; [|apply sanitize_max_font_px].
    intros d Hpx Hb. apply not_heading_without_bold; assumption.
Qed.

Lemma paragraph_without_bold_is_no_heading_witness :
  _looks_like_heading p_plain = Ok (false, 0).
Proof.
  apply (proj1 paragraph_without_bold_is_no_heading p_plain); [reflexivity|].
  unfold declares_no_font_size.
  repeat constructor; intros style H; vm_compute in H; discriminate.
Defined.

(** ** The block renderer on containers and unknown tags *)

Lemma mapM_Ok_map {A B : Type} (f : A -> result B) (g : A -> B) (l : list A) :
  Forall (fun x => f x = Ok (g x)) l -> mapM f l = Ok (map g l).
Proof.
  induction 1 as [|x l H _ IH]; [reflexivity|].
  cbn [mapM map]. rewrite H. cbn [bind]. rewrite IH. reflexivity.
Qed.

Lemma mapM_ext_Forall {A B : Type} (f g : A -> result B) (l : list A) :
  Forall (fun x => f x = g x) l -> mapM f l = mapM g l.
Proof.
  induction 1 as [|x l H _ IH]; [reflexivity|].
  cbn [mapM]. rewrite H, IH. reflexivity.
Qed.

(** X11: on a tree none of whose tags is one the block renderer gives a
    block or drops (the hard-drop tags, [h1] to [h6], [p], [blockquote],
    [ul], [ol], [pre], [table], [hr]), the block renderer returns, at every
    list level, the concatenation of every string of the tree that is no
    comment, whatever its class and not normalized: containers and unknown
    tags are transparent.  This is what [get_text()] returns for a tag that
    is no string container and has only plain strings below it; a string
    inside an [rt] is printed, and [get_text()] skips it. *)
Theorem to_md_transparent (n : node) (list_level : nat) :
  Forall (fun d => block_transparent d = true) (n :: descendants n) ->
  _to_md n list_level = Ok (printed_text n)
  /\ (forall nm attrs cs,
        n = Element nm attrs cs -> plain_strings n = true ->
        _to_md n list_level = Ok (get_text n)).
Proof.
  intros H.
  assert (Hp : _to_md n list_level = Ok (printed_text n)).
  { induction n as [nm attrs cs IH|s|s|k s] using node_ind';
      [|unfold printed_text; cbn; rewrite ?app_nil_r; reflexivity ..].
    pose proof (Forall_inv H) as Hn. apply Forall_inv_tail in H.
    apply descendants_Forall in H.
    cbn [block_transparent] in Hn. apply negb_true_iff in Hn.
    unfold block_marked_tags in Hn. rewrite !mem_app, !mem_cons in Hn.
    repeat (apply orb_false_iff in Hn; destruct Hn as [? Hn]).
    rewrite to_md_element. cbv zeta.
    repeat match goal with
           | E : ?b = false |- context [?b] => rewrite E
           end.
    assert (Hk : mapM (fun c => _to_md c list_level) cs = Ok (map printed_text cs)).
    { apply mapM_Ok_map. rewrite Forall_forall in *. intros c Hc.
      apply IH; [exact Hc|]. destruct (H c Hc) as [Hd1 Hd2]. constructor; assumption. }
    rewrite Hk. cbn [bind]. rewrite printed_text_children.
    destruct (Py.mem (Py.lower nm) container_tags); reflexivity. }
  split; [exact Hp|].
  intros nm attrs cs -> Hs. rewrite Hp. f_equal. apply printed_text_get_text. exact Hs.
Qed.

Lemma to_md_transparent_witness :
  _to_md (Element (u "section") [] [span_ruby]) 2 = Ok (u "abd")
  /\ get_text (Element (u "section") [] [span_ruby]) = u "ad"
  /\ _to_md (Element (u "section") [] [span_sample]) 2
     = Ok (get_text (Element (u "section") [] [span_sample])).
Proof.
  split; [|split; [reflexivity|]].
  - apply (@to_md_transparent (Element (u "section") [] [span_ruby]) 2).
    vm_compute. repeat constructor.
  - apply (fun H => proj2 (@to_md_transparent (Element (u "section") [] [span_sample]) 2 H)
                      (u "section") [] [span_sample] eq_refl eq_refl).
    vm_compute. repeat constructor.
Defined.

(** X12: on a tree without any [ul] or [ol] tag the result of the block
    renderer does not depend on the list level. *)
Theorem to_md_list_level_outside_lists (n : node) (l l' : nat) :
  Forall (fun d => is_nested_list d = false) (n :: descendants n) ->
  _to_md n l = _to_md n l'.
Proof.
  induction n as [nm attrs cs IH|s|s|k s] using node_ind';
    intros H; [|reflexivity ..].
  pose proof (Forall_inv H) as Hn. apply Forall_inv_tail in H.
  apply descendants_Forall in H.
  assert (Hul : Py.eqb (Py.lower nm) (u "ul") = false
                /\ Py.eqb (Py.lower nm) (u "ol") = false).
  { cbn [is_nested_list] in Hn. destruct nm as [|c nm]; [split; reflexivity|].
    cbn [Py.truthy andb] in Hn. unfold list_tags in Hn. rewrite !mem_cons in Hn.
    apply orb_false_iff in Hn as [H1 Hn]. apply orb_false_iff in Hn as [H2 _].
    split; assumption. }
  destruct Hul as [Hul Hol].
  assert (Hk : mapM (fun c => _to_md c l) cs = mapM (fun c => _to_md c l') cs).
  { apply mapM_ext_Forall. rewrite Forall_forall in *. intros c Hc.
    apply IH; [exact Hc|]. destruct (H c Hc) as [Hd1 Hd2]. constructor; assumption. }
  rewrite !to_md_element. cbv zeta. rewrite Hul, Hol, Hk. reflexivity.
Qed.

Lemma to_md_list_level_outside_lists_witness :
  _to_md div_with_h1 0 = _to_md div_with_h1 3.
Proof.
  apply (@to_md_list_level_outside_lists div_with_h1 0 3).
  vm_compute. repeat constructor.
Defined.

(** ** Every block ends with a newline *)

Lemma ends_with_newline_app (s t : str) :
  ends_with_newline s -> ends_with_newline t -> ends_with_newline (s ++ t).
Proof.
  intros Hs [->|[r ->]]; [rewrite app_nil_r; exact Hs|].
  right. exists (s ++ r). rewrite app_assoc. reflexivity.
Qed.

Lemma ends_with_newline_concat (l : list str) :
  Forall ends_with_newline l -> ends_with_newline (Py.concat l).
Proof.
  induction 1 as [|x l Hx _ IH]; [left; reflexivity|].
  unfold Py.concat in *. cbn [List.concat]. apply ends_with_newline_app; assumption.
Qed.

Lemma mapM_Forall {A B : Type} (P : B -> Prop) (f : A -> result B) (l : list A)
    (ys : list B) :
  Forall (fun x => forall y, f x = Ok y -> P y) l -> mapM f l = Ok ys -> Forall P ys.
Proof.
  intros H. revert ys. induction H as [|x l Hx _ IH]; intros ys; cbn [mapM].
  - intros [= <-]. constructor.
  - destruct (f x) as [y|e]; cbn [bind]; [|discriminate].
    destruct (mapM f l) as [ys'|e]; cbn [bind]; [|discriminate].
    intros [= <-]. constructor; [apply Hx; reflexivity | apply IH; reflexivity].
Qed.

Lemma nested_list_name (nm : str) (attrs : list (str * str)) (cs : list node) :
  is_nested_list (Element nm attrs cs) = true ->
  Py.lower nm = u "ul" \/ Py.lower nm = u "ol".
Proof.
  cbn [is_nested_list]. intros H. apply andb_true_iff in H as [_ H].
  unfold list_tags in H. rewrite !mem_cons in H.
  apply orb_true_iff in H as [H|H]; [left; apply eqb_eq; exact H|].
  apply orb_true_iff in H as [H|H]; [right; apply eqb_eq; exact H | discriminate H].
Qed.

Lemma no_truthy_concat (items : list str) :
  existsb Py.truthy items = false -> Py.concat items = [].
Proof.
  induction items as [|x items IH]; [reflexivity|].
  cbn [existsb]. intros H. apply orb_false_iff in H as [Hx H].
  destruct x; [|discriminate Hx]. apply IH. exact H.
Qed.

(** Lists and list items end their output with a newline. *)
Lemma lists_end_with_newline (n : node) :
  (forall list_level out,
      is_nested_list n = true -> _to_md n list_level = Ok out -> ends_with_newline out)
  /\ (forall list_level ordered index out,
         _li_to_md n list_level ordered index = Ok out -> ends_with_newline out).
Proof.
  induction n as [nm attrs cs IH|s|s|k s] using node_ind';
    [|split; [discriminate | intros ? ? ? ? [= <-]; left; reflexivity] ..].
  assert (Hitems : forall (A : Type) (f : A -> result str) (g : A -> node) (l : list A)
                     (items : list str),
             (forall a, In a l -> In (g a) cs) ->
             (forall a, exists lvl o i, f a = _li_to_md (g a) lvl o i) ->
             mapM f l = Ok items -> ends_with_newline (Py.concat items)).
  { intros A f g l items Hin Hf Hm. apply ends_with_newline_concat.
    eapply mapM_Forall; [|exact Hm]. apply Forall_forall. intros a Ha y Hy.
    destruct (Hf a) as (lvl & o & i & E). rewrite E in Hy.
    rewrite Forall_forall in IH. eapply (proj2 (IH (g a) (Hin a Ha))). exact Hy. }
  split.
  - intros list_level out Hn. destruct (@nested_list_name _ _ _ Hn) as [E|E].
    + rewrite to_md_ul by exact E.
      destruct (mapM _ _) as [items|e] eqn:Hm; cbn [bind]; [|discriminate].
      intros [= <-]. apply ends_with_newline_app.
      * apply (Hitems _ _ (fun li => li) _ _) in Hm; [exact Hm| |].
        -- intros a Ha. apply filter_In in Ha. apply Ha.
        -- intros a. exists list_level, false, 1. reflexivity.
      * destruct (existsb Py.truthy items); [right; exists []|left]; reflexivity.
    + rewrite to_md_ol by exact E.
      destruct (mapM _ _) as [items|e] eqn:Hm; cbn [bind]; [|discriminate].
      intros [= <-]. apply ends_with_newline_app.
      * apply (Hitems _ _ (fun ix => snd ix) _ _) in Hm; [exact Hm| |].
        -- intros [i a] Ha. cbn [snd].
           assert (Hen : forall (l : list node) k, In (i, a) (enumerate k l) -> In a l).
           { induction l as [|x l IHl]; intros k Hk; [destruct Hk|].
             cbn [enumerate In] in *. destruct Hk as [[= _ ->]|Hk];
               [left; reflexivity | right; eapply IHl; exact Hk]. }
           apply Hen in Ha. apply filter_In in Ha. apply Ha.
        -- intros [i a]. exists list_level, true, i. reflexivity.
      * destruct items; [left|right; exists []]; reflexivity.
  - intros list_level ordered index out. rewrite li_to_md_element. cbv zeta.
    destruct (negb _ && _)%bool; [intros [= <-]; left; reflexivity|].
    destruct (mapM _ _) as [nested|e] eqn:Hm; cbn [bind]; [|discriminate].
    intros [= <-]. apply ends_with_newline_app.
    + right. eexists. reflexivity.
    + apply ends_with_newline_concat. eapply mapM_Forall; [|exact Hm].
      apply Forall_forall. intros c Hc y Hy. apply filter_In in Hc as [Hc Hnl].
      rewrite Forall_forall in IH. eapply (proj1 (IH c Hc)); eassumption.
Qed.

Lemma li_items_end_with_newline {A : Type} (f : A -> result str) (l : list A)
    (items : list str) :
  (forall a, exists li lvl o i, f a = _li_to_md li lvl o i) ->
  mapM f l = Ok items -> ends_with_newline (Py.concat items).
Proof.
  intros Hf Hm. apply ends_with_newline_concat. eapply mapM_Forall; [|exact Hm].
  apply Forall_forall. intros a _ y Hy. destruct (Hf a) as (li & lvl & o & i & E).
  rewrite E in Hy. eapply (proj2 (lists_end_with_newline li)). exact Hy.
Qed.

Lemma ends_with_blank_line_base : ends_with_blank_line [Py.LF; Py.LF].
Proof. exists []. reflexivity. Qed.

Lemma ends_with_blank_line_app (s t : str) :
  ends_with_blank_line t -> ends_with_blank_line (s ++ t).
Proof. intros [r ->]. exists (s ++ r). rewrite app_assoc. reflexivity. Qed.

Lemma ends_with_blank_line_cons (c : Py.char) (t : str) :
  ends_with_blank_line t -> ends_with_blank_line (c :: t).
Proof. intros [r ->]. exists (c :: r). reflexivity. Qed.

(** X13: what the block renderer returns for a heading, paragraph, block
    quote, list, code block, table or rule is empty or ends with a blank line
    (two newlines); the one exception is an ordered list all of whose items
    render empty, which gives a single newline. *)
Theorem block_output_ends_with_blank_line (nm : str) (attrs : list (str * str))
    (cs : list node) (list_level : nat) (out : str) :
  Py.mem (Py.lower nm) block_tags = true ->
  _to_md (Element nm attrs cs) list_level = Ok out ->
  out = []
  \/ ends_with_blank_line out
  \/ (Py.lower nm = u "ol" /\ out = [Py.LF]).
Proof.
  intros Hm. apply existsb_exists in Hm as (t & Hin & Heq). apply eqb_eq in Heq.
  unfold block_tags, heading_tags in Hin. cbn [app In] in Hin.
  destruct Hin as [<-|[<-|[<-|[<-|[<-|[<-|[<-|[<-|[<-|[<-|[<-|[<-|[<-|[]]]]]]]]]]]]]].
  1-6: rewrite to_md_element; cbv zeta; rewrite Heq; eval_name_tests;
       destruct (Py.truthy _); intros [= <-]; [right; left|left; reflexivity];
       repeat first [apply ends_with_blank_line_base | apply ends_with_blank_line_app
                    | apply ends_with_blank_line_cons].
  - rewrite to_md_element. cbv zeta. rewrite Heq. eval_name_tests.
    destruct (negb _); [intros [= <-]; left; reflexivity|].
    destruct (_looks_like_heading _) as [[is_h lvl]|e]; cbn [bind]; [|discriminate].
    destruct is_h; [|destruct (Py.truthy _)]; intros [= <-];
      try (left; reflexivity); right; left;
      repeat first [apply ends_with_blank_line_base | apply ends_with_blank_line_app
                   | apply ends_with_blank_line_cons].
  - rewrite to_md_element. cbv zeta. rewrite Heq. eval_name_tests.
    destruct (mapM _ _) as [parts|e]; cbn [bind]; [|discriminate].
    destruct (negb _); intros [= <-]; [left; reflexivity|].
    right. left. apply ends_with_blank_line_app, ends_with_blank_line_base.
  - rewrite to_md_ul by exact Heq.
    destruct (mapM _ _) as [items|e] eqn:Hm; cbn [bind]; [|discriminate].
    intros [= <-].
    destruct (existsb Py.truthy items) eqn:Et;
      [|left; rewrite (@no_truthy_concat _ Et); reflexivity].
    right. left.
    destruct (@li_items_end_with_newline _ _ _ _
                (fun li => ex_intro _ li (ex_intro _ list_level (ex_intro _ false
                   (ex_intro _ 1 eq_refl)))) Hm) as [E|[r E]].
    + apply existsb_exists in Et as (x & Hx & Ht).
      assert (Hnil : Forall (fun y => y = []) items).
      { clear - E. induction items as [|y items IH]; [constructor|].
        unfold Py.concat in E. cbn [List.concat] in E.
        apply app_eq_nil in E as [-> E]. constructor; [reflexivity | apply IH, E]. }
      rewrite Forall_forall in Hnil. rewrite (Hnil x Hx) in Ht. discriminate Ht.
    + exists r. rewrite E, <- app_assoc. reflexivity.
  - rewrite to_md_ol by exact Heq.
    destruct (mapM _ _) as [items|e] eqn:Hm; cbn [bind]; [|discriminate].
    intros [= <-]. destruct items as [|x items]; [left; reflexivity|].
    right.
    destruct (@li_items_end_with_newline _ _ _ _
                (fun ix => ex_intro _ (snd ix) (ex_intro _ list_level (ex_intro _ true
                   (ex_intro _ (fst ix) eq_refl)))) Hm) as [E|[r E]]; rewrite E.
    + right. split; [exact Heq | reflexivity].
    + left. exists r. rewrite <- app_assoc. reflexivity.
  - rewrite to_md_element. cbv zeta. rewrite Heq. eval_name_tests.
    destruct (Py.truthy _); intros [= <-]; [right; left|left; reflexivity].
    repeat first [apply ends_with_blank_line_base | apply ends_with_blank_line_app
                 | apply ends_with_blank_line_cons].
  - rewrite to_md_element. cbv zeta. rewrite Heq. eval_name_tests.
    destruct (table_rows _); intros [= <-]; [left; reflexivity|].
    right. left. apply ends_with_blank_line_app, ends_with_blank_line_base.
  - rewrite to_md_element. cbv zeta. rewrite Heq. eval_name_tests.
    intros [= <-]. right. left.
    repeat first [apply ends_with_blank_line_base | apply ends_with_blank_line_app
                 | apply ends_with_blank_line_cons].
Qed.

Lemma block_output_ends_with_blank_line_witness :
  u "# a" ++ [Py.LF; Py.LF] = []
  \/ ends_with_blank_line (u "# a" ++ [Py.LF; Py.LF])
  \/ (Py.lower (u "H1") = u "ol" /\ u "# a" ++ [Py.LF; Py.LF] = [Py.LF]).
Proof.
  apply (@block_output_ends_with_blank_line (u "H1") [] [Text (u "a")] 0); reflexivity.
Defined.

(** ** Lists read their [li] children only *)

Lemma filter_idempotent {A : Type} (p : A -> bool) (l : list A) :
  filter p (filter p l) = filter p l.
Proof.
  induction l as [|x l IH]; [reflexivity|]. cbn [filter].
  destruct (p x) eqn:E; [|exact IH]. cbn [filter]. rewrite E, IH. reflexivity.
Qed.

(** X14: a list renders its direct [li] children only: every other child
    of a [ul] or [ol] (a text, another tag) leaves the output unchanged. *)
Theorem list_renders_only_li_children (nm : str) (attrs : list (str * str))
    (cs : list node) (list_level : nat) :
  Py.mem (Py.lower nm) list_tags = true ->
  _to_md (Element nm attrs cs) list_level
  = _to_md (Element nm attrs (filter (is_tag_in [u "li"]) cs)) list_level.
Proof.
  intros H. unfold list_tags in H. rewrite !mem_cons in H.
  apply orb_true_iff in H as [H|H]; [|apply orb_true_iff in H as [H|H]; [|discriminate H]];
    apply eqb_eq in H.
  - rewrite !to_md_ul by exact H. unfold find_all_direct. cbn [children].
    rewrite filter_idempotent. reflexivity.
  - rewrite !to_md_ol by exact H. unfold find_all_direct. cbn [children].
    rewrite filter_idempotent. reflexivity.
Qed.

Lemma list_renders_only_li_children_witness :
  _to_md ul_stray_children 0 = Ok (u "- a" ++ [Py.LF; Py.LF]).
Proof.
  unfold ul_stray_children.
  rewrite (@list_renders_only_li_children (u "ul") [] _ 0 eq_refl).
  vm_compute. reflexivity.
Defined.

(** ** Tables *)

Lemma flat_map_nil {A B : Type} (f : A -> list B) (l : list A) :
  flat_map f l = [] <-> Forall (fun x => f x = []) l.
Proof.
  induction l as [|x l IH]; [split; constructor|].
  cbn [flat_map]. split.
  - intros H. apply app_eq_nil in H as [H1 H2]. constructor; [exact H1 | apply IH, H2].
  - intros H. rewrite (Forall_inv H), (proj2 IH (Forall_inv_tail H)). reflexivity.
Qed.

Lemma no_truthy_cell {A : Type} (g : A -> str) (l : list A) :
  existsb Py.truthy (map g l) = false <-> Forall (fun c => g c = []) l.
Proof.
  induction l as [|x l IH]; [split; constructor|].
  cbn [map existsb]. rewrite orb_false_iff, IH. split.
  - intros [H1 H2]. constructor; [|exact H2]. destruct (g x); [reflexivity | discriminate].
  - intros H. split; [rewrite (Forall_inv H); reflexivity | exact (Forall_inv_tail H)].
Qed.

(** X15: a table renders as the empty string exactly when every row
    below it has only cells without visible text. *)
Theorem table_without_text_renders_empty (nm : str) (attrs : list (str * str))
    (cs : list node) (list_level : nat) :
  Py.lower nm = u "table" ->
  _to_md (Element nm attrs cs) list_level = Ok []
  <-> Forall (fun tr => Forall (fun c => get_text_strip (u " ") c = [])
                          (find_all [u "th"; u "td"] tr))
        (find_all [u "tr"] (Element nm attrs cs)).
Proof.
  intros Hn. rewrite to_md_element. cbv zeta. rewrite Hn. eval_name_tests.
  assert (Hrows : table_rows (Element nm attrs cs) = []
                  <-> Forall (fun tr => Forall (fun c => get_text_strip (u " ") c = [])
                                          (find_all [u "th"; u "td"] tr))
                        (find_all [u "tr"] (Element nm attrs cs))).
  { unfold table_rows. rewrite flat_map_nil.
    split; intros H; (eapply Forall_impl; [|exact H]); intros tr Htr; cbv beta zeta in *.
    - apply no_truthy_cell.
      destruct (existsb Py.truthy
                  (map (get_text_strip (u " ")) (find_all [u "th"; u "td"] tr)));
        [discriminate Htr | reflexivity].
    - apply no_truthy_cell in Htr. rewrite Htr. reflexivity. }
  rewrite <- Hrows. destruct (table_rows (Element nm attrs cs)) as [|row rows].
  - split; reflexivity.
  - split; [|discriminate]. intros [= H]. apply app_eq_nil in H as [_ H].
    discriminate H.
Qed.

Lemma table_without_text_renders_empty_witness : _to_md table_blank 0 = Ok [].
Proof.
  apply (proj2 (@table_without_text_renders_empty (u "table") []
                  [Element (u "tr") []
                     [Element (u "td") [] [Text (u " ")]; Element (u "td") [] []]]
                  0 eq_refl)).
  vm_compute. repeat constructor.
Defined.

(** ** Block quotes *)

Lemma one_line_rev (s : str) : one_line (rev s) = one_line s.
Proof.
  unfold one_line. apply eq_true_iff_eq. rewrite !forallb_forall.
  split; intros H c Hc; apply H; [apply in_rev in Hc|apply in_rev]; exact Hc.
Qed.

Lemma splitlines_from_one_line (n : nat) (s acc : str) :
  length s <= n -> one_line acc = true ->
  Forall (fun ln => one_line ln = true) (Py.splitlines_from acc s).
Proof.
  revert s acc. induction n as [|n IH]; intros s acc Hn Hacc.
  - destruct s; [|cbn in Hn; lia]. cbn [Py.splitlines_from].
    destruct acc; constructor; [rewrite one_line_rev; exact Hacc | constructor].
  - destruct s as [|c s].
    + cbn [Py.splitlines_from].
      destruct acc; constructor; [rewrite one_line_rev; exact Hacc | constructor].
    + cbn [length] in Hn. cbn [Py.splitlines_from].
      destruct (N.eqb c 13).
      * destruct s as [|d s].
        -- constructor; [rewrite one_line_rev; exact Hacc|]. apply IH; [cbn; lia | reflexivity].
        -- cbn [length] in Hn.
           destruct (N.eqb d 10); (constructor; [rewrite one_line_rev; exact Hacc|]);
             apply IH; cbn [length]; try lia; reflexivity.
      * destruct (Py.is_linebreak c) eqn:Ec.
        -- constructor; [rewrite one_line_rev; exact Hacc|]. apply IH; [lia | reflexivity].
        -- apply IH; [lia|]. unfold one_line in *. cbn [forallb]. rewrite Ec, Hacc.
           reflexivity.
Qed.

Lemma splitlines_one_line (s : str) :
  Forall (fun ln => one_line ln = true) (Py.splitlines s).
Proof. apply (@splitlines_from_one_line (length s)); [lia | reflexivity]. Qed.

Lemma splitlines_from_head (s acc : str) :
  acc <> [] -> exists ln rest, Py.splitlines_from acc s = (rev acc ++ ln) :: rest.
Proof.
  revert acc. induction s as [|c s IH]; intros acc Hacc.
  - cbn [Py.splitlines_from]. destruct acc; [contradiction|].
    exists [], []. rewrite app_nil_r. reflexivity.
  - cbn [Py.splitlines_from]. destruct (N.eqb c 13).
    + destruct s as [|d s]; [|destruct (N.eqb d 10)];
        eexists [], _; rewrite app_nil_r; reflexivity.
    + destruct (Py.is_linebreak c).
      * eexists [], _. rewrite app_nil_r. reflexivity.
      * destruct (IH (c :: acc)) as (ln & rest & E); [discriminate|].
        exists (c :: ln), rest. rewrite E. cbn [rev]. rewrite <- app_assoc. reflexivity.
Qed.

Lemma linebreak_isspace (c : Py.char) : Py.is_linebreak c = true -> Py.isspace c = true.
Proof.
  unfold Py.is_linebreak, Py.isspace, Py.between.
  rewrite !orb_true_iff, !andb_true_iff, !N.leb_le, !N.eqb_eq. lia.
Qed.

Lemma strip_nonspace_head (c : Py.char) (s : str) :
  Py.isspace c = false -> Py.truthy (Py.strip (c :: s)) = true.
Proof.
  intros Hc. unfold Py.strip, Py.rstrip, Py.lstrip.
  rewrite lstrip_by_fixed by exact Hc.
  destruct (@rstrip_by_keeps_head Py.isspace c s Hc) as [r E]. rewrite E. reflexivity.
Qed.

Lemma splitlines_first_line (c : Py.char) (s : str) :
  Py.isspace c = false ->
  exists ln rest, Py.splitlines (c :: s) = (c :: ln) :: rest.
Proof.
  intros Hc. unfold Py.splitlines. cbn [Py.splitlines_from].
  assert (E13 : N.eqb c 13 = false).
  { destruct (N.eqb_spec c 13) as [->|_]; [discriminate Hc | reflexivity]. }
  assert (Elb : Py.is_linebreak c = false).
  { destruct (Py.is_linebreak c) eqn:E; [|reflexivity].
    apply linebreak_isspace in E. congruence. }
  rewrite E13, Elb. destruct (@splitlines_from_head s [c]) as (ln & rest & E);
    [discriminate|].
  exists ln, rest. exact E.
Qed.

(** X16: when the block renderer returns on a block quote, the result is
    empty, or it consists of at least one line, every line being ["> "]
    followed by a text that holds no line boundary and is not blank, the
    lines joined by newlines and followed by a blank line. *)
Theorem blockquote_lines_prefixed (nm : str) (attrs : list (str * str)) (cs : list node)
    (list_level : nat) (out : str) :
  Py.lower nm = u "blockquote" ->
  _to_md (Element nm attrs cs) list_level = Ok out ->
  out = []
  \/ exists lines,
       lines <> []
       /\ Forall (fun ln => one_line ln = true /\ Py.strip ln <> []) lines
       /\ out = Py.join [Py.LF] (map (fun ln => u "> " ++ ln) lines) ++ [Py.LF; Py.LF].
Proof.
  intros Hn. rewrite to_md_element. cbv zeta. rewrite Hn. eval_name_tests.
  destruct (mapM (fun c => _to_md c list_level) cs) as [parts|e]; cbn [bind];
    [|discriminate].
  set (inner := Py.strip (_clean_text (Py.concat parts))).
  destruct (Py.truthy inner) eqn:Et; cbn [negb]; intros [= <-]; [right|left; reflexivity].
  exists (filter (fun ln => Py.truthy (Py.strip ln)) (Py.splitlines inner)).
  split; [|split; [|reflexivity]].
  - destruct (strip_head (_clean_text (Py.concat parts))) as [E|(c & r & E & Hc)];
      fold inner in E; rewrite E in *; [discriminate Et|].
    destruct (@splitlines_first_line c r Hc) as (ln & rest & E').
    rewrite E'. cbn [filter]. rewrite (@strip_nonspace_head c ln Hc). discriminate.
  - apply Forall_forall. intros ln Hln. apply filter_In in Hln as [Hin Ht].
    pose proof (splitlines_one_line inner) as Hall. rewrite Forall_forall in Hall.
    split; [apply Hall; exact Hin|]. intros E. rewrite E in Ht. discriminate Ht.
Qed.

Lemma blockquote_lines_prefixed_witness :
  u "> a" ++ [Py.LF] ++ u "> b" ++ [Py.LF; Py.LF] = []
  \/ exists lines,
       lines <> []
       /\ Forall (fun ln => one_line ln = true /\ Py.strip ln <> []) lines
       /\ u "> a" ++ [Py.LF] ++ u "> b" ++ [Py.LF; Py.LF]
          = Py.join [Py.LF] (map (fun ln => u "> " ++ ln) lines) ++ [Py.LF; Py.LF].
Proof.
  apply (@blockquote_lines_prefixed (u "blockquote") []
           [Element (u "p") [] [Text (u "a")]; Element (u "p") [] [Text (u "b")]] 0).
  - reflexivity.
  - vm_compute. reflexivity.
Defined.

(** ** The visible text through the sanitizer *)

Lemma all_strings_element (nm : str) (attrs : list (str * str)) (cs : list node) :
  all_strings (Element nm attrs cs) = flat_map (strings_for nm) cs.
Proof.
  unfold all_strings. cbn [descendants name_of]. apply flat_map_flat_map.
Qed.

Lemma strings_for_element (name nm : str) (attrs : list (str * str)) (cs : list node) :
  strings_for name (Element nm attrs cs) = flat_map (strings_for name) cs.
Proof.
  unfold strings_for. cbn [flat_map read_string app descendants].
  rewrite flat_map_flat_map. reflexivity.
Qed.

(** A tag that is no string container reads the plain strings, and only
    them. *)
Lemma read_string_plain (name name' : str) (d : node) :
  Py.mem name string_container_tags = false ->
  Py.mem name' string_container_tags = false ->
  read_string name d = read_string name' d.
Proof.
  intros H H'. destruct d as [nm attrs cs|s|s|k s]; [reflexivity| |reflexivity|].
  - cbn [read_string]. rewrite H, H'. reflexivity.
  - unfold string_container_tags in H, H'. rewrite !mem_cons in H, H'.
    repeat match goal with
           | E : (_ || _)%bool = false |- _ =>
               apply orb_false_iff in E; destruct E
           end.
    destruct k; cbn [read_string container_class];
      repeat match goal with
             | E : ?b = false |- context [?b] => rewrite E
             end; reflexivity.
Qed.

Lemma strings_for_plain (name name' : str) (c : node) :
  Py.mem name string_container_tags = false ->
  Py.mem name' string_container_tags = false ->
  strings_for name c = strings_for name' c.
Proof.
  intros H H'. unfold strings_for. apply flat_map_ext. intros d.
  apply read_string_plain; assumption.
Qed.

Lemma strings_for_extract_comments (name : str) (n : node) :
  strings_for name (extract_comments n) = strings_for name n.
Proof.
  induction n as [nm attrs cs IH|s|s|k s] using node_ind'; [|reflexivity ..].
  cbn [extract_comments]. rewrite !strings_for_element, flat_map_flat_map.
  apply flat_map_Forall_ext. eapply Forall_impl; [|exact IH].
  intros c Hc. destruct c as [nm' attrs' cs'|s|s|k s];
    cbn [flat_map]; rewrite ?app_nil_r; [exact Hc|reflexivity ..].
Qed.

Lemma all_strings_extract_comments (n : node) :
  all_strings (extract_comments n) = all_strings n.
Proof.
  destruct n as [nm attrs cs|s|s|k s]; [|reflexivity ..].
  pose proof (strings_for_extract_comments nm (Element nm attrs cs)) as H.
  cbn [extract_comments] in *. rewrite !strings_for_element in H.
  rewrite !all_strings_element. exact H.
Qed.

Lemma strings_for_clear_attrs (name : str) (n : node) :
  strings_for name (clear_attrs n) = strings_for name n.
Proof.
  unfold strings_for. cbn [flat_map]. rewrite read_string_clear_attrs.
  destruct n; reflexivity.
Qed.

Lemma all_strings_strip_attrs (n : node) : all_strings (strip_attrs n) = all_strings n.
Proof.
  destruct n as [nm attrs cs|s|s|k s]; [|reflexivity ..].
  change (strip_attrs (Element nm attrs cs)) with (Element nm attrs (map clear_attrs cs)).
  rewrite !all_strings_element, flat_map_map. apply flat_map_ext. intros c.
  apply strings_for_clear_attrs.
Qed.

Lemma pieces_flat_map {A : Type} (f : A -> list str) (l : list A) :
  pieces (flat_map f l) = flat_map (fun x => pieces (f x)) l.
Proof.
  unfold pieces. induction l as [|x l IH]; [reflexivity|].
  cbn [flat_map]. rewrite map_app, filter_app, IH. reflexivity.
Qed.

Lemma join_app (sep : str) (l l' : list str) :
  Py.join sep (l ++ l')
  = match l, l' with
    | [], _ => Py.join sep l'
    | _, [] => Py.join sep l
    | _, _ => Py.join sep l ++ sep ++ Py.join sep l'
    end.
Proof.
  induction l as [|x l IH]; [reflexivity|].
  destruct l' as [|y l']; [rewrite app_nil_r; reflexivity|].
  destruct l as [|x' l]; [reflexivity|].
  change (Py.join sep ((x :: x' :: l) ++ y :: l'))
    with (x ++ sep ++ Py.join sep ((x' :: l) ++ y :: l')).
  rewrite IH. change (Py.join sep (x :: x' :: l)) with (x ++ sep ++ Py.join sep (x' :: l)).
  rewrite <- !app_assoc. reflexivity.
Qed.

Lemma same_join_refl (l : list str) : same_join l l.
Proof. split; [tauto | reflexivity]. Qed.

Lemma same_join_app (l1 l1' l2 l2' : list str) :
  same_join l1 l1' -> same_join l2 l2' -> same_join (l1 ++ l2) (l1' ++ l2').
Proof.
  intros [E1 J1] [E2 J2]. split.
  - split; intros H; apply app_eq_nil in H as [Ha Hb]; apply E1 in Ha; apply E2 in Hb;
      subst; reflexivity.
  - rewrite !join_app, J1, J2.
    destruct l1 as [|x1 l1], l1' as [|x1' l1'];
      try (exfalso; destruct E1 as [Ea Eb]; (discriminate (Ea eq_refl) || discriminate (Eb eq_refl)));
      [reflexivity|].
    destruct l2 as [|x2 l2], l2' as [|x2' l2'];
      try (exfalso; destruct E2 as [Ea Eb]; (discriminate (Ea eq_refl) || discriminate (Eb eq_refl)));
      reflexivity.
Qed.

Lemma same_join_flat_map {A : Type} (f g : A -> list str) (l : list A) :
  Forall (fun x => same_join (f x) (g x)) l -> same_join (flat_map f l) (flat_map g l).
Proof.
  induction 1 as [|x l H _ IH]; [apply same_join_refl|].
  cbn [flat_map]. apply same_join_app; assumption.
Qed.

Lemma pieces_truthy (l : list str) : Forall (fun s => Py.truthy s = true) (pieces l).
Proof.
  unfold pieces. apply Forall_forall. intros s Hs. apply filter_In in Hs. apply Hs.
Qed.

Lemma join_truthy (sep : str) (l : list str) :
  Forall (fun s => Py.truthy s = true) l -> l <> [] -> Py.truthy (Py.join sep l) = true.
Proof.
  intros H Hne. destruct H as [|x l Hx _]; [contradiction|].
  destruct x as [|c x]; [discriminate|]. destruct l; reflexivity.
Qed.

(** The text that replaces a link is read like the link was. *)
Lemma pieces_link_text (c : node) :
  same_join (pieces [get_text_strip (u " ") c]) (pieces (all_strings c)).
Proof.
  pose proof (strip_join_stripped (u " ") (all_strings c)) as Hs.
  unfold get_text_strip. fold (pieces (all_strings c)) in Hs |- *.
  unfold pieces at 1. cbn [map filter]. rewrite Hs.
  destruct (pieces (all_strings c)) as [|x l] eqn:E; [apply same_join_refl|].
  rewrite join_truthy; [|rewrite <- E; apply pieces_truthy | discriminate].
  split; [split; discriminate | reflexivity].
Qed.

(** A link is no string container: it reads what a tag that is none reads
    at it. *)
Lemma all_strings_link (name : str) (c : node) :
  Py.mem name string_container_tags = false ->
  is_tag_in [u "a"] c = true ->
  all_strings c = strings_for name c.
Proof.
  intros Hn Hc. destruct c as [nm attrs cs|s|s|k s]; try discriminate Hc.
  cbn [is_tag_in] in Hc. rewrite mem_cons in Hc. apply orb_true_iff in Hc as [Hc|Hc];
    [|discriminate Hc].
  apply eqb_eq in Hc. subst nm.
  rewrite all_strings_element, strings_for_element.
  apply flat_map_ext. intros d. apply strings_for_plain; [reflexivity | exact Hn].
Qed.

Lemma pieces_strings_for_unwrap_links (name : str) (n : node) :
  Py.mem name string_container_tags = false ->
  same_join (pieces (strings_for name (unwrap_links n))) (pieces (strings_for name n)).
Proof.
  intros Hn. induction n as [nm attrs cs IH|s|s|k s] using node_ind';
    [|apply same_join_refl ..].
  cbn [unwrap_links]. rewrite !strings_for_element, flat_map_map, !pieces_flat_map.
  apply same_join_flat_map. eapply Forall_impl; [|exact IH].
  intros c Hc. destruct (is_tag_in [u "a"] c) eqn:Ea; [|exact Hc].
  unfold strings_for at 1. cbn [descendants flat_map read_string app].
  rewrite Hn. rewrite <- (@all_strings_link name c Hn Ea).
  apply pieces_link_text.
Qed.

Lemma pieces_unwrap_links (n : node) :
  Py.mem (name_of n) string_container_tags = false ->
  same_join (pieces (all_strings (unwrap_links n))) (pieces (all_strings n)).
Proof.
  intros Hn. destruct n as [nm attrs cs|s|s|k s]; [|apply same_join_refl ..].
  cbn [name_of] in Hn.
  pose proof (@pieces_strings_for_unwrap_links nm (Element nm attrs cs) Hn) as H.
  cbn [unwrap_links] in *. rewrite !strings_for_element in H.
  rewrite !all_strings_element. exact H.
Qed.

Lemma get_text_strip_unwrap_links (n : node) :
  Py.mem (name_of n) string_container_tags = false ->
  get_text_strip (u " ") (unwrap_links n) = get_text_strip (u " ") n.
Proof. intros Hn. apply (@pieces_unwrap_links n Hn). Qed.

(** X17: apart from the noisy subtrees that are removed, the pipeline's
    sanitizer keeps the visible text of a content root that is no string
    container ([rt], [rp], [style], [script], [template]):
    [get_text(" ", strip=True)] of the sanitized content root is that of the
    input without its noisy subtrees (removing comments, replacing links by
    their text, a plain string made of the plain strings of the link, and
    clearing attributes do not change it). *)
Theorem sanitize_keeps_visible_text (content : node) :
  Py.mem (name_of content) string_container_tags = false ->
  heading_text (sanitize content) = heading_text (decompose_noisy content).
Proof.
  intros Hn. unfold heading_text, sanitize.
  unfold get_text_strip at 1. rewrite all_strings_strip_attrs.
  fold (get_text_strip (u " ") (unwrap_links (decompose_noisy (extract_comments content)))).
  rewrite get_text_strip_unwrap_links by (destruct content; exact Hn).
  rewrite <- extract_comments_decompose_noisy.
  unfold get_text_strip. rewrite all_strings_extract_comments. reflexivity.
Qed.

Lemma sanitize_keeps_visible_text_witness :
  heading_text (sanitize div_link_ruby) = u "a b"
  /\ heading_text (sanitize div_link_ruby) = heading_text (decompose_noisy div_link_ruby).
Proof.
  split; [reflexivity|].
  apply (@sanitize_keeps_visible_text div_link_ruby). reflexivity.
Defined.

(** ** Comments and links are gone before the rendering *)

Lemma sanitize_extract_comments (content : node) :
  sanitize (extract_comments content) = sanitize content.
Proof.
  unfold sanitize. rewrite (@extract_comments_fixed (extract_comments content));
    [reflexivity | apply extract_comments_none].
Qed.

(** X18: the tree the pipeline renders has no comment and no [a] tag
    below the content root, and the output is the same as for the input
    without its comments. *)
Theorem sanitized_tree_has_no_comment_or_link :
  (forall content,
      Forall (fun d => is_comment d = false /\ is_tag_in [u "a"] d = false)
             (descendants (sanitize content)))
  /\ (forall title content,
        convert title (extract_comments content) = convert title content)
  /\ convert [] div_comment_link = Ok (u "see this page" ++ [Py.LF]).
Proof.
  split; [|split; [|vm_compute; reflexivity]].
  - intros content. pose proof (sanitize_no_comment content) as H1.
    pose proof (sanitize_no_link content) as H2. rewrite Forall_forall in *.
    intros d Hd. split.
    + apply negb_true_iff. apply H1. exact Hd.
    + apply negb_true_iff. apply (H2 d Hd).
  - intros title content. unfold convert. rewrite sanitize_extract_comments. reflexivity.
Qed.

(** ** The conversion succeeds when no font-size can be read *)

Lemma mapM_ok {A B : Type} (f : A -> result B) (l : list A) :
  Forall (fun x => exists y, f x = Ok y) l -> exists ys, mapM f l = Ok ys.
Proof.
  induction 1 as [|x l [y Hy] _ [ys IH]]; [exists []; reflexivity|].
  exists (y :: ys). cbn [mapM]. rewrite Hy. cbn [bind]. rewrite IH. reflexivity.
Qed.

Lemma declares_no_font_size_child (nm : str) (attrs : list (str * str)) (cs : list node) :
  declares_no_font_size (Element nm attrs cs) -> Forall declares_no_font_size cs.
Proof.
  unfold declares_no_font_size. intros H. apply Forall_inv_tail in H.
  apply descendants_Forall in H. eapply Forall_impl; [|exact H].
  intros c [H1 H2]. constructor; assumption.
Qed.

(** Both renderers return on a tree whose children declare no font-size,
    when the tree is not a paragraph or declares none itself. *)
Lemma renderers_ok (n : node) :
  match n with
  | Element nm attrs cs => Forall declares_no_font_size cs
  | _ => True
  end ->
  (is_paragraph n = false \/ declares_no_font_size n ->
   forall list_level, exists s, _to_md n list_level = Ok s)
  /\ (forall list_level ordered index,
         exists s, _li_to_md n list_level ordered index = Ok s).
Proof.
  induction n as [nm attrs cs IH|s|s|k s] using node_ind';
    [|intros _; split; intros; eexists; reflexivity
     |intros _; split; intros; eexists; reflexivity
     |intros _; split; intros; eexists; reflexivity].
  intros Hcs.
  assert (Hmd : forall l, Forall (fun c => exists s, _to_md c l = Ok s) cs).
  { intros l. rewrite Forall_forall in *. intros c Hc.
    pose proof (Hcs c Hc) as Hno. apply IH; [exact Hc| |right; exact Hno].
    destruct c; [|exact I|exact I|exact I]. eapply declares_no_font_size_child. exact Hno. }
  assert (Hli : forall l o, Forall (fun c => forall i, exists s, _li_to_md c l o i = Ok s) cs).
  { intros l o. rewrite Forall_forall in *. intros c Hc i.
    pose proof (Hcs c Hc) as Hno. apply IH; [exact Hc|].
    destruct c; [|exact I|exact I|exact I]. eapply declares_no_font_size_child. exact Hno. }
  split.
  - intros Hp list_level. rewrite to_md_element. cbv zeta.
    destruct (Py.mem (Py.lower nm) hard_drop_tags); [eexists; reflexivity|].
    assert (Hkids : exists s, (parts <- mapM (fun c => _to_md c list_level) cs ;;
                               Ok (Py.concat parts)) = Ok s).
    { destruct (@mapM_ok _ _ _ _ (Hmd list_level)) as [ys ->]. eexists. reflexivity. }
    destruct (Py.mem (Py.lower nm) container_tags); [exact Hkids|].
    destruct (Py.mem (Py.lower nm) heading_tags); [eexists; reflexivity|].
    destruct (Py.eqb (Py.lower nm) (u "p")) eqn:Ep.
    { destruct Hp as [Hp|Hp]; [cbn [is_paragraph] in Hp; congruence|].
      destruct (negb (Py.truthy (get_text_strip (u " ") (Element nm attrs cs))));
        [eexists; reflexivity|].
      assert (Hh : exists r, _looks_like_heading (Element nm attrs cs) = Ok r).
      { unfold _looks_like_heading. rewrite (max_font_px_no_font Hp). cbn [bind].
        repeat match goal with
               | |- context [if ?b then _ else _] => destruct b
               end; eexists; reflexivity. }
      destruct Hh as [[is_h lvl] ->]. cbn [bind].
      destruct is_h; eexists; reflexivity. }
    destruct (Py.eqb (Py.lower nm) (u "blockquote")).
    { destruct (@mapM_ok _ _ _ _ (Hmd list_level)) as [ys ->]. cbn [bind].
      destruct (negb _); eexists; reflexivity. }
    destruct (Py.eqb (Py.lower nm) (u "ul")).
    { destruct (@mapM_ok _ _ (fun li => _li_to_md li list_level false 1)
                  (find_all_direct [u "li"] (Element nm attrs cs))) as [ys ->];
        [|eexists; reflexivity].
      apply Forall_forall. intros c Hc. apply filter_In in Hc as [Hc _].
      pose proof (Hli list_level false) as H. rewrite Forall_forall in H.
      apply H. exact Hc. }
    destruct (Py.eqb (Py.lower nm) (u "ol")).
    { destruct (@mapM_ok _ _ (fun ix => _li_to_md (snd ix) list_level true (fst ix))
                  (enumerate 1 (find_all_direct [u "li"] (Element nm attrs cs))))
        as [ys ->]; [|eexists; reflexivity].
      assert (Hall : Forall (fun c => forall i, exists s, _li_to_md c list_level true i = Ok s)
                       (find_all_direct [u "li"] (Element nm attrs cs))).
      { apply Forall_forall. intros c Hc. apply filter_In in Hc as [Hc _].
        pose proof (Hli list_level true) as H. rewrite Forall_forall in H.
        apply H. exact Hc. }
      generalize 1 as i. induction Hall as [|c l Hc _ IHl]; intros i; constructor.
      - apply Hc.
      - apply IHl. }
    destruct (Py.eqb (Py.lower nm) (u "pre")); [eexists; reflexivity|].
    destruct (Py.eqb (Py.lower nm) (u "table")); [eexists; reflexivity|].
    destruct (Py.eqb (Py.lower nm) (u "hr")); [eexists; reflexivity|].
    exact Hkids.
  - intros list_level ordered index. rewrite li_to_md_element. cbv zeta.
    destruct (negb _ && _)%bool; [eexists; reflexivity|].
    destruct (@mapM_ok _ _ (fun nl => _to_md nl (S list_level))
                (filter is_nested_list cs)) as [ys ->]; [|eexists; reflexivity].
    apply Forall_forall. intros c Hc. apply filter_In in Hc as [Hc _].
    pose proof (Hmd (S list_level)) as H. rewrite Forall_forall in H.
    apply H. exact Hc.
Qed.

Lemma sanitize_children_no_font_size (content : node) :
  match sanitize content with
  | Element nm attrs cs => Forall declares_no_font_size cs
  | _ => True
  end.
Proof.
  pose proof (strip_attrs_no_attrs
                (unwrap_links (decompose_noisy (extract_comments content)))) as H.
  fold (sanitize content) in H.
  destruct (sanitize content) as [nm attrs cs| | |]; [|exact I|exact I|exact I].
  apply descendants_Forall in H. eapply Forall_impl; [|exact H].
  intros c [H1 H2]. apply no_attrs_no_font_size; assumption.
Qed.

Lemma sanitize_root (content : node) :
  is_paragraph (sanitize content) = is_paragraph content
  /\ Soup.get (sanitize content) (u "style") = Soup.get content (u "style").
Proof. destruct content; split; reflexivity. Qed.

(** X19: the conversion raises no [ValueError] when the content root is
    not a paragraph or has no [style] attribute (every other tag has lost its
    attributes before the rendering). *)
Theorem conversion_succeeds (title : str) (content : node) :
  is_paragraph content = false \/ Soup.get content (u "style") = None ->
  exists out, convert title content = Ok out.
Proof.
  intros H. unfold convert.
  destruct (sanitize_root content) as [Hp Hs].
  pose proof (sanitize_children_no_font_size content) as Hcs.
  destruct (renderers_ok (sanitize content) Hcs) as [Hmd _].
  destruct (Hmd) with (list_level := 0) as [s ->]; [|eexists; reflexivity].
  destruct H as [H|H]; [left; rewrite Hp; exact H|right].
  unfold declares_no_font_size. constructor.
  - intros style Hst. rewrite Hs, H in Hst. discriminate.
  - destruct (sanitize content) as [nm attrs cs| | |]; [|constructor|constructor|constructor].
    apply descendants_Forall. eapply Forall_impl; [|exact Hcs].
    intros c Hc. unfold declares_no_font_size in Hc.
    split; [exact (Forall_inv Hc) | exact (Forall_inv_tail Hc)].
Qed.

Lemma conversion_succeeds_witness : exists out, convert [] div_p_23px = Ok out.
Proof.
  apply (@conversion_succeeds [] div_p_23px). left. reflexivity.
Defined.

Lemma parse_font_px_empty : _parse_font_px [] = Ok None.
Proof. reflexivity. Qed.

Lemma max_font_px_own_style_raises (nm : str) (attrs : list (str * str)) (cs : list node)
    (style : str) (e : exn) :
  Soup.lookup (u "style") attrs = Some style ->
  _parse_font_px style = Raise e ->
  _max_font_px (Element nm attrs cs) = Raise e.
Proof.
  intros Hs Hp. unfold _max_font_px. cbn [max_font_loop Soup.get]. rewrite Hs.
  destruct style as [|c style]; [discriminate Hp|].
  cbn [Py.truthy]. rewrite Hp. reflexivity.
Qed.

Lemma to_md_paragraph_raises (nm : str) (attrs : list (str * str)) (cs : list node)
    (list_level : nat) (e : exn) :
  Py.lower nm = u "p" ->
  0 < length (heading_text (Element nm attrs cs)) <= 60 ->
  _max_font_px (Element nm attrs cs) = Raise e ->
  _to_md (Element nm attrs cs) list_level = Raise e.
Proof.
  intros Hp Hlen Hpx. rewrite to_md_element. cbv zeta. rewrite Hp.
  change (Py.mem (u "p") hard_drop_tags) with false.
  change (Py.mem (u "p") container_tags) with false.
  change (Py.mem (u "p") heading_tags) with false.
  change (Py.eqb (u "p") (u "p")) with true. cbv iota.
  fold (heading_text (Element nm attrs cs)).
  rewrite truthy_length.
  destruct (Nat.ltb_spec 0 (length (heading_text (Element nm attrs cs)))); [|lia].
  cbn [negb]. rewrite (looks_like_heading_raises _ Hpx Hlen). reflexivity.
Qed.

(** X20: a paragraph whose own [style] holds a font-size that [float]
    rejects, and whose visible text has 1 to 60 characters, makes the block
    renderer raise that [ValueError]; as the content root it makes the whole
    conversion raise it. *)
Theorem malformed_font_size_raises (nm : str) (attrs : list (str * str)) (cs : list node)
    (style : str) (e : exn) :
  Py.lower nm = u "p" ->
  Soup.lookup (u "style") attrs = Some style ->
  _parse_font_px style = Raise e ->
  (forall list_level,
      0 < length (heading_text (Element nm attrs cs)) <= 60 ->
      _to_md (Element nm attrs cs) list_level = Raise e)
  /\ (forall title,
        0 < length (heading_text (sanitize (Element nm attrs cs))) <= 60 ->
        convert title (Element nm attrs cs) = Raise e).
Proof.
  intros Hp Hs Hpx. split.
  - intros list_level Hlen. apply to_md_paragraph_raises; [exact Hp | exact Hlen|].
    eapply max_font_px_own_style_raises; eassumption.
  - intros title Hlen. unfold convert.
    remember (sanitize (Element nm attrs cs)) as t eqn:Et.
    unfold sanitize in Et. cbn [extract_comments decompose_noisy unwrap_links strip_attrs] in Et.
    rewrite Et in *. rewrite to_md_paragraph_raises with (e := e);
      [reflexivity | exact Hp | exact Hlen|].
    eapply max_font_px_own_style_raises; eassumption.
Qed.

Lemma malformed_font_size_raises_witness :
  _to_md p_malformed_size 0 = Raise ValueError
  /\ convert [] p_malformed_size = Raise ValueError.
Proof.
  destruct (@malformed_font_size_raises (u "p") [(u "style", u "font-size: 1.2.3px")]
              [Text (u "x")] (u "font-size: 1.2.3px") ValueError eq_refl eq_refl eq_refl)
    as [H1 H2].
  split; [apply H1 | apply H2]; vm_compute; lia.
Defined.

(** ** The body normalization on its own output *)

Lemma sub_LF3_fixed (s : str) (k : nat) :
  no_LF3_after k s = true -> Re.sub_LF3_from k s = s.
Proof.
  revert k. induction s as [|c s IH]; intros k H; [reflexivity|].
  cbn [no_LF3_after Re.sub_LF3_from] in *.
  destruct (N.eqb c Py.LF).
  - apply andb_true_iff in H as [Hk H]. apply Nat.ltb_lt in Hk.
    destruct (Nat.leb_spec 2 k) as [Hk'|_]; [lia|]. f_equal. apply IH. exact H.
  - f_equal. apply IH. exact H.
Qed.

Lemma sub_LF3_keeps (R : Py.char -> Py.char -> bool) (s : str) (k : nat) (prev : Py.char) :
  (1 <= k -> prev = Py.LF) ->
  no_adjacent_after R prev s = true ->
  no_adjacent_after R prev (Re.sub_LF3_from k s) = true.
Proof.
  revert k prev. induction s as [|c s IH]; intros k prev Hk H; [reflexivity|].
  cbn [no_adjacent_after] in H. apply andb_true_iff in H as [Hc H].
  cbn [Re.sub_LF3_from]. destruct (N.eqb_spec c Py.LF) as [E|E].
  - destruct (Nat.leb_spec 2 k) as [Hk'|Hk'].
    + rewrite Hk by lia. rewrite <- E. apply IH; [|exact H].
      intros _. exact E.
    + cbn [no_adjacent_after]. rewrite Hc. apply IH; [|exact H].
      intros _. exact E.
  - cbn [no_adjacent_after]. rewrite Hc. apply IH; [lia | exact H].
Qed.

Lemma sub_LF3_Forall (P : Py.char -> Prop) (s : str) (k : nat) :
  Forall P s -> Forall P (Re.sub_LF3_from k s).
Proof.
  intros H. revert k. induction H as [|c s Hc _ IH]; intros k; [constructor|].
  cbn [Re.sub_LF3_from]. destruct (N.eqb c Py.LF); [destruct (Nat.leb 2 k)|];
    try constructor; auto.
Qed.

Lemma no_adjacent_after_app (R : Py.char -> Py.char -> bool) (s t : str) (prev : Py.char) :
  no_adjacent_after R prev (s ++ t) = true ->
  no_adjacent_after R prev s = true /\ no_adjacent R t = true.
Proof.
  revert prev. induction s as [|c s IH]; intros prev H.
  - split; [reflexivity|]. eapply no_adjacent_after_any. exact H.
  - cbn [app no_adjacent_after] in *. apply andb_true_iff in H as [Hc H].
    destruct (IH _ H) as [H1 H2]. rewrite Hc, H1. split; [reflexivity | exact H2].
Qed.

Lemma no_adjacent_app (R : Py.char -> Py.char -> bool) (s t : str) :
  no_adjacent R (s ++ t) = true -> no_adjacent R s = true /\ no_adjacent R t = true.
Proof.
  destruct s as [|c s]; [intros H; split; [reflexivity | exact H]|].
  cbn [app no_adjacent]. apply no_adjacent_after_app.
Qed.

Lemma no_adjacent_strip (R : Py.char -> Py.char -> bool) (s : str) :
  no_adjacent R s = true -> no_adjacent R (Py.strip s) = true.
Proof.
  intros H. unfold Py.strip, Py.rstrip, Py.lstrip.
  destruct (rstrip_by_prefix Py.isspace (Py.lstrip_by Py.isspace s)) as [t Ht].
  destruct (lstrip_by_suffix Py.isspace s) as [t' Ht'].
  rewrite Ht' in H. apply no_adjacent_app in H as [_ H].
  rewrite Ht in H. apply no_adjacent_app in H as [H _]. exact H.
Qed.

Lemma no_adjacent_after_snoc (R : Py.char -> Py.char -> bool) (s : str) (c d prev : Py.char) :
  R c d = false ->
  no_adjacent_after R prev (s ++ [c]) = true ->
  no_adjacent_after R prev (s ++ [c; d]) = true.
Proof.
  intros Hcd. revert prev. induction s as [|x s IH]; intros prev H.
  - cbn [app no_adjacent_after] in *. apply andb_true_iff in H as [H _].
    rewrite H, Hcd. reflexivity.
  - cbn [app no_adjacent_after] in *. apply andb_true_iff in H as [Hx H].
    rewrite Hx. apply IH. exact H.
Qed.

Lemma no_adjacent_snoc (R : Py.char -> Py.char -> bool) (s : str) (c d : Py.char) :
  R c d = false ->
  no_adjacent R (s ++ [c]) = true -> no_adjacent R (s ++ [c; d]) = true.
Proof.
  intros Hcd. destruct s as [|x s].
  - intros _. cbn. rewrite Hcd. reflexivity.
  - cbn [app no_adjacent]. apply no_adjacent_after_snoc. exact Hcd.
Qed.

Lemma Forall_strip (P : Py.char -> Prop) (s : str) :
  Forall P s -> Forall P (Py.strip s).
Proof.
  intros H. unfold Py.strip, Py.rstrip, Py.lstrip.
  destruct (rstrip_by_prefix Py.isspace (Py.lstrip_by Py.isspace s)) as [t Ht].
  destruct (lstrip_by_suffix Py.isspace s) as [t' Ht'].
  rewrite Ht' in H. apply Forall_app in H as [_ H].
  rewrite Ht in H. apply Forall_app in H as [H _]. exact H.
Qed.

Lemma isspace_not_hws (c : Py.char) : Py.isspace c = false -> Re.is_hws c = false.
Proof.
  intros H. unfold Re.is_hws. destruct (N.eqb_spec c Py.SP) as [->|_];
    [discriminate H|]. destruct (N.eqb_spec c Py.TAB) as [->|_];
    [discriminate H | reflexivity].
Qed.

Lemma sub_LF3_keeps_top (R : Py.char -> Py.char -> bool) (s : str) :
  no_adjacent R s = true -> no_adjacent R (Re.sub_LF3 s) = true.
Proof.
  destruct s as [|c s]; [reflexivity|]. intros H. cbn [no_adjacent] in H.
  unfold Re.sub_LF3. cbn [Re.sub_LF3_from].
  destruct (N.eqb_spec c Py.LF) as [E|E]; cbn [Nat.leb no_adjacent];
    apply sub_LF3_keeps; try exact H; [intros _; exact E | lia].
Qed.

(** The text between the whitespace normalization and the final newline. *)
Lemma normalize_body_core (rendered : str) :
  let b := Py.strip (Re.sub_LF3 (Py.strip (_clean_text rendered))) in
  normalize_body rendered = b ++ [Py.LF]
  /\ Py.strip b = b
  /\ Re.sub_LF3 b = b
  /\ _clean_text (b ++ [Py.LF]) = b ++ [Py.LF].
Proof.
  intros b. split; [reflexivity|]. split; [apply strip_idempotent|].
  assert (Hlf3 : no_LF3 b = true).
  { pose proof (normalize_body_no_LF3 rendered) as H.
    unfold normalize_body in H. fold b in H.
    eapply no_LF3_after_prefix. exact H. }
  split; [apply sub_LF3_fixed; exact Hlf3|].
  destruct (clean_text_no_adjacent rendered) as (H1 & H2 & H3).
  pose proof (clean_text_special_spaces rendered) as Hsp.
  assert (Hkeep : forall R, no_adjacent R (_clean_text rendered) = true ->
                            no_adjacent R b = true).
  { intros R H. apply no_adjacent_strip, sub_LF3_keeps_top, no_adjacent_strip. exact H. }
  assert (Hend : forall R, (forall c, Py.isspace c = false -> R c Py.LF = false) ->
                           no_adjacent R b = true -> no_adjacent R (b ++ [Py.LF]) = true).
  { intros R HR H. destruct (strip_last (Re.sub_LF3 (Py.strip (_clean_text rendered))))
      as [E|(r & c & E & Hc)]; fold b in E.
    - rewrite E. reflexivity.
    - rewrite E in *. rewrite <- app_assoc. cbn [app].
      apply no_adjacent_snoc; [apply HR; exact Hc | exact H]. }
  apply clean_text_fixed.
  - apply Forall_app. split; [|repeat constructor; discriminate].
    apply Forall_strip, sub_LF3_Forall, Forall_strip. exact Hsp.
  - apply Hend; [|apply Hkeep; exact H1].
    intros c Hc. unfold hws_before_LF. rewrite (@isspace_not_hws _ Hc). reflexivity.
  - apply Hend; [|apply Hkeep; exact H2].
    intros c Hc. unfold hws_after_LF. apply andb_false_r.
  - apply Hend; [|apply Hkeep; exact H3].
    intros c Hc. unfold hws_pair. apply andb_false_r.
Qed.

Lemma strip_snoc_LF (b : str) : Py.strip b = b -> Py.strip (b ++ [Py.LF]) = b.
Proof.
  intros Hb. destruct (strip_head b) as [E|(c & r & E & Hc)];
    rewrite Hb in E; [rewrite E; reflexivity|].
  unfold Py.strip, Py.rstrip, Py.lstrip. rewrite E. cbn [app].
  rewrite lstrip_by_fixed by exact Hc.
  change (c :: r ++ [Py.LF]) with ((c :: r) ++ [Py.LF]).
  rewrite rstrip_by_drop by reflexivity. rewrite <- E.
  unfold Py.strip, Py.rstrip, Py.lstrip in Hb. rewrite E in Hb at 1.
  rewrite lstrip_by_fixed in Hb by exact Hc. rewrite <- E in Hb. exact Hb.
Qed.

(** X21: the normalization of the rendered body (lines 259-260) is
    idempotent. *)
Theorem normalize_body_idempotent (rendered : str) :
  normalize_body (normalize_body rendered) = normalize_body rendered.
Proof.
  destruct (normalize_body_core rendered) as (E & Hstrip & Hlf & Hclean).
  rewrite E. unfold normalize_body at 1. rewrite Hclean.
  rewrite (@strip_snoc_LF _ Hstrip), Hlf, Hstrip. reflexivity.
Qed.

(** ** The rendered body is whitespace-normal *)

(** X22: the normalized body holds neither of the two special spaces, no
    space or tab next to a newline, no two of them in a row, and does not
    start with one: no line of the body is indented.  So the indentation
    inside a code block, which the block renderer keeps, is gone from the
    output of the pipeline. *)
Theorem normalize_body_whitespace_normal :
  (forall rendered,
      Forall (fun c => c <> Py.NBSP /\ c <> Py.ZWSP) (normalize_body rendered)
      /\ no_adjacent hws_before_LF (normalize_body rendered) = true
      /\ no_adjacent hws_after_LF (normalize_body rendered) = true
      /\ no_adjacent hws_pair (normalize_body rendered) = true
      /\ starts_with_hws (normalize_body rendered) = false)
  /\ _to_md div_pre_indented 0
     = Ok (u "```" ++ [Py.LF] ++ u "a" ++ [Py.LF] ++ u "  b" ++ [Py.LF] ++ u "```"
           ++ [Py.LF; Py.LF])
  /\ convert [] div_pre_indented
     = Ok (u "```" ++ [Py.LF] ++ u "a" ++ [Py.LF] ++ u "b" ++ [Py.LF] ++ u "```" ++ [Py.LF]).
Proof.
  split; [|split; vm_compute; reflexivity].
  intros rendered.
  destruct (normalize_body_core rendered) as (E & Hstrip & _ & Hclean).
  rewrite E.
  pose proof (clean_text_special_spaces
                (Py.strip (Re.sub_LF3 (Py.strip (_clean_text rendered))) ++ [Py.LF])) as Hsp.
  destruct (clean_text_no_adjacent
              (Py.strip (Re.sub_LF3 (Py.strip (_clean_text rendered))) ++ [Py.LF]))
    as (H1 & H2 & H3).
  rewrite Hclean in Hsp, H1, H2, H3. repeat split; try assumption.
  destruct (strip_head (Re.sub_LF3 (Py.strip (_clean_text rendered))))
    as [->|(c & r & -> & Hc)]; [reflexivity|].
  cbn [app starts_with_hws]. apply isspace_not_hws. exact Hc.
Qed.

(** ** The end of the output *)

(** X23: every output of the conversion ends with a newline; when the
    normalized body is not the bare newline, the character before that
    newline is not whitespace, with or without the title heading. *)
Theorem output_ends_with_one_newline (title : str) (content : node) (out : str) :
  convert title content = Ok out ->
  exists rendered r,
    _to_md (sanitize content) 0 = Ok rendered
    /\ out = r ++ [Py.LF]
    /\ (normalize_body rendered <> [Py.LF] ->
        exists r' c, r = r' ++ [c] /\ Py.isspace c = false).
Proof.
  unfold convert. destruct (_to_md (sanitize content) 0) as [rendered|e];
    cbn [bind]; [|discriminate].
  intros [= <-]. exists rendered.
  destruct (normalize_body_end rendered) as (b & Hb & Hend). rewrite Hb.
  assert (Hout : prepend_title title (b ++ [Py.LF]) = b ++ [Py.LF]
                 \/ prepend_title title (b ++ [Py.LF])
                    = (u "# " ++ title ++ [Py.LF; Py.LF] ++ b) ++ [Py.LF]).
  { unfold prepend_title. destruct (Py.truthy title); [|left; reflexivity].
    destruct (negb _); [right|left; reflexivity].
    rewrite <- !app_assoc. reflexivity. }
  destruct Hout as [-> | ->].
  - exists b. split; [reflexivity|]. split; [reflexivity|].
    intros Hne. destruct Hend as [->|Hend]; [contradiction Hne; reflexivity | exact Hend].
  - eexists. split; [reflexivity|]. split; [reflexivity|].
    intros Hne. destruct Hend as [->|(r' & c & -> & Hc)];
      [contradiction Hne; reflexivity|].
    exists (u "# " ++ title ++ [Py.LF; Py.LF] ++ r'), c.
    split; [rewrite <- !app_assoc; reflexivity | exact Hc].
Qed.

Lemma output_ends_with_one_newline_witness :
  exists rendered r,
    _to_md (sanitize div_with_h1) 0 = Ok rendered
    /\ u "# T" ++ [Py.LF; Py.LF] ++ u "# My Post" ++ [Py.LF; Py.LF] ++ u "Some text." ++ [Py.LF]
       = r ++ [Py.LF]
    /\ (normalize_body rendered <> [Py.LF] ->
        exists r' c, r = r' ++ [c] /\ Py.isspace c = false).
Proof.
  apply (@output_ends_with_one_newline (u "T") div_with_h1). vm_compute. reflexivity.
Defined.

(** ** The title step *)

(** X24: for a title that is stripped and holds no line boundary, the
    title step is idempotent: applied to its own result it adds no second
    heading. *)
Theorem prepend_title_idempotent (title md : str) :
  Py.strip title = title -> one_line title = true ->
  prepend_title title (prepend_title title md) = prepend_title title md.
Proof.
  intros Hstrip Hline.
  assert (H : prepend_title title md = md
              \/ (title <> []
                  /\ prepend_title title md = u "# " ++ title ++ [Py.LF; Py.LF] ++ md)).
  { unfold prepend_title. destruct title as [|c title']; [left; reflexivity|].
    cbn [Py.truthy]. destruct (negb _); [right|left; reflexivity].
    split; [discriminate | reflexivity]. }
  destruct H as [H|[Hne H]]; rewrite H; [exact H|].
  apply (proj2 (prepend_title_spec title _)). right.
  change ([Py.LF; Py.LF] ++ md) with (Py.LF :: Py.LF :: md).
  apply opens_with_exact_title; assumption.
Qed.

Lemma prepend_title_idempotent_witness :
  prepend_title (u "T") (prepend_title (u "T") (u "body"))
  = prepend_title (u "T") (u "body").
Proof.
  apply (@prepend_title_idempotent (u "T") (u "body")); reflexivity.
Defined.
